(** * Company Research Assistant: the research service, embedded and verified

    A shallow embedding of [backend/services/research_service.py] (with the
    records of [backend/models.py]) and proofs about its structured-output
    parser, plan synthesizer, conversation store, chat router, streaming
    orchestrator, conversation start-up and feedback; with them the two
    clients the service calls ([backend/services/llm_service.py],
    [backend/services/rag_service.py]) and two pages of the web front end
    ([backend/app.py]).

    Conventions of the embedding.
    - A Python [str] is the list of its code points ([N]); [u "..."] is the
      list for an ASCII literal.
    - A decoded JSON document is a value of [json]; a Python [dict] keeps its
      insertion order and is an association list with unique keys.
    - A function that can raise returns a [result].  A function that calls a
      collaborator (vector search, web search, the model) is a tree of calls
      ([io]), run in a [World.t] that answers them ([run]; [run_faulty] when
      a collaborator raises).  A function that mutates
      [_CONVERSATIONS] takes the store and returns the new one.  The clock
      value [_now_iso()] and the identifier [uuid.uuid4()] are arguments.
    - Library functions whose output text is not reproduced (number
      formatting, [json.dumps], [repr]) are parameters of the section
      [Service]; [Demo] gives simple instances to run examples. *)

From Stdlib Require Import ZArith NArith List String Ascii Bool Lia.
From stdpp Require Import gmap.
Import ListNotations.

#[local] Set Default Goal Selector "1".
#[local] Set Warnings "-register-all".
#[local] Open Scope N_scope.

(** ** Python text *)

Module Py.

Abbreviation char := N (only parsing).
Abbreviation str := (list N) (only parsing).

(** The code points of an ASCII literal. *)
Definition u (s : string) : str := List.map N_of_ascii (list_ascii_of_string s).

Fixpoint dropwhile (p : char -> bool) (s : str) : str :=
  match s with
  | [] => []
  | c :: t => if p c then dropwhile p t else s
  end.

(** [str.isspace] on one code point: the characters [str.strip()] removes. *)
Definition isspace (c : char) : bool :=
  ((9 <=? c) && (c <=? 13)) || ((28 <=? c) && (c <=? 32))
  || (c =? 133) || (c =? 160) || (c =? 5760)
  || ((8192 <=? c) && (c <=? 8202))
  || (c =? 8232) || (c =? 8233) || (c =? 8239) || (c =? 8287) || (c =? 12288).

Definition lstrip (s : str) : str := dropwhile isspace s.
Definition rstrip (s : str) : str := rev (dropwhile isspace (rev s)).
Definition strip (s : str) : str := rstrip (lstrip s).

(** [s.rstrip(ch)] for a one-character argument. *)
Definition rstrip_char (ch : char) (s : str) : str :=
  rev (dropwhile (N.eqb ch) (rev s)).

Fixpoint startswith (p s : str) : bool :=
  match p, s with
  | [], _ => true
  | _ :: _, [] => false
  | a :: p', b :: s' => (a =? b) && startswith p' s'
  end.

(** [w in s] *)
Fixpoint contains (w s : str) : bool :=
  startswith w s || match s with [] => false | _ :: t => contains w t end.

(** [s.split(sep, 1)] for a one-character separator: the text before the
    first separator and, when there is one, the text after it. *)
Fixpoint split1 (sep : char) (s : str) : str * option str :=
  match s with
  | [] => ([], None)
  | c :: t =>
      if c =? sep then ([], Some t)
      else let '(a, b) := split1 sep t in (c :: a, b)
  end.

(** [s.find(ch)] and [s.rfind(ch)] for a one-character argument; -1 when the
    character does not occur. *)
Fixpoint find_from (ch : char) (i : Z) (s : str) : Z :=
  match s with
  | [] => (-1)%Z
  | c :: t => if c =? ch then i else find_from ch (i + 1)%Z t
  end.
Definition find (ch : char) (s : str) : Z := find_from ch 0%Z s.

Fixpoint rfind_from (ch : char) (i : Z) (best : Z) (s : str) : Z :=
  match s with
  | [] => best
  | c :: t => rfind_from ch (i + 1)%Z (if c =? ch then i else best) t
  end.
Definition rfind (ch : char) (s : str) : Z := rfind_from ch 0%Z (-1)%Z s.

(** [s[a:b]] for indices [0 <= a]. *)
Definition slice (a b : Z) (s : str) : str :=
  firstn (Z.to_nat (b - a)) (skipn (Z.to_nat a) s).

(** [s.replace(a, b)] for one-character [a] and [b]. *)
Definition replace_char (a b : char) (s : str) : str :=
  List.map (fun c => if c =? a then b else c) s.

(** [s.replace("__", "_")]: non-overlapping occurrences, left to right. *)
Fixpoint replace_double_underscore (s : str) : str :=
  match s with
  | [] => []
  | a :: t =>
      match t with
      | b :: t' =>
          if (a =? 95) && (b =? 95) then 95 :: replace_double_underscore t'
          else a :: replace_double_underscore t
      | [] => [a]
      end
  end.

(** [str.lower] on one code point.  The mapping is the Unicode one on
    U+0000..U+00FF and on the two code points above whose lower-case form
    contains an ASCII letter (U+0130 and the Kelvin sign U+212A); the other
    code points are left as they are, which changes no test of the form
    [keyword in s.lower()] for an ASCII keyword. *)
Definition lower_char (c : char) : str :=
  if (65 <=? c) && (c <=? 90) then [c + 32]
  else if (192 <=? c) && (c <=? 222) && negb (c =? 215) then [c + 32]
  else if c =? 304 then [105; 775]
  else if c =? 8490 then [107]
  else [c].

Definition lower (s : str) : str := flat_map lower_char s.

(** [sep.join(parts)] *)
Fixpoint join (sep : str) (parts : list str) : str :=
  match parts with
  | [] => []
  | [p] => p
  | p :: rest => p ++ sep ++ join sep rest
  end.

(** Decimal digits of a natural number, as [str(n)] prints them. *)
Fixpoint digits_fuel (fuel : nat) (n : N) (acc : str) : str :=
  match fuel with
  | O => acc
  | S f =>
      let acc' := (48 + n mod 10) :: acc in
      if n <? 10 then acc' else digits_fuel f (n / 10) acc'
  end.
Definition str_of_N (n : N) : str := digits_fuel (S (N.to_nat (N.log2 n))) n [].
Definition str_of_nat (n : nat) : str := str_of_N (N.of_nat n).

End Py.
Import Py.

(** ** Decoded JSON values and [json.loads] *)

Module Json.

(** A Python float that came out of a JSON number: the exact decimal
    [(-1)^neg * mant * 10^exp10] its literal denotes, or one of the constants
    [NaN], [Infinity], [-Infinity].  Rounding to binary64 is not modelled;
    the one observation the service makes of a float, whether it is zero, is
    computed exactly in [float_is_zero]. *)
Inductive pyfloat : Type :=
| FNaN
| FInf (neg : bool)
| FDec (neg : bool) (mant : N) (exp10 : Z).

Inductive json : Type :=
| JNull
| JBool (b : bool)
| JInt (z : Z)
| JFloat (f : pyfloat)
| JStr (s : str)
| JArr (l : list json)
| JObj (d : list (str * json)).

Abbreviation dict := (list (str * json)) (only parsing).

Definition str_eqb (a b : str) : bool := bool_decide (a = b).

(** [d.get(k)] as an option, [d.get(k)] with Python's default [None], and
    [d.get(k, dflt)]. *)
Fixpoint dict_lookup (k : str) (d : dict) : option json :=
  match d with
  | [] => None
  | (k', v) :: d' => if str_eqb k k' then Some v else dict_lookup k d'
  end.
Definition dict_get (k : str) (d : dict) : json :=
  match dict_lookup k d with Some v => v | None => JNull end.
Definition dict_get_or (k : str) (dflt : json) (d : dict) : json :=
  match dict_lookup k d with Some v => v | None => dflt end.

(** [d[k] = v]: an existing key keeps its place, a new key goes last. *)
Fixpoint dict_set (k : str) (v : json) (d : dict) : dict :=
  match d with
  | [] => [(k, v)]
  | (k', v') :: d' =>
      if str_eqb k k' then (k, v) :: d' else (k', v') :: dict_set k v d'
  end.

(** A decimal below half the smallest subnormal rounds to zero:
    [mant * 10^exp10 <= 2^-1075]. *)
Definition float_is_zero (f : pyfloat) : bool :=
  match f with
  | FNaN | FInf _ => false
  | FDec _ mant e =>
      (mant =? 0)
      || ((e <? 0)%Z && (Z.of_N mant * 2 ^ 1075 <=? 10 ^ (- e))%Z)
  end.

(** Truth value of a decoded value, as [if v:] and [bool(v)] see it. *)
Definition truthy (v : json) : bool :=
  match v with
  | JNull => false
  | JBool b => b
  | JInt z => negb (z =? 0)%Z
  | JFloat f => negb (float_is_zero f)
  | JStr s => match s with [] => false | _ => true end
  | JArr l => match l with [] => false | _ => true end
  | JObj d => match d with [] => false | _ => true end
  end.

(** *** The decoder

    The grammar is that of CPython's scanner ([json.decoder], [_json.c]) in
    its default configuration: strict strings, the constants [NaN],
    [Infinity] and [-Infinity] accepted.  Interpreter resource limits (the
    recursion limit, the cap on the digits of an integer literal) are not
    part of the model. *)

Definition is_ws (c : char) : bool :=
  (c =? 32) || (c =? 9) || (c =? 10) || (c =? 13).
Definition skip_ws (s : str) : str := dropwhile is_ws s.

Definition is_digit (c : char) : bool := (48 <=? c) && (c <=? 57).

Fixpoint span_digits (s : str) : str * str :=
  match s with
  | [] => ([], [])
  | c :: t =>
      if is_digit c then let '(ds, r) := span_digits t in (c :: ds, r)
      else ([], s)
  end.

Definition digits_value (ds : str) : N :=
  fold_left (fun acc c => 10 * acc + (c - 48)) ds 0.

Definition hex_digit (c : char) : option N :=
  if is_digit c then Some (c - 48)
  else if (97 <=? c) && (c <=? 102) then Some (c - 87)
  else if (65 <=? c) && (c <=? 70) then Some (c - 55)
  else None.

Definition hex4 (a b c d : char) : option N :=
  match hex_digit a, hex_digit b, hex_digit c, hex_digit d with
  | Some x, Some y, Some z, Some w => Some (((x * 16 + y) * 16 + z) * 16 + w)
  | _, _, _, _ => None
  end.

Definition simple_escape (c : char) : option char :=
  if (c =? 34) || (c =? 92) || (c =? 47) then Some c
  else if c =? 98 then Some 8
  else if c =? 102 then Some 12
  else if c =? 110 then Some 10
  else if c =? 114 then Some 13
  else if c =? 116 then Some 9
  else None.

Definition is_high_surrogate (c : N) : bool := (55296 <=? c) && (c <=? 56319).
Definition is_low_surrogate (c : N) : bool := (56320 <=? c) && (c <=? 57343).
Definition join_surrogates (hi lo : N) : N :=
  65536 + (hi - 55296) * 1024 + (lo - 56320).

(** [scanstring]: the text after an opening quote, up to the closing one.
    [acc] holds the decoded characters so far, last first. *)
Fixpoint scanstring (s : str) (acc : str) : option (str * str) :=
  match s with
  | [] => None
  | c :: t =>
      if c =? 34 then Some (rev acc, t)
      else if c =? 92 then
        match t with
        | [] => None
        | e :: t1 =>
            if e =? 117 then
              match t1 with
              | h1 :: h2 :: h3 :: h4 :: t2 =>
                  match hex4 h1 h2 h3 h4 with
                  | None => None
                  | Some cp =>
                      if is_high_surrogate cp && (7 <=? length t2)%nat then
                        match t2 with
                        | b :: uu :: g1 :: g2 :: g3 :: g4 :: t3 =>
                            if (b =? 92) && (uu =? 117) then
                              match hex4 g1 g2 g3 g4 with
                              | None => None
                              | Some lo =>
                                  if is_low_surrogate lo
                                  then scanstring t3 (join_surrogates cp lo :: acc)
                                  else scanstring t2 (cp :: acc)
                              end
                            else scanstring t2 (cp :: acc)
                        | _ => scanstring t2 (cp :: acc)
                        end
                      else scanstring t2 (cp :: acc)
                  end
              | _ => None
              end
            else
              match simple_escape e with
              | Some x => scanstring t1 (x :: acc)
              | None => None
              end
        end
      else if c <=? 31 then None
      else scanstring t (c :: acc)
  end.

(** A number literal at the head of [s]: an optional minus sign, then 0 or a
    digit 1-9 followed by digits, then an optional fraction (a point and at
    least one digit) and an optional exponent (e or E, an optional sign, at
    least one digit); the value is an integer when it has neither. *)
Definition match_number (s : str) : option (json * str) :=
  let '(neg, s1) :=
    match s with
    | c :: t => if c =? 45 then (true, t) else (false, s)
    | [] => (false, s)
    end in
  match s1 with
  | [] => None
  | c :: t =>
      let int_part :=
        if c =? 48 then Some ([c], t)
        else if is_digit c then let '(ds, r) := span_digits t in Some (c :: ds, r)
        else None in
      match int_part with
      | None => None
      | Some (ids, r1) =>
          let '(fds, r2) :=
            match r1 with
            | p :: d :: r =>
                if (p =? 46) && is_digit d
                then let '(ds, r') := span_digits r in (Some (d :: ds), r')
                else (None, r1)
            | _ => (None, r1)
            end in
          let '(ex, r3) :=
            match r2 with
            | e :: r =>
                if (e =? 101) || (e =? 69) then
                  let '(eneg, r') :=
                    match r with
                    | sg :: r'' =>
                        if sg =? 45 then (true, r'')
                        else if sg =? 43 then (false, r'')
                        else (false, r)
                    | [] => (false, r)
                    end in
                  let '(eds, r'') := span_digits r' in
                  match eds with
                  | [] => (None, r2)
                  | _ =>
                      let v := Z.of_N (digits_value eds) in
                      (Some (if eneg then (- v)%Z else v), r'')
                  end
                else (None, r2)
            | [] => (None, r2)
            end in
          match fds, ex with
          | None, None =>
              let v := Z.of_N (digits_value ids) in
              Some (JInt (if neg then (- v)%Z else v), r3)
          | _, _ =>
              let fr := match fds with Some ds => ds | None => [] end in
              let e := match ex with Some e => e | None => 0%Z end in
              Some (JFloat (FDec neg (digits_value (ids ++ fr))
                                 (e - Z.of_nat (length fr))%Z), r3)
          end
      end
  end.

(** [scan_once] decodes the value at the head of the text and returns it
    with the text that follows; [object_items] and [array_items] are the
    loops over the members of an object and the elements of an array.  The
    recursion is on [fuel]; [json_loads] supplies more than twice the length
    of the text, which is always enough ([json_loads_fuel]). *)
Fixpoint scan_once (fuel : nat) (s : str) {struct fuel} : option (json * str) :=
  match fuel with
  | O => None
  | S n =>
      match s with
      | [] => None
      | c :: t =>
          if c =? 34 then
            match scanstring t [] with
            | Some (x, r) => Some (JStr x, r)
            | None => None
            end
          else if c =? 123 then
            match skip_ws t with
            | [] => None
            | c' :: r => if c' =? 125 then Some (JObj [], r)
                         else object_items n [] (c' :: r)
            end
          else if c =? 91 then
            match skip_ws t with
            | [] => None
            | c' :: r => if c' =? 93 then Some (JArr [], r)
                         else array_items n [] (c' :: r)
            end
          else if (c =? 110) && startswith (u "ull") t then Some (JNull, skipn 3 t)
          else if (c =? 116) && startswith (u "rue") t then Some (JBool true, skipn 3 t)
          else if (c =? 102) && startswith (u "alse") t then Some (JBool false, skipn 4 t)
          else if (c =? 78) && startswith (u "aN") t then Some (JFloat FNaN, skipn 2 t)
          else if (c =? 73) && startswith (u "nfinity") t
            then Some (JFloat (FInf false), skipn 7 t)
          else if (c =? 45) && startswith (u "Infinity") t
            then Some (JFloat (FInf true), skipn 8 t)
          else match_number s
      end
  end
with object_items (fuel : nat) (d : dict) (s : str) {struct fuel}
  : option (json * str) :=
  match fuel with
  | O => None
  | S n =>
      match s with
      | [] => None
      | q :: t1 =>
          if q =? 34 then
            match scanstring t1 [] with
            | None => None
            | Some (key, t2) =>
                match skip_ws t2 with
                | [] => None
                | col :: t3 =>
                    if col =? 58 then
                      match scan_once n (skip_ws t3) with
                      | None => None
                      | Some (v, t4) =>
                          let d' := dict_set key v d in
                          match skip_ws t4 with
                          | [] => None
                          | x :: t5 =>
                              if x =? 125 then Some (JObj d', t5)
                              else if x =? 44 then object_items n d' (skip_ws t5)
                              else None
                          end
                      end
                    else None
                end
            end
          else None
      end
  end
with array_items (fuel : nat) (acc : list json) (s : str) {struct fuel}
  : option (json * str) :=
  match fuel with
  | O => None
  | S n =>
      match scan_once n s with
      | None => None
      | Some (v, t) =>
          match skip_ws t with
          | [] => None
          | x :: t' =>
              if x =? 93 then Some (JArr (rev (v :: acc)), t')
              else if x =? 44 then array_items n (v :: acc) (skip_ws t')
              else None
          end
      end
  end.

(** [json.loads(s)] on a [str]: [None] stands for the [JSONDecodeError]
    (a [ValueError]) the call raises. *)
Definition json_loads (s : str) : option json :=
  if startswith [65279] s then None
  else
    match scan_once (S (2 * length s)) (skip_ws s) with
    | Some (v, r) => match skip_ws r with [] => Some v | _ :: _ => None end
    | None => None
    end.

End Json.
Import Json.


(** ** Structured-output parser *)

Definition backticks3 : str := [96; 96; 96].

(** [_strip_code_fences] *)
Definition _strip_code_fences (text : str) : str :=
  let cleaned := strip text in
  if startswith backticks3 cleaned then
    let cleaned :=
      match split1 10 cleaned with
      | (first, Some rest) =>
          if startswith backticks3 (strip first) then rest else cleaned
      | (_, None) => cleaned
      end in
    let cleaned := rstrip_char 96 cleaned in
    strip cleaned
  else strip cleaned.

(** [_parse_llm_json].  Both [json.loads] calls sit under [except Exception],
    so a decoding error never leaves the function; the value returned is
    whatever the decoder produced, or the empty dict. *)
Definition _parse_llm_json (raw : str) : json :=
  let cleaned := _strip_code_fences raw in
  match json_loads cleaned with
  | Some v => v
  | None =>
      let start := find 123 cleaned in
      let end_ := rfind 125 cleaned in
      if negb (start =? -1)%Z && negb (end_ =? -1)%Z && (start <? end_)%Z then
        match json_loads (slice start (end_ + 1) cleaned) with
        | Some v => v
        | None => JObj []
        end
      else JObj []
  end.

(** ** Exceptions *)

Inductive exn : Type :=
| AttributeError | TypeError | KeyError | OverflowError | ValueError
| ValidationError | UnicodeEncodeError.

Inductive result (A : Type) : Type :=
| Ok (a : A)
| Raise (e : exn).
Arguments Ok {A} a.
Arguments Raise {A} e.

(** Sequencing: the first exception raised ends the computation.  The
    notation [x ← r; k] below is this bind. *)
#[global] Instance result_bind : MBind result := fun A B k r =>
  match r with
  | Ok a => k a
  | Raise e => Raise e
  end.

(** ** The records of [models.py] *)

Inductive ResearchDepth : Type := quick_summary | deep_research | full_account_plan.

(** The string a [ResearchDepth] literal is at run time. *)
Definition depth_value (d : ResearchDepth) : str :=
  match d with
  | quick_summary => u "quick_summary"
  | deep_research => u "deep_research"
  | full_account_plan => u "full_account_plan"
  end.

Module StartResearchRequest.
Record t : Type := mk {
    company_name : str;
    depth : ResearchDepth;
    extra_instructions : option str }.
End StartResearchRequest.

Inductive StepStatus : Type := pending | running | complete | skipped | error.

Module ResearchStep.
Record t : Type := mk {
    id : str;
    label : str;
    status : StepStatus;
    detail : option str }.
End ResearchStep.

Module ResearchMetadata.
Record t : Type := mk {
    generated_at : str;
    depth : str;
    sources_used : list str;
    steps : list ResearchStep.t;
    conflicts_detected : bool;
    confidence_score : pyfloat }.
End ResearchMetadata.

Module CompanySection.
Record t : Type := mk { title : str; content : str }.
End CompanySection.

(** [kpi_summary] is [JNull] for [None]; [sources] is [None] or a dict.  The
    field [depth] holds the literal's string. *)
Module AccountPlan.
Record t : Type := mk {
    company_name : str;
    depth : str;
    overview : str;
    company_profile : str;
    market_analysis : str;
    financial_highlights : str;
    product_portfolio : str;
    technology_stack : str;
    competitors : str;
    swot : str;
    opportunities : str;
    risks : str;
    account_plan_30_60_90 : str;
    kpi_summary : json;
    sources : option dict;
    metadata : option ResearchMetadata.t;
    sections : list CompanySection.t }.
End AccountPlan.

Module ChatMessageRequest.
Record t : Type := mk { conversation_id : str; message : str }.
End ChatMessageRequest.

Module ChatMessageResponse.
Record t : Type := mk { reply : str }.
End ChatMessageResponse.

(** The zero the code writes as [0.0]. *)
Definition float_zero : pyfloat := FDec false 0 0.

(** ** Plan synthesizer *)

(** [_build_steps] *)
Definition _build_steps (rag_ctx : list str) (web_text : option str)
  : list ResearchStep.t :=
  let has_rag := match rag_ctx with [] => false | _ => true end in
  let has_web := match web_text with Some (_ :: _) => true | _ => false end in
  [ ResearchStep.mk (u "intent") (u "Understand user intent and depth") complete
      (Some (u "Parsed company name and research depth."));
    ResearchStep.mk (u "rag_search") (u "RAG search on internal PDFs")
      (if has_rag then complete else skipped)
      (Some (if has_rag
             then u "Retrieved " ++ str_of_nat (length rag_ctx) ++ u " internal chunks."
             else u "No RAG documents found."));
    ResearchStep.mk (u "web_search") (u "External web search")
      (if has_web then complete else skipped)
      (Some (if has_web
             then u "Web search executed via Serper."
             else u "Web search unavailable or failed."));
    ResearchStep.mk (u "llm_synthesis") (u "LLM synthesis of account plan") complete
      (Some (u "LLM combined all signals into structured account plan.")) ].

(** The heading both overview templates put after the company name; the
    three characters between the spaces are the ones the source file has. *)
Definition snapshot_heading : str :=
  [32; 226; 8364; 8220; 32] ++ u "Executive Snapshot:" ++ [10; 10].

Definition plan_summary : str :=
  u "Structured 30-60-90 Day Plan data is available below.".

(** [sep.join(v)] for a decoded value [v]: a list (of strings), a string
    (its characters) or a dict (its keys) can be iterated; anything else, or
    a non-string item, is a [TypeError]. *)
Fixpoint strings_of (l : list json) : option (list str) :=
  match l with
  | [] => Some []
  | JStr s :: t =>
      match strings_of t with Some r => Some (s :: r) | None => None end
  | _ :: _ => None
  end.

Definition join_value (sep : str) (v : json) : result str :=
  match v with
  | JArr l =>
      match strings_of l with
      | Some parts => Ok (join sep parts)
      | None => Raise TypeError
      end
  | JStr s => Ok (join sep (List.map (fun c => [c]) s))
  | JObj d => Ok (join sep (List.map fst d))
  | _ => Raise TypeError
  end.

(** What pydantic accepts for a [str] field, and for
    [Optional[List[Dict[str, Any]]]]. *)
Definition validate_str (v : json) : result str :=
  match v with
  | JStr s => Ok s
  | _ => Raise ValidationError
  end.

Definition is_dict (v : json) : bool :=
  match v with JObj _ => true | _ => false end.

Definition validate_kpi_summary (v : json) : result json :=
  match v with
  | JNull => Ok JNull
  | JArr l => if forallb is_dict l then Ok v else Raise ValidationError
  | _ => Raise ValidationError
  end.

(** [float(z)] for an integer overflows from [2^1024 - 2^970] on. *)
Definition float_of_int (z : Z) : result pyfloat :=
  if (2 ^ 1024 - 2 ^ 970 <=? Z.abs z)%Z then Raise OverflowError
  else Ok (FDec (z <? 0)%Z (Z.abs_N z) 0).

(** ** Conversation store *)

(** One chat turn: the dict with the keys ["user"] and ["assistant"]. *)
Module Turn.
Record t : Type := mk { user : str; assistant : str }.
End Turn.

(** One entry of [_CONVERSATIONS].  [conflicts_to_resolve] is whatever the
    model's reply had under ["conflicts"], not necessarily a list. *)
Module Conversation.
Record t : Type := mk {
    plan : AccountPlan.t;
    history : list Turn.t;
    conflicts_to_resolve : json }.
End Conversation.

Abbreviation store := (gmap (list N) Conversation.t) (only parsing).

(** Assignment to one attribute of a plan. *)
Definition set_company_name (v : str) (p : AccountPlan.t) : AccountPlan.t :=
  let 'AccountPlan.mk _ dp ov cp ma fh pp ts co sw op ri ap kp so me se := p in
  AccountPlan.mk v dp ov cp ma fh pp ts co sw op ri ap kp so me se.

Definition set_depth (v : str) (p : AccountPlan.t) : AccountPlan.t :=
  let 'AccountPlan.mk cn _ ov cp ma fh pp ts co sw op ri ap kp so me se := p in
  AccountPlan.mk cn v ov cp ma fh pp ts co sw op ri ap kp so me se.

Definition set_overview (v : str) (p : AccountPlan.t) : AccountPlan.t :=
  let 'AccountPlan.mk cn dp _ cp ma fh pp ts co sw op ri ap kp so me se := p in
  AccountPlan.mk cn dp v cp ma fh pp ts co sw op ri ap kp so me se.

Definition set_company_profile (v : str) (p : AccountPlan.t) : AccountPlan.t :=
  let 'AccountPlan.mk cn dp ov _ ma fh pp ts co sw op ri ap kp so me se := p in
  AccountPlan.mk cn dp ov v ma fh pp ts co sw op ri ap kp so me se.

Definition set_market_analysis (v : str) (p : AccountPlan.t) : AccountPlan.t :=
  let 'AccountPlan.mk cn dp ov cp _ fh pp ts co sw op ri ap kp so me se := p in
  AccountPlan.mk cn dp ov cp v fh pp ts co sw op ri ap kp so me se.

Definition set_financial_highlights (v : str) (p : AccountPlan.t) : AccountPlan.t :=
  let 'AccountPlan.mk cn dp ov cp ma _ pp ts co sw op ri ap kp so me se := p in
  AccountPlan.mk cn dp ov cp ma v pp ts co sw op ri ap kp so me se.

Definition set_product_portfolio (v : str) (p : AccountPlan.t) : AccountPlan.t :=
  let 'AccountPlan.mk cn dp ov cp ma fh _ ts co sw op ri ap kp so me se := p in
  AccountPlan.mk cn dp ov cp ma fh v ts co sw op ri ap kp so me se.

Definition set_technology_stack (v : str) (p : AccountPlan.t) : AccountPlan.t :=
  let 'AccountPlan.mk cn dp ov cp ma fh pp _ co sw op ri ap kp so me se := p in
  AccountPlan.mk cn dp ov cp ma fh pp v co sw op ri ap kp so me se.

Definition set_competitors (v : str) (p : AccountPlan.t) : AccountPlan.t :=
  let 'AccountPlan.mk cn dp ov cp ma fh pp ts _ sw op ri ap kp so me se := p in
  AccountPlan.mk cn dp ov cp ma fh pp ts v sw op ri ap kp so me se.

Definition set_swot (v : str) (p : AccountPlan.t) : AccountPlan.t :=
  let 'AccountPlan.mk cn dp ov cp ma fh pp ts co _ op ri ap kp so me se := p in
  AccountPlan.mk cn dp ov cp ma fh pp ts co v op ri ap kp so me se.

Definition set_opportunities (v : str) (p : AccountPlan.t) : AccountPlan.t :=
  let 'AccountPlan.mk cn dp ov cp ma fh pp ts co sw _ ri ap kp so me se := p in
  AccountPlan.mk cn dp ov cp ma fh pp ts co sw v ri ap kp so me se.

Definition set_risks (v : str) (p : AccountPlan.t) : AccountPlan.t :=
  let 'AccountPlan.mk cn dp ov cp ma fh pp ts co sw op _ ap kp so me se := p in
  AccountPlan.mk cn dp ov cp ma fh pp ts co sw op v ap kp so me se.

Definition set_account_plan_30_60_90 (v : str) (p : AccountPlan.t) : AccountPlan.t :=
  let 'AccountPlan.mk cn dp ov cp ma fh pp ts co sw op ri _ kp so me se := p in
  AccountPlan.mk cn dp ov cp ma fh pp ts co sw op ri v kp so me se.

Definition set_kpi_summary (v : json) (p : AccountPlan.t) : AccountPlan.t :=
  let 'AccountPlan.mk cn dp ov cp ma fh pp ts co sw op ri ap _ so me se := p in
  AccountPlan.mk cn dp ov cp ma fh pp ts co sw op ri ap v so me se.

Definition set_sections (v : list CompanySection.t) (p : AccountPlan.t) : AccountPlan.t :=
  let 'AccountPlan.mk cn dp ov cp ma fh pp ts co sw op ri ap kp so me _ := p in
  AccountPlan.mk cn dp ov cp ma fh pp ts co sw op ri ap kp so me v.

(** [hasattr(plan, name)] on the declared fields of [AccountPlan].  The
    attributes every pydantic model inherits are not part of the model: no
    title the synthesizer gives a section normalises to one of them
    ([synthesized_titles], [attr_name_of_synthesized]). *)
Definition plan_fields : list str :=
  [ u "company_name";
    u "depth";
    u "overview";
    u "company_profile";
    u "market_analysis";
    u "financial_highlights";
    u "product_portfolio";
    u "technology_stack";
    u "competitors";
    u "swot";
    u "opportunities";
    u "risks";
    u "account_plan_30_60_90";
    u "kpi_summary";
    u "sources";
    u "metadata";
    u "sections" ].

Definition hasattr (name : str) : bool := bool_decide (name ∈ plan_fields).

Definition protected_attrs : list str := [u "sections"; u "metadata"; u "sources"].

(** [setattr(plan, name, v)] for a string [v] and an unprotected field. *)
Definition setattr (name : str) (v : str) (p : AccountPlan.t) : option AccountPlan.t :=
  if str_eqb name (u "company_name") then Some (set_company_name v p)
  else if str_eqb name (u "depth") then Some (set_depth v p)
  else if str_eqb name (u "overview") then Some (set_overview v p)
  else if str_eqb name (u "company_profile") then Some (set_company_profile v p)
  else if str_eqb name (u "market_analysis") then Some (set_market_analysis v p)
  else if str_eqb name (u "financial_highlights") then Some (set_financial_highlights v p)
  else if str_eqb name (u "product_portfolio") then Some (set_product_portfolio v p)
  else if str_eqb name (u "technology_stack") then Some (set_technology_stack v p)
  else if str_eqb name (u "competitors") then Some (set_competitors v p)
  else if str_eqb name (u "swot") then Some (set_swot v p)
  else if str_eqb name (u "opportunities") then Some (set_opportunities v p)
  else if str_eqb name (u "risks") then Some (set_risks v p)
  else if str_eqb name (u "account_plan_30_60_90") then Some (set_account_plan_30_60_90 v p)
  else if str_eqb name (u "kpi_summary") then Some (set_kpi_summary (JStr v) p)
  else None.

(** The loop that looks for the section to edit: the index of the first
    section with that title. *)
Fixpoint find_section (section_title : str) (l : list CompanySection.t)
  : option nat :=
  match l with
  | [] => None
  | s :: t =>
      if str_eqb (CompanySection.title s) section_title then Some O
      else option_map S (find_section section_title t)
  end.

Definition set_content (new_content : str) (s : CompanySection.t) : CompanySection.t :=
  CompanySection.mk (CompanySection.title s) new_content.

Definition attr_name_of (section_title : str) : str :=
  replace_double_underscore
    (replace_char 45 95 (replace_char 32 95 (lower section_title))).

Definition edit_turn (section_title : str) : Turn.t :=
  Turn.mk (u "System Edit: Update '" ++ section_title ++ u "'")
          (u "The section '" ++ section_title
             ++ u "' has been updated with the new content.").

(** [update_account_plan_section]: the result and the store afterwards. *)
Definition update_account_plan_section
    (conversation_id section_title new_content : str) (st : store)
  : bool * store :=
  match st !! conversation_id with
  | None => (false, st)
  | Some state =>
      let plan := Conversation.plan state in
      match find_section section_title (AccountPlan.sections plan) with
      | Some i =>
          let plan :=
            set_sections
              (alter (set_content new_content) i (AccountPlan.sections plan))
              plan in
          let attr_name := attr_name_of section_title in
          let plan :=
            if hasattr attr_name
               && negb (bool_decide (attr_name ∈ protected_attrs))
            then match setattr attr_name new_content plan with
                 | Some plan' => plan'
                 | None => plan
                 end
            else plan in
          let state :=
            Conversation.mk plan
              (Conversation.history state ++ [edit_turn section_title])
              (Conversation.conflicts_to_resolve state) in
          (true, <[conversation_id := state]> st)
      | None => (false, st)
      end
  end.

(** ** Collaborators

    The service calls four collaborators: the vector search
    ([search_context]), the web search ([web_search]), the model ([call_llm])
    and the model's streaming endpoint ([stream_llm]).  A computation that
    calls them is a tree: each node is one call, with one subtree per
    answer.  A generator's [yield] is a node as well, so that the tree fixes
    the order of the frames among the calls.

    [web_search] and [call_llm] catch every exception.  [search_context]
    raises when [init_vectorstore] does, and the generator [stream_llm] can
    raise while it is read (a chunk without choices, a broken connection).
    The loop over the model stream therefore gets the chunks the stream
    delivered together with the way the reading ended.  [run] is the run in
    which no call raises; [run_faulty] takes the calls that raise as an
    argument. *)

(** How a computation that an exception can leave ends. *)
Inductive outcome : Type := Returned | Raised.

Inductive io (A : Type) : Type :=
| Done (a : A)
| SearchContext (query : str) (k : nat) (next : list str -> io A)
| WebSearch (query : str) (num_results : nat) (next : option str -> io A)
| CallLlm (system_prompt user_prompt : str) (next : str -> io A)
| StreamLlm (system_prompt user_prompt : str) (next : list str -> outcome -> io A)
| Yield (frame : str) (next : io A).
Arguments Done {A} a.
Arguments SearchContext {A} query k next.
Arguments WebSearch {A} query num_results next.
Arguments CallLlm {A} system_prompt user_prompt next.
Arguments StreamLlm {A} system_prompt user_prompt next.
Arguments Yield {A} frame next.

Fixpoint io_bind {A B : Type} (k : A -> io B) (p : io A) : io B :=
  match p with
  | Done a => k a
  | SearchContext q n next => SearchContext q n (fun r => io_bind k (next r))
  | WebSearch q n next => WebSearch q n (fun r => io_bind k (next r))
  | CallLlm sp up next => CallLlm sp up (fun r => io_bind k (next r))
  | StreamLlm sp up next => StreamLlm sp up (fun r e => io_bind k (next r e))
  | Yield f next => Yield f (io_bind k next)
  end.

#[global] Instance io_mbind : MBind io := fun A B k p => io_bind k p.

(** What an observer of the service sees: the calls and the frames. *)
Inductive event : Type :=
| SearchContextCall (query : str) (k : nat)
| WebSearchCall (query : str) (num_results : nat)
| LlmCall (system_prompt user_prompt : str)
| LlmStreamCall (system_prompt user_prompt : str)
| Yielded (frame : str).

(** The answers of the collaborators during one request. *)
Module World.
Record t : Type := mk {
  search_context : str -> nat -> list str;
  web_search : str -> nat -> option str;
  call_llm : str -> str -> str;
  stream_llm : str -> str -> list str }.
End World.

(** Running a computation in a world: its result and what it did, in
    order. *)
Fixpoint run {A : Type} (w : World.t) (p : io A) : A * list event :=
  match p with
  | Done a => (a, [])
  | SearchContext q k next =>
      let '(a, log) := run w (next (World.search_context w q k)) in
      (a, SearchContextCall q k :: log)
  | WebSearch q n next =>
      let '(a, log) := run w (next (World.web_search w q n)) in
      (a, WebSearchCall q n :: log)
  | CallLlm sp up next =>
      let '(a, log) := run w (next (World.call_llm w sp up)) in
      (a, LlmCall sp up :: log)
  | StreamLlm sp up next =>
      let '(a, log) := run w (next (World.stream_llm w sp up) Returned) in
      (a, LlmStreamCall sp up :: log)
  | Yield f next =>
      let '(a, log) := run w next in
      (a, Yielded f :: log)
  end.

(** The calls that raise during one request: the vector search (because
    [init_vectorstore] raises), and the reading of the model stream, which
    then breaks off after [k] chunks (after the last one, when the stream
    has fewer). *)
Module Faults.
Record t : Type := mk {
  vectorstore_raises : bool;
  stream_raises_after : option nat }.
End Faults.

(** Running a computation in a world with faults: what it did, in order,
    and its result, [None] when the exception of a collaborator left it. *)
Fixpoint run_faulty {A : Type} (f : Faults.t) (w : World.t) (p : io A)
  : option A * list event :=
  match p with
  | Done a => (Some a, [])
  | SearchContext q k next =>
      if Faults.vectorstore_raises f then (None, [SearchContextCall q k])
      else
        let '(a, log) := run_faulty f w (next (World.search_context w q k)) in
        (a, SearchContextCall q k :: log)
  | WebSearch q n next =>
      let '(a, log) := run_faulty f w (next (World.web_search w q n)) in
      (a, WebSearchCall q n :: log)
  | CallLlm sp up next =>
      let '(a, log) := run_faulty f w (next (World.call_llm w sp up)) in
      (a, LlmCall sp up :: log)
  | StreamLlm sp up next =>
      match Faults.stream_raises_after f with
      | None =>
          let '(a, log) := run_faulty f w (next (World.stream_llm w sp up) Returned) in
          (a, LlmStreamCall sp up :: log)
      | Some k =>
          let '(a, log) :=
            run_faulty f w (next (firstn k (World.stream_llm w sp up)) Raised) in
          (a, LlmStreamCall sp up :: log)
      end
  | Yield fr next =>
      let '(a, log) := run_faulty f w next in
      (a, Yielded fr :: log)
  end.

(** The frames a generator produced, in order. *)
Fixpoint frames_of (log : list event) : list str :=
  match log with
  | [] => []
  | Yielded f :: rest => f :: frames_of rest
  | _ :: rest => frames_of rest
  end.

Definition BASE_SYSTEM_PROMPT : str :=
  u "
You are an enterprise-grade Company Research Analyst AI.

Your primary goal is to synthesize information and detect conflicts to build structured account plans.

You:
- Gather information from multiple sources (RAG PDFs, web search).
- CRITICAL: Detect conflicting or incomplete information between sources, explicitly listing them in the 'conflicts' array.
- Build structured account plans for sales / GTM teams.
- ALWAYS GENERATE DETAILED, INSIGHTFUL ANSWERS. Ensure narrative fields are 5-8 sentences long.
- Maintain a concise, confident, and professional tone. Focus on delivering strategic insights.
- CRITICAL: Avoid ALL conversational Markdown formatting. Specifically, DO NOT use **bold** marks ("
  ++ u "*, **" ++ u "). Only use plain text for narrative fields.
- Avoid all markdown formatting in your responses (no bullet symbols, no code fences, except for the required JSON output).
".

(** ** Chat router: the rules *)

(** The tests of the dispatch, on the lower-cased message. *)
Definition wants_competitor_chart (m : str) : bool :=
  contains (u "competitor") m && (contains (u "pie") m || contains (u "chart") m).

Definition wants_swot_chart (m : str) : bool :=
  contains (u "swot") m
  && (contains (u "graph") m || contains (u "radar") m || contains (u "chart") m).

Definition wants_kpi (m : str) : bool :=
  contains (u "show") m
  && (contains (u "kpi") m || contains (u "chart") m || contains (u "graph") m).

Definition wants_deep_dive (m : str) : bool :=
  contains (u "deep-dive") m || contains (u "dig deeper") m.

Definition wants_edit_help (m : str) : bool :=
  contains (u "edit") m && contains (u "section") m.

Definition invalid_conversation_reply : str :=
  u "Invalid conversation ID. Please start a new research session.".

Definition kpi_unavailable_reply : str :=
  u "I apologize, the financial KPI data summary is not available for this plan depth. Would you like to run a 'deep-dive on financials'?".

Definition edit_help_reply : str :=
  u "You can edit a specific section by specifying which section and the new focus. "
  ++ u "For example: Edit the 30-60-90 Day Plan to focus on EMEA expansion.".

Definition unresolved_summary : str :=
  u "The conflict could not be fully resolved with the available new data.".

(** [a or b] for an [Optional[str]] [a]. *)
Definition text_or (a : option str) (b : str) : str :=
  match a with
  | Some (c :: t) => c :: t
  | _ => b
  end.

(** [history.append(...)] on the conversation [cid] whose state is [state]. *)
Definition append_turn (cid : str) (state : Conversation.t) (t : Turn.t)
    (st : store) : store :=
  <[cid := Conversation.mk (Conversation.plan state)
             (Conversation.history state ++ [t])
             (Conversation.conflicts_to_resolve state)]> st.

(** ** The service functions that depend on library parameters *)

Section Service.

(** Library functions whose text output (or input grammar) is not reproduced
    here.  They are parameters of everything below.
    - [float_of_str s] is [float(s)] for a string: [None] when it raises
      [ValueError];
    - [py_repr v] is [repr(v)] of a decoded value that is not a string;
    - [json_dumps indent v] is [json.dumps(v, indent=indent)];
    - [research_prompt req rag_ctx web_text] is the text of the prompt
      template of [build_research_prompt]. *)
Variable float_of_str : str -> option pyfloat.
Variable py_repr : json -> str.
Variable json_dumps : option nat -> json -> str.
Variable research_prompt : StartResearchRequest.t -> list str -> option str -> str.

(** *** Plan synthesizer *)

(** A value inside an f-string: [str(v)]. *)
Definition format_value (v : json) : str :=
  match v with
  | JStr s => s
  | _ => py_repr v
  end.

(** The [try: float(raw) ... except (TypeError, ValueError)] block on the
    confidence score.  An integer too large for a float raises
    [OverflowError], which the block does not catch. *)
Definition confidence_of (raw : json) : result pyfloat :=
  match raw with
  | JNull => Ok float_zero
  | JBool b => Ok (FDec false (if b then 1 else 0) 0)
  | JInt z => float_of_int z
  | JFloat f => Ok f
  | JStr s =>
      match float_of_str s with
      | Some f => Ok f
      | None => Ok float_zero
      end
  | JArr _ | JObj _ => Ok float_zero
  end.

Definition nonempty {A : Type} (l : list A) : bool :=
  match l with [] => false | _ :: _ => true end.

(** Truth value of an [Optional[str]]. *)
Definition has_text (o : option str) : bool :=
  match o with Some (_ :: _) => true | _ => false end.

(** [_build_account_plan_from_llm].  [now] is the value [_now_iso()] returns
    at the call. *)
Definition _build_account_plan_from_llm
    (now : str) (raw : str) (req : StartResearchRequest.t)
    (rag_ctx : list str) (web_text : option str) : result AccountPlan.t :=
  let data := _parse_llm_json raw in
  let name := StartResearchRequest.company_name req in
  let depth := depth_value (StartResearchRequest.depth req) in
  if negb (truthy data) then
    let overview := name ++ snapshot_heading ++ firstn 700 raw in
    let full_content := raw in
    let sections := [CompanySection.mk (u "Full Research Output") full_content] in
    let meta :=
      ResearchMetadata.mk now depth
        ((if nonempty rag_ctx then [u "rag"] else [])
         ++ (if has_text web_text then [u "web"] else []))
        (_build_steps rag_ctx web_text)
        false
        float_zero in
    Ok (AccountPlan.mk name depth overview [] [] [] [] [] [] [] [] [] []
          JNull None (Some meta) sections)
  else
    match data with
    | JObj data =>
        let overview := dict_get_or (u "overview") (JStr []) data in
        let company_profile := dict_get_or (u "company_profile") (JStr []) data in
        let market_analysis := dict_get_or (u "market_analysis") (JStr []) data in
        let financial_highlights :=
          dict_get_or (u "financial_highlights") (JStr []) data in
        let product_portfolio := dict_get_or (u "product_portfolio") (JStr []) data in
        let technology_stack := dict_get_or (u "technology_stack") (JStr []) data in
        let competitors := dict_get_or (u "competitors") (JStr []) data in
        let swot := dict_get_or (u "swot") (JStr []) data in
        let risks := dict_get_or (u "risks") (JStr []) data in
        let opportunities_points :=
          dict_get_or (u "opportunities_points") (JArr []) data in
        let plan_table := dict_get_or (u "plan_table") (JArr []) data in
        let swot_radar_scores := dict_get (u "swot_radar_scores") data in
        let competitor_chart_data := dict_get (u "competitor_chart_data") data in
        opportunities_text ← join_value [10; 10] opportunities_points;
        let kpi_summary := dict_get (u "kpi_summary") data in
        confidence_score ← confidence_of (dict_get (u "confidence_score") data);
        let conflicts := dict_get (u "conflicts") data in
        let steps := _build_steps rag_ctx web_text in
        let meta :=
          ResearchMetadata.mk now depth
            ((if nonempty rag_ctx then [u "rag"] else [])
             ++ (if has_text web_text then [u "web"] else [])
             ++ [u "llm"])
            steps
            (truthy conflicts)
            confidence_score in
        (* the ten CompanySection constructors check their [content] *)
        company_profile ← validate_str company_profile;
        market_analysis ← validate_str market_analysis;
        financial_highlights ← validate_str financial_highlights;
        product_portfolio ← validate_str product_portfolio;
        technology_stack ← validate_str technology_stack;
        competitors ← validate_str competitors;
        swot ← validate_str swot;
        risks ← validate_str risks;
        let sections :=
          [ CompanySection.mk (u "Company Profile") company_profile;
            CompanySection.mk (u "Market Analysis") market_analysis;
            CompanySection.mk (u "Financial Highlights") financial_highlights;
            CompanySection.mk (u "Product Portfolio") product_portfolio;
            CompanySection.mk (u "Technology Stack") technology_stack;
            CompanySection.mk (u "Competitors") competitors;
            CompanySection.mk (u "SWOT Analysis") swot;
            CompanySection.mk (u "Opportunities") opportunities_text;
            CompanySection.mk (u "Risks") risks;
            CompanySection.mk (u "30-60-90 Day Plan") plan_summary ] in
        overview ←
          (if negb (truthy overview)
           then Ok (name ++ snapshot_heading
                      ++ firstn 400 company_profile ++ [10; 10]
                      ++ firstn 400 market_analysis)
           else validate_str overview);
        (* the AccountPlan constructor checks the remaining fields *)
        kpi_summary ← validate_kpi_summary kpi_summary;
        Ok (AccountPlan.mk name depth overview company_profile market_analysis
              financial_highlights product_portfolio technology_stack
              competitors swot opportunities_text risks plan_summary
              kpi_summary
              (Some [ (u "swot_radar_scores", swot_radar_scores);
                      (u "competitor_chart_data", competitor_chart_data);
                      (u "plan_table", plan_table) ])
              (Some meta) sections)
    | _ => Raise AttributeError
    end.



(** *** Chat router *)

(** The chart rules of [chat_with_agent]: the values of [chart_data],
    [chart_type] and [chart_title] after them ([JNull] is [None]).
    [plan.sources.get] raises when [plan.sources] is [None]. *)
Definition chart_request (plan : AccountPlan.t) (user_message_lower : str)
  : result (json * json * json) :=
  if wants_competitor_chart user_message_lower then
    match AccountPlan.sources plan with
    | None => Raise AttributeError
    | Some sources =>
        Ok (dict_get (u "competitor_chart_data") sources,
            JStr (u "pie"), JStr (u "Competitor Share Breakdown"))
    end
  else if wants_swot_chart user_message_lower then
    match AccountPlan.sources plan with
    | None => Raise AttributeError
    | Some sources =>
        Ok (dict_get (u "swot_radar_scores") sources,
            JStr (u "radar"), JStr (u "SWOT Analysis Scores"))
    end
  else Ok (JNull, JNull, JNull).

Definition structured_reply (chart_data chart_type chart_title : json) : json :=
  JObj [ (u "reply_type", JStr (u "chart_request"));
         (u "chart_type", chart_type);
         (u "data", chart_data);
         (u "title", chart_title);
         (u "narrative",
          JStr (u "Here is the visual breakdown of the " ++ format_value chart_title
                ++ u " data, available for rendering as a chart in the workspace.")) ].

Definition kpi_reply (kpi_summary : json) : str :=
  u "Here is the structured KPI data required for visualization: "
  ++ u "```json" ++ [10] ++ json_dumps (Some 2%nat) kpi_summary ++ [10] ++ u "``` "
  ++ u "You can use this to render a chart (e.g., bar chart for Revenue/Growth). "
  ++ u "Next Step: Would you like to review the updated competitors section or discuss the risks?".

Definition deep_dive_query (company_name : str) (topic : json) : str :=
  company_name ++ u " " ++ format_value topic ++ u " official report".

Definition resolution_prompt (company_name : str) (topic : json)
    (new_web_data : option str) : str :=
  u "You must resolve the following conflict in the account plan for "
  ++ company_name ++ u "." ++ [10]
  ++ u "Conflict topic: " ++ format_value topic ++ u "." ++ [10]
  ++ u "New research data: " ++ text_or new_web_data (u "No new data found.") ++ [10].

Definition resolution_reply (topic reply_summary : json) (remaining : nat) : str :=
  u "Conflict resolution for topic '" ++ format_value topic
  ++ u "' is complete. Summary: " ++ format_value reply_summary ++ u " "
  ++ u "There are " ++ str_of_nat remaining
  ++ u " remaining conflicts. You can also ask to review updated sections such as competitors or market analysis.".

Definition hist_text (history : list Turn.t) : str :=
  join [10]
    (List.map (fun h => u "User: " ++ Turn.user h ++ [10]
                        ++ u "Assistant: " ++ Turn.assistant h) history).

Definition plan_summary_for_context (plan : AccountPlan.t) : str :=
  [10] ++ u "    Company: " ++ AccountPlan.company_name plan ++ [10]
  ++ u "    Overview: " ++ firstn 500 (AccountPlan.overview plan) ++ [10]
  ++ u "    Competitors: " ++ firstn 500 (AccountPlan.competitors plan) ++ [10]
  ++ u "    Market Analysis: " ++ firstn 500 (AccountPlan.market_analysis plan) ++ [10]
  ++ u "    Financials: " ++ firstn 500 (AccountPlan.financial_highlights plan) ++ [10]
  ++ u "    ".

Definition chat_prompt (plan : AccountPlan.t) (history : list Turn.t)
    (user_message : str) : str :=
  [10] ++ u "Continue the enterprise research dialog for the following company and account plan." ++ [10]
  ++ u "Use the Plan Data Snippets to provide context-aware answers." ++ [10; 10]
  ++ u "Plan Data Snippets:" ++ [10]
  ++ plan_summary_for_context plan ++ [10; 10]
  ++ u "Conversation so far:" ++ [10]
  ++ (match hist_text history with
      | [] => u "(no prior turns)"
      | c :: t => c :: t
      end) ++ [10; 10]
  ++ u "User question:" ++ [10]
  ++ user_message ++ [10; 10]
  ++ u "Requirements:" ++ [10]
  ++ u "- Give a concise, insight-rich answer based on the plan data." ++ [10]
  ++ u "- **PROACTIVE RULE**: At the end of your answer, add ONE short, high-value follow-up offer, for example:" ++ [10]
  ++ u "  " ++ [34]
  ++ u "Would you like me to go deeper into competitors, financials, or market trends?"
  ++ [34; 10].

(** [chat_with_agent]: the calls it makes, its outcome (a response or the
    exception that leaves it) and the store afterwards.  [conflicts.pop(0)]
    changes the stored queue in place, so the shorter queue stays in the
    store also when a later step raises. *)
Definition chat_with_agent (req : ChatMessageRequest.t) (st : store)
  : io (result ChatMessageResponse.t * store) :=
  let cid := ChatMessageRequest.conversation_id req in
  match st !! cid with
  | None => Done (Ok (ChatMessageResponse.mk invalid_conversation_reply), st)
  | Some state =>
      let plan := Conversation.plan state in
      let history := Conversation.history state in
      let conflicts := Conversation.conflicts_to_resolve state in
      let user_message := strip (ChatMessageRequest.message req) in
      let user_message_lower := lower user_message in
      let answer (state : Conversation.t) (reply : str) :=
        (Ok (ChatMessageResponse.mk reply),
         append_turn cid state (Turn.mk user_message reply) st) in
      match chart_request plan user_message_lower with
      | Raise e => Done (Raise e, st)
      | Ok (chart_data, chart_type, chart_title) =>
          if truthy chart_data then
            let reply_json :=
              json_dumps None (structured_reply chart_data chart_type chart_title) in
            Done (answer state reply_json)
          else if wants_kpi user_message_lower then
            let reply :=
              if truthy (AccountPlan.kpi_summary plan)
              then kpi_reply (AccountPlan.kpi_summary plan)
              else kpi_unavailable_reply in
            Done (answer state reply)
          else if truthy conflicts && wants_deep_dive user_message_lower then
            match conflicts with
            | JArr (conflict_to_resolve :: remaining) =>
                let state := Conversation.mk plan history (JArr remaining) in
                let popped := <[cid := state]> st in
                match conflict_to_resolve with
                | JObj conflict =>
                    let topic :=
                      dict_get_or (u "topic") (JStr (u "data discrepancy")) conflict in
                    let company := AccountPlan.company_name plan in
                    WebSearch (deep_dive_query company topic) 3 (fun new_web_data =>
                    CallLlm BASE_SYSTEM_PROMPT
                      (resolution_prompt company topic new_web_data)
                      (fun resolution_json =>
                    match _parse_llm_json resolution_json with
                    | JObj resolution_data =>
                        let reply_summary :=
                          dict_get_or (u "resolution_summary")
                            (JStr unresolved_summary) resolution_data in
                        Done (answer state
                                (resolution_reply topic reply_summary
                                   (length remaining)))
                    | _ => Done (Raise AttributeError, popped)
                    end))
                | _ => Done (Raise AttributeError, popped)
                end
            | JObj _ => Done (Raise KeyError, st)
            | _ => Done (Raise AttributeError, st)
            end
          else if wants_edit_help user_message_lower then
            Done (answer state edit_help_reply)
          else
            CallLlm BASE_SYSTEM_PROMPT (chat_prompt plan history user_message)
              (fun reply => Done (answer state reply))
      end
  end.

(** *** Streaming orchestrator *)

(** [build_research_prompt] *)
Definition build_research_prompt (req : StartResearchRequest.t)
  : io (str * list str * option str) :=
  let name := StartResearchRequest.company_name req in
  SearchContext
    (name ++ u " company overview products strategy customers competitors") 5
    (fun rag_ctx =>
  WebSearch
    (name ++ u " latest news, financials, market position, competitors, risks") 5
    (fun web_text =>
  Done (research_prompt req rag_ctx web_text, rag_ctx, web_text))).


(** [_sse] *)
Definition _sse (event data : str) : str :=
  let clean := replace_char 10 32 data in
  u "event: " ++ event ++ [10] ++ u "data: " ++ clean ++ [10; 10].

(** The loop over the chunks of the model stream. *)
Fixpoint stream_tokens {A : Type} (chunks : list str) (next : io A) : io A :=
  match chunks with
  | [] => next
  | chunk :: rest =>
      if nonempty (strip chunk)
      then Yield (_sse (u "token") chunk) (stream_tokens rest next)
      else stream_tokens rest next
  end.

(** [stream_research]: the frames it yields and how the generator ends.
    An exception raised while the model stream is read leaves the generator
    at the loop: nothing after the loop is yielded. *)
Definition stream_research (req : StartResearchRequest.t) : io outcome :=
  '(prompt, rag_ctx, web_text) ← build_research_prompt req;
  Yield (_sse (u "status")
           (u "Understanding intent and preparing research pipeline.")) (
  Yield (_sse (u "status") (u "Searching internal RAG documents.")) (
  Yield (_sse (u "status")
           (u "RAG search complete. " ++ str_of_nat (length rag_ctx)
              ++ u " internal chunks found.")) (
  Yield (_sse (u "status") (u "Running external web search.")) (
  Yield (_sse (u "status")
           (if has_text web_text
            then u "Web search complete."
            else u "Web search unavailable. Continuing with RAG and LLM synthesis.")) (
  Yield (_sse (u "status")
           (u "Synthesizing account plan with LLM and checking for conflicts.")) (
  StreamLlm BASE_SYSTEM_PROMPT prompt (fun chunks stream_end =>
  stream_tokens chunks (
  match stream_end with
  | Raised => Done Raised
  | Returned =>
      Yield (_sse (u "status")
               (u "Research synthesis complete. Checking for data conflicts.")) (
      Yield (_sse (u "status") (u "Plan ready. Conversation starting.")) (
      Yield (_sse (u "done") (u "true")) (
      Done Returned)))
  end)))))))).

End Service.

(** ** Stand-ins for the library parameters

    Concrete functions to run the service on examples.  They are simple
    versions of the library functions: [json_dumps] prints a float as a plain
    decimal, [py_repr] does not escape inside strings, [float_of_str] knows
    the JSON number grammar only, and [research_prompt] is a short text in
    place of the long template. *)

Module Demo.

Definition hex_char (d : N) : N := if d <? 10 then 48 + d else 87 + d.

Definition escape_u (c : N) : str :=
  [92; 117; hex_char (c / 4096 mod 16); hex_char (c / 256 mod 16);
   hex_char (c / 16 mod 16); hex_char (c mod 16)].

Definition escape_char (c : N) : str :=
  if c =? 34 then [92; 34]
  else if c =? 92 then [92; 92]
  else if c =? 10 then [92; 110]
  else if c =? 13 then [92; 114]
  else if c =? 9 then [92; 116]
  else if c =? 8 then [92; 98]
  else if c =? 12 then [92; 102]
  else if (32 <=? c) && (c <? 127) then [c]
  else if c <? 65536 then escape_u c
  else escape_u (55296 + (c - 65536) / 1024) ++ escape_u (56320 + (c - 65536) mod 1024).

Definition quote (s : str) : str := [34] ++ flat_map escape_char s ++ [34].

Definition str_of_Z (z : Z) : str :=
  (if (z <? 0)%Z then [45] else []) ++ str_of_N (Z.abs_N z).

Fixpoint strip_zeros (rev_digits : str) : str :=
  match rev_digits with
  | c :: ((_ :: _) as t) => if c =? 48 then strip_zeros t else rev_digits
  | _ => rev_digits
  end.

(** A finite decimal in positional notation, with at least one digit after
    the point and no trailing zeros after it. *)
Definition decimal (neg : bool) (mant : N) (e : Z) : str :=
  let sign := if neg then [45] else [] in
  if (0 <=? e)%Z then
    sign ++ str_of_N (mant * 10 ^ Z.to_N e) ++ u ".0"
  else
    let k := Z.to_N (- e) in
    let frac := str_of_N (mant mod 10 ^ k) in
    let frac := repeat 48 (N.to_nat k - length frac) ++ frac in
    sign ++ str_of_N (mant / 10 ^ k) ++ [46] ++ rev (strip_zeros (rev frac)).

Definition float_text (f : pyfloat) (nan inf : str) : str :=
  match f with
  | FNaN => nan
  | FInf neg => (if neg then [45] else []) ++ inf
  | FDec neg m e => decimal neg m e
  end.

Definition newline_indent (indent : option nat) (level : nat) : str :=
  match indent with
  | None => []
  | Some n => 10 :: repeat 32 (n * level)
  end.

Definition item_separator (indent : option nat) (level : nat) : str :=
  match indent with
  | None => u ", "
  | Some _ => 44 :: newline_indent indent level
  end.

Fixpoint dumps_at (indent : option nat) (level : nat) (v : json) : str :=
  match v with
  | JNull => u "null"
  | JBool b => if b then u "true" else u "false"
  | JInt z => str_of_Z z
  | JFloat f => float_text f (u "NaN") (u "Infinity")
  | JStr s => quote s
  | JArr [] => u "[]"
  | JArr l =>
      [91] ++ newline_indent indent (S level)
      ++ join (item_separator indent (S level))
           (List.map (dumps_at indent (S level)) l)
      ++ newline_indent indent level ++ [93]
  | JObj [] => u "{}"
  | JObj d =>
      [123] ++ newline_indent indent (S level)
      ++ join (item_separator indent (S level))
           (List.map (fun kv => quote (fst kv) ++ u ": "
                                ++ dumps_at indent (S level) (snd kv)) d)
      ++ newline_indent indent level ++ [125]
  end.

Definition json_dumps (indent : option nat) (v : json) : str := dumps_at indent 0 v.

Fixpoint py_repr (v : json) : str :=
  match v with
  | JNull => u "None"
  | JBool b => if b then u "True" else u "False"
  | JInt z => str_of_Z z
  | JFloat f => float_text f (u "nan") (u "inf")
  | JStr s => [39] ++ s ++ [39]
  | JArr l => [91] ++ join (u ", ") (List.map py_repr l) ++ [93]
  | JObj d =>
      [123]
      ++ join (u ", ")
           (List.map (fun kv => [39] ++ fst kv ++ [39] ++ u ": " ++ py_repr (snd kv)) d)
      ++ [125]
  end.

Definition float_of_str (s : str) : option pyfloat :=
  match match_number (strip s) with
  | Some (JFloat f, []) => Some f
  | Some (JInt z, []) => Some (FDec (z <? 0)%Z (Z.abs_N z) 0)
  | _ => None
  end.

Definition research_prompt (req : StartResearchRequest.t) (rag_ctx : list str)
    (web_text : option str) : str :=
  u "Company: " ++ StartResearchRequest.company_name req ++ [10]
  ++ u "Depth Level: " ++ depth_value (StartResearchRequest.depth req) ++ [10]
  ++ u "RAG_SNIPPETS: " ++ join [10] (firstn 5 rag_ctx) ++ [10]
  ++ u "WEB_SEARCH_SUMMARY: " ++ text_or web_text (u "(no web data available)").

Definition build_plan := _build_account_plan_from_llm float_of_str.
Definition chat := chat_with_agent py_repr json_dumps.
Definition stream := stream_research research_prompt.

End Demo.

(** ** Vocabulary of the statements *)

(** [after r s]: [r] is what is left of [s] once at least one character has
    been read. *)
Definition after (r s : str) : Prop := exists c pre, s = c :: pre ++ r.

(** The titles [_build_account_plan_from_llm] gives to display sections.
    Sections are never added or renamed afterwards, so these are the titles
    of every stored plan. *)
Definition synthesized_titles : list str :=
  [ u "Full Research Output"; u "Company Profile"; u "Market Analysis";
    u "Financial Highlights"; u "Product Portfolio"; u "Technology Stack";
    u "Competitors"; u "SWOT Analysis"; u "Opportunities"; u "Risks";
    u "30-60-90 Day Plan" ].

Definition titles_synthesized (plan : AccountPlan.t) : Prop :=
  Forall (fun s => CompanySection.title s ∈ synthesized_titles)
         (AccountPlan.sections plan).

(** [s] is the first section of [l] titled [title], at index [i]. *)
Definition first_with_title (title : str) (l : list CompanySection.t)
    (i : nat) (s : CompanySection.t) : Prop :=
  l !! i = Some s
  /\ CompanySection.title s = title
  /\ forall j s', (j < i)%nat -> l !! j = Some s' -> CompanySection.title s' <> title.

(** A message that asks for a deep dive and triggers none of the rules the
    router tests before the conflict rule. *)
Definition deep_dive_message (msg : str) : Prop :=
  (contains (u "deep-dive") msg = true \/ contains (u "dig deeper") msg = true)
  /\ wants_competitor_chart (lower (strip msg)) = false
  /\ wants_swot_chart (lower (strip msg)) = false
  /\ wants_kpi (lower (strip msg)) = false.

(** A world in which every reply of the model decodes to a mapping. *)
Definition answers_with_mapping (w : World.t) : Prop :=
  forall sp up, is_dict (_parse_llm_json (World.call_llm w sp up)) = true.

(** The topic the router reads from a queued conflict. *)
Definition topic_of (conflict : json) : json :=
  match conflict with
  | JObj d => dict_get_or (u "topic") (JStr (u "data discrepancy")) d
  | _ => JNull
  end.

(** The frames of a log that carry the event name [token]. *)
Definition token_frames (frames : list str) : list str :=
  List.filter (startswith (u "event: token" ++ [10])) frames.

Section Turns.

Variable py_repr : json -> str.
Variable json_dumps : option nat -> json -> str.

(** Successive chat requests on one conversation, each in its own world:
    the store at the end and, per request, the outcome and the calls. *)
Fixpoint chat_turns (cid : str) (turns : list (World.t * str)) (st : store)
  : store * list (result ChatMessageResponse.t * list event) :=
  match turns with
  | [] => (st, [])
  | (w, msg) :: rest =>
      let '((out, st'), log) :=
        run w (chat_with_agent py_repr json_dumps (ChatMessageRequest.mk cid msg) st) in
      let '(st'', outs) := chat_turns cid rest st' in
      (st'', (out, log) :: outs)
  end.

(** What one conflict-resolution turn does for the conflict [conflict]. *)
Definition resolution_log (company : str) (w : World.t) (conflict : json)
  : list event :=
  let topic := topic_of conflict in
  let query := company ++ u " " ++ format_value py_repr topic ++ u " official report" in
  [ WebSearchCall query 3;
    LlmCall BASE_SYSTEM_PROMPT
      (resolution_prompt py_repr company topic (World.web_search w query 3)) ].

End Turns.

(** ** Example inputs *)

Definition now_example : str := u "2025-01-01T00:00:00Z".

Definition acme_request : StartResearchRequest.t :=
  StartResearchRequest.mk (u "Acme Corp") quick_summary None.

(** The JSON object with the one member "a": 1. *)
Definition small_object_text : str := [123; 34] ++ u "a" ++ [34] ++ u ": 1" ++ [125].

(** A reply with every field of the schema. *)
Definition full_mapping : list (list N * json) :=
  [ (u "overview", JStr (u "Acme makes anvils."));
    (u "company_profile", JStr (u "Founded in 1949."));
    (u "market_analysis", JStr (u "The anvil market is stable."));
    (u "financial_highlights", JStr (u "Revenue grew."));
    (u "product_portfolio", JStr (u "Anvils and rockets."));
    (u "technology_stack", JStr (u "Forges."));
    (u "competitors", JStr (u "Ajax and Apex."));
    (u "swot", JStr (u "Strong brand."));
    (u "risks", JStr (u "Coyotes."));
    (u "opportunities_points",
     JArr [JStr (u "Opportunity 1"); JStr (u "Opportunity 2")]);
    (u "plan_table",
     JArr [JObj [ (u "period", JStr (u "30 days"));
                  (u "focus", JStr (u "Key objective"));
                  (u "metric", JStr (u "How it is measured")) ]]);
    (u "swot_radar_scores",
     JObj [ (u "Strength", JInt 9); (u "Weakness", JInt 4);
            (u "Opportunity", JInt 8); (u "Threat", JInt 6) ]);
    (u "competitor_chart_data",
     JArr [JObj [ (u "name", JStr (u "Ajax"));
                  (u "share_percent", JFloat (FDec false 350 (-1))) ]]);
    (u "kpi_summary",
     JArr [JObj [ (u "name", JStr (u "Employees")); (u "value", JInt 120) ]]);
    (u "conflicts", JArr []);
    (u "confidence_score", JFloat (FDec false 86 (-2))) ].

Definition full_reply_text : str := Demo.json_dumps None (JObj full_mapping).

Definition empty_plan : AccountPlan.t :=
  AccountPlan.mk [] [] [] [] [] [] [] [] [] [] [] [] [] JNull None None [].

(** The plan synthesized from [full_reply_text], and a store holding it
    under the identifier "c1", with one queued conflict. *)
Definition full_plan : AccountPlan.t :=
  match Demo.build_plan now_example full_reply_text acme_request [] None with
  | Ok plan => plan
  | Raise _ => empty_plan
  end.

Definition revenue_conflict : json :=
  JObj [ (u "topic", JStr (u "revenue"));
         (u "details", JStr (u "Two figures."));
         (u "needs_deep_dive", JBool true) ].

Definition example_store : gmap (list N) Conversation.t :=
  {[ u "c1" := Conversation.mk full_plan [] (JArr [revenue_conflict]) ]}.

(** The plan of the fallback path, for the reply "not json", stored under
    "c2" the way [start_research] stores it. *)
Definition fallback_example_plan : AccountPlan.t :=
  match Demo.build_plan now_example (u "not json") acme_request [] None with
  | Ok plan => plan
  | Raise _ => empty_plan
  end.

Definition fallback_store : gmap (list N) Conversation.t :=
  {[ u "c2" := Conversation.mk fallback_example_plan [] (JArr []) ]}.

(** A reply with an overview and nothing else, its plan, and a store. *)
Definition sparse_reply_text : str :=
  Demo.json_dumps None (JObj [ (u "overview", JStr (u "Acme makes anvils.")) ]).

Definition sparse_plan : AccountPlan.t :=
  match Demo.build_plan now_example sparse_reply_text acme_request [] None with
  | Ok plan => plan
  | Raise _ => empty_plan
  end.


(** A world whose model answers every prompt with a resolution summary. *)
Definition example_world : World.t :=
  World.mk (fun _ _ => [u "Acme was founded in 1949."])
           (fun _ _ => Some (u "Acme reports revenue."))
           (fun _ _ => Demo.json_dumps None
                         (JObj [ (u "resolution_summary", JStr (u "Settled.")) ]))
           (fun _ _ => [u "Acme"; u " "; u "makes" ++ [10] ++ u "anvils"]).



Definition kpi_deep_dive_message : str := u "show kpi deep-dive".

(** A world whose model streams one chunk, a single space. *)
Definition blank_world : World.t :=
  World.mk (fun _ _ => []) (fun _ _ => None) (fun _ _ => []) (fun _ _ => [u " "]).

(** ** Starting a conversation, feedback and read access *)

Module StartResearchResponse.
Record t : Type := mk { conversation_id : str; account_plan : AccountPlan.t }.
End StartResearchResponse.

Module FeedbackRequest.
Record t : Type := mk { conversation_id : str; overall_notes : option str }.
End FeedbackRequest.

Module FeedbackResponse.
Record t : Type := mk { feedback_summary : str }.
End FeedbackResponse.

(** [str(z)] for an integer. *)
Definition str_of_int (z : Z) : str :=
  (if (z <? 0)%Z then [45] else []) ++ str_of_N (Z.abs_N z).

Definition is_complete (s : StepStatus) : bool :=
  match s with complete => true | _ => false end.

(** An operand of [+] next to a string literal: only a string can be
    concatenated. *)
Definition concat_operand (v : json) : result str :=
  match v with
  | JStr s => Ok s
  | _ => Raise TypeError
  end.

Definition pipeline_user : str := u "System Initiated Pipeline".

Definition research_user : str := u "System Initiated Research".

Definition web_executed_detail : str := u "Web search executed via Serper.".

Definition web_skipped_detail : str :=
  u "Skipped or failed to execute external web search.".

Definition conflict_intro (topic details : str) : str :=
  u "Research synthesis is complete. However, a significant conflict was found regarding **"
  ++ topic
  ++ u "**. Details: "
  ++ details
  ++ u ". This data discrepancy means the plan's confidence is lower. To proceed, should I: "
  ++ u "1) Ignore the less-detailed source and continue, or "
  ++ u "2) Conduct a deep-dive search specifically on this topic? "
  ++ u "For example, you can say: **deep-dive on "
  ++ topic
  ++ u "**.".

Definition complete_intro (company_name : str) (percent : Z) : str :=
  u "Research for **" ++ company_name
  ++ u "** is complete, and the account plan has been generated. "
  ++ u "Current confidence estimate: " ++ str_of_int percent ++ u " percent. "
  ++ u "What would you like to do next? For example, you can ask to **'Show me the Competitor Pie Chart'**, "
  ++ u "**'Show me SWOT Analysis graph'**, or **'Edit the 30-60-90 Day Plan'**.".

Section Startup.

(** Further library behaviour that is a parameter:
    [int_of_scaled f] is [int(f * 100)] for a finite float [f] that is not
    zero; it raises [OverflowError] when the product is infinite. *)
Variable float_of_str : str -> option pyfloat.
Variable research_prompt : StartResearchRequest.t -> list str -> option str -> str.
Variable int_of_scaled : pyfloat -> result Z.

(** [int(confidence_score * 100)] *)
Definition confidence_percent (f : pyfloat) : result Z :=
  match f with
  | FNaN => Raise ValueError
  | FInf _ => Raise OverflowError
  | FDec _ _ _ => if float_is_zero f then Ok 0%Z else int_of_scaled f
  end.

(** The closing turn of the pipeline transcript.  The test
    [conflicts_detected and conflicts_to_resolve] lets only values through
    that count as true, so the index 0 exists when the value is a list or a
    string. *)
Definition agent_intro (company_name : str) (conflicts_detected : bool)
    (confidence_score : pyfloat) (conflicts_to_resolve : json) : result str :=
  if conflicts_detected && truthy conflicts_to_resolve then
    match conflicts_to_resolve with
    | JArr (first_conflict :: _) =>
        match first_conflict with
        | JObj first_conflict =>
            let topic :=
              dict_get_or (u "topic") (JStr (u "key company information"))
                first_conflict in
            let details :=
              dict_get_or (u "details")
                (JStr (u "Differing reports detected between sources."))
                first_conflict in
            topic ← concat_operand topic;
            details ← concat_operand details;
            Ok (conflict_intro topic details)
        | _ => Raise AttributeError
        end
    | JStr _ => Raise AttributeError
    | JObj _ => Raise KeyError
    | _ => Raise TypeError
    end
  else
    percent ← confidence_percent confidence_score;
    Ok (complete_intro company_name percent).

(** [_generate_pipeline_history] *)
Definition _generate_pipeline_history
    (plan : AccountPlan.t) (conflicts_to_resolve : json) : result (list Turn.t) :=
  let start :=
    Turn.mk pipeline_user
      (u "Starting research pipeline for **" ++ AccountPlan.company_name plan
         ++ u "** at " ++ AccountPlan.depth plan ++ u " depth.") in
  match AccountPlan.metadata plan with
  | None => Raise AttributeError
  | Some metadata =>
      let steps := ResearchMetadata.steps metadata in
      let web_step_complete :=
        existsb (fun s => str_eqb (ResearchStep.id s) (u "web_search")
                          && is_complete (ResearchStep.status s)) steps in
      let web_detail :=
        if web_step_complete then web_executed_detail else web_skipped_detail in
      let web_turn :=
        Turn.mk pipeline_user
          (u "Step 1 of 4: Searching external web sources and news. Status: "
             ++ web_detail) in
      let rag_step :=
        List.find (fun s => str_eqb (ResearchStep.id s) (u "rag_search")) steps in
      rag_detail ←
        match rag_step with
        | Some s =>
            match ResearchStep.detail s with
            | Some d => Ok d
            | None => Raise TypeError
            end
        | None => Ok (u "No RAG process initiated.")
        end;
      let rag_turn :=
        Turn.mk pipeline_user
          (u "Step 2 of 4: Querying internal RAG documents/data sources. Status: "
             ++ rag_detail) in
      let tools_turn :=
        Turn.mk pipeline_user
          (u "Step 3 of 4: Accessing financial and competitor MCP server tools.") in
      let synthesis_turn :=
        Turn.mk pipeline_user
          (u "Step 4 of 4: Synthesizing all findings and detecting conflicts using the core LLM.") in
      agent_intro ←
        agent_intro (AccountPlan.company_name plan)
          (ResearchMetadata.conflicts_detected metadata)
          (ResearchMetadata.confidence_score metadata)
          conflicts_to_resolve;
      Ok [ start; web_turn; rag_turn; tools_turn; synthesis_turn;
           Turn.mk research_user agent_intro ]
  end.

(** [start_research].  [now] is the value of [_now_iso()] and [cid] the
    value of [str(uuid.uuid4())] at the call.  The conversation is stored
    with an empty transcript before the pipeline turns are generated, so it
    stays in the store when their generation raises. *)
Definition start_research (now cid : str) (req : StartResearchRequest.t) (st : store)
  : io (result StartResearchResponse.t * store) :=
  '(prompt, rag_ctx, web_text) ← build_research_prompt research_prompt req;
  CallLlm BASE_SYSTEM_PROMPT prompt (fun raw =>
  match _build_account_plan_from_llm float_of_str now raw req rag_ctx web_text with
  | Raise e => Done (Raise e, st)
  | Ok plan =>
      let parsed := _parse_llm_json raw in
      let conflicts_to_resolve :=
        match parsed with
        | JObj parsed => dict_get_or (u "conflicts") (JArr []) parsed
        | _ => JArr []
        end in
      let stored := <[cid := Conversation.mk plan [] conflicts_to_resolve]> st in
      match _generate_pipeline_history plan conflicts_to_resolve with
      | Raise e => Done (Raise e, stored)
      | Ok initial_history =>
          Done (Ok (StartResearchResponse.mk cid plan),
                <[cid := Conversation.mk plan initial_history conflicts_to_resolve]> st)
      end
  end).

End Startup.

(** The prompt of [generate_feedback]: the template has no placeholder. *)
Definition feedback_prompt : str :=
  [10] ++ u "You are reviewing an enterprise account plan." ++ [10]
  ++ u "..." ++ [10].

(** [generate_feedback].  The function reads the store and writes nothing
    to it. *)
Definition generate_feedback (req : FeedbackRequest.t) (st : store)
  : io FeedbackResponse.t :=
  match st !! FeedbackRequest.conversation_id req with
  | None => Done (FeedbackResponse.mk (u "Invalid conversation ID."))
  | Some state =>
      CallLlm BASE_SYSTEM_PROMPT feedback_prompt
        (fun feedback => Done (FeedbackResponse.mk feedback))
  end.

(** [get_conversation_state] *)
Definition get_conversation_state (conversation_id : str) (st : store)
  : option Conversation.t :=
  st !! conversation_id.

(** ** The model client ([llm_service.py]) *)

Module LlmService.

(** What [client.chat.completions.create] did: it raised an exception whose
    text is [text], or it returned a completion; a completion is the list of
    its choices, each given by the [content] of its message. *)
Inductive completion : Type :=
| ClientError (text : str)
| Completion (choices : list (option str)).

(** [call_llm] *)
Definition call_llm (answer : completion) : str :=
  match answer with
  | ClientError e => u "(llm_error: " ++ e ++ u ")"
  | Completion [] => u "(llm_error: list index out of range)"
  | Completion (content :: _) =>
      match content with
      | Some text => text
      | None => []
      end
  end.

(** What the streaming request did: it raised, or it returned a stream
    that delivers [chunks] and ends.  A streamed chunk is the list of its
    choices; a choice has a [delta] or none, a delta has a [content] or
    none.  A stream that breaks off while it is read is not part of the
    model. *)
Inductive stream : Type :=
| StreamError (text : str)
| Stream (chunks : list (list (option (option str)))).

(** How a generator ended: exhausted, or left by the [IndexError] of
    [chunk.choices[0]] on a chunk without choices. *)
Inductive ending : Type := Exhausted | IndexError.

Fixpoint stream_chunks (chunks : list (list (option (option str))))
  : list str * ending :=
  match chunks with
  | [] => ([], Exhausted)
  | [] :: _ => ([], IndexError)
  | (delta :: _) :: rest =>
      let '(yielded, e) := stream_chunks rest in
      match delta with
      | Some (Some (c :: text)) => ((c :: text) :: yielded, e)
      | _ => (yielded, e)
      end
  end.

(** [stream_llm]: the chunks it yields and how it ends. *)
Definition stream_llm (answer : stream) : list str * ending :=
  match answer with
  | StreamError e => ([u "(llm_stream_error: " ++ e ++ u ")"], Exhausted)
  | Stream chunks => stream_chunks chunks
  end.

End LlmService.

(** ** Retrieval ([rag_service.py]) *)

Module RagService.

(** The vector store as [search_context] sees it: [init_vectorstore] raises
    ([None]) or gives a store whose retriever, asked for [k] documents,
    returns their texts or raises ([None]). *)
Definition vectorstore : Type := option (str -> nat -> option (list str)).

(** [search_context] with the cache [_search_cache] passed explicitly.  The
    result is [None] when the exception of [init_vectorstore] leaves the
    function. *)
Definition search_context (query : str) (k : nat) (vectordb : vectorstore)
    (cache : gmap (list N) (list str))
  : option (list str) * gmap (list N) (list str) :=
  match cache !! query with
  | Some results => (Some results, cache)
  | None =>
      match vectordb with
      | None => (None, cache)
      | Some retriever =>
          let results :=
            match retriever query k with
            | Some docs => docs
            | None => []
            end in
          (Some results, <[query := results]> cache)
      end
  end.

(** What the HTTP request of [web_search] did: it raised (transport error,
    error status or undecodable body; [text] is the exception's text), or
    its body decoded to [data]. *)
Inductive response : Type :=
| RequestError (text : str)
| Body (data : json).

Section WebSearch.

(** [py_repr] as before; [error_text data num_results] is the text of the
    exception that processing [data] raises. *)
Variable py_repr : json -> str.
Variable error_text : json -> nat -> str.

(** The items the loop visits: [value[:num_results]].  A string gives its
    characters; other values cannot be sliced. *)
Definition sliced (value : json) (num_results : nat) : option (list json) :=
  match value with
  | JArr l => Some (firstn num_results l)
  | JStr s => Some (List.map (fun c => JStr [c]) (firstn num_results s))
  | _ => None
  end.

(** One organic result; only a dict has [get]. *)
Definition organic_line (o : json) : option str :=
  match o with
  | JObj o =>
      Some (format_value py_repr (dict_get_or (u "title") (JStr []) o)
              ++ u ": "
              ++ format_value py_repr (dict_get_or (u "snippet") (JStr []) o))
  | _ => None
  end.

Fixpoint organic_lines (items : list json) : option (list str) :=
  match items with
  | [] => Some []
  | o :: rest =>
      match organic_line o, organic_lines rest with
      | Some line, Some lines => Some (line :: lines)
      | _, _ => None
      end
  end.

(** [a or b] on decoded values. *)
Definition value_or (a b : json) : json := if truthy a then a else b.

(** The value of [text] after the knowledge-graph block; the empty string
    when the block does not assign it. *)
Definition knowledge_text (data : dict) : json :=
  let kg := value_or (dict_get (u "knowledgeGraph") data) (dict_get (u "answer") data) in
  match kg with
  | JObj kg =>
      value_or (dict_get (u "description") kg)
        (value_or (dict_get (u "snippet") kg) (JStr []))
  | _ => JStr []
  end.

(** The body of the [try] block after the request; [None] when it raises. *)
Definition summarize (data : json) (num_results : nat) : option str :=
  match data with
  | JObj data =>
      match sliced (dict_get_or (u "organic") (JArr []) data) num_results with
      | Some items =>
          match organic_lines items with
          | Some parts =>
              let text := knowledge_text data in
              if truthy text then
                match text with
                | JStr text => Some (strip (join [10; 10] (text :: parts)))
                | _ => None
                end
              else Some (strip (join [10; 10] parts))
          | None => None
          end
      | None => None
      end
  | _ => None
  end.

(** [web_search] for the key [SERPER_API_KEY] and the outcome of the
    request. *)
Definition web_search (api_key : option str) (answer : response)
    (num_results : nat) : option str :=
  if has_text api_key then
    match answer with
    | RequestError e => Some (u "(serper_error: " ++ e ++ u ")")
    | Body data =>
        match summarize data num_results with
        | Some text => Some text
        | None => Some (u "(serper_error: " ++ error_text data num_results ++ u ")")
        end
    end
  else None.

End WebSearch.

End RagService.

(** ** Two pages of the web front end ([app.py]) *)

Definition set_sources (v : option dict) (p : AccountPlan.t) : AccountPlan.t :=
  let 'AccountPlan.mk cn dp ov cp ma fh pp ts co sw op ri ap kp _ me se := p in
  AccountPlan.mk cn dp ov cp ma fh pp ts co sw op ri ap kp v me se.

(** [d.setdefault(k, v)] *)
Definition dict_setdefault (k : str) (v : json) (d : dict) : dict :=
  match dict_lookup k d with
  | Some _ => d
  | None => d ++ [(k, v)]
  end.

(** What a page handler hands to the template engine. *)
Inductive page : Type :=
| ErrorPage (message : str) (status_code : nat)
| ResultsPage (conversation_id : str) (plan : AccountPlan.t) (history : list Turn.t).

(** [research_results].  Every field of a pydantic model is a key of the
    instance's [__dict__], so the test ["sources" in plan.__dict__] holds for
    every plan; [plan.sources.setdefault] then needs a dict. *)
Definition research_results (conversation_id : str) (st : store)
  : result page * store :=
  match get_conversation_state conversation_id st with
  | None => (Ok (ErrorPage (u "Invalid or expired conversation ID.") 404), st)
  | Some state =>
      let plan := Conversation.plan state in
      let history := Conversation.history state in
      match AccountPlan.sources plan with
      | None => (Raise AttributeError, st)
      | Some sources =>
          let plan :=
            set_sources
              (Some (dict_setdefault (u "swot_radar_scores") (JObj []) sources))
              plan in
          (Ok (ResultsPage conversation_id plan history),
           <[conversation_id :=
               Conversation.mk plan history (Conversation.conflicts_to_resolve state)]> st)
      end
  end.

Module PlainTextResponse.
Record t : Type := mk {
    body : str;
    status_code : nat;
    content_disposition : option str }.
End PlainTextResponse.

(** The lines of the report. *)
Definition report_lines (plan : AccountPlan.t) : list str :=
  [ u "Company Research Report: " ++ AccountPlan.company_name plan;
    [];
    AccountPlan.overview plan;
    [] ]
  ++ flat_map (fun section =>
                 [ u "## " ++ CompanySection.title section;
                   CompanySection.content section;
                   [] ])
       (AccountPlan.sections plan).

(** What can be encoded: Latin-1 has the code points up to U+00FF, UTF-8
    every code point but the surrogates, which a Python [str] can hold (the
    decoder gives one for an unpaired escape). *)
Definition latin1 (s : str) : bool := forallb (fun c => c <=? 255) s.

Definition is_surrogate (c : N) : bool := (55296 <=? c) && (c <=? 57343).

Definition utf8_encodable (s : str) : bool := forallb (fun c => negb (is_surrogate c)) s.

(** The constructor call [PlainTextResponse(content, status_code, headers)]:
    it encodes the content as UTF-8 and the value of a header as Latin-1,
    and raises [UnicodeEncodeError] when either cannot be done. *)
Definition plain_text_response (content : str) (status_code : nat)
    (content_disposition : option str) : result PlainTextResponse.t :=
  if utf8_encodable content
     && match content_disposition with
        | Some value => latin1 value
        | None => true
        end
  then Ok (PlainTextResponse.mk content status_code content_disposition)
  else Raise UnicodeEncodeError.

(** The value of the [Content-Disposition] header. *)
Definition attachment_header (company_name : str) : str :=
  u "attachment; filename=" ++ [34] ++ company_name ++ u "_report.txt" ++ [34].

(** [download_report] *)
Definition download_report (conversation_id : str) (st : store)
  : result PlainTextResponse.t :=
  match get_conversation_state conversation_id st with
  | None => plain_text_response (u "Invalid conversation id") 404 None
  | Some state =>
      let plan := Conversation.plan state in
      plain_text_response (join [10] (report_lines plan)) 200
        (Some (attachment_header (AccountPlan.company_name plan)))
  end.

(** ** Stand-ins for the further parameters *)

Module DemoStartup.

(** [int(f * 100)] computed on the decimal itself. *)
Definition int_of_scaled (f : pyfloat) : result Z :=
  match f with
  | FDec neg m e =>
      let magnitude :=
        if (0 <=? e + 2)%Z then (Z.of_N m * 10 ^ (e + 2))%Z
        else (Z.of_N m / 10 ^ (- (e + 2)))%Z in
      if (2 ^ 1024 <=? magnitude)%Z then Raise OverflowError
      else Ok (if neg then (- magnitude)%Z else magnitude)
  | FNaN => Raise ValueError
  | FInf _ => Raise OverflowError
  end.

Definition start :=
  start_research Demo.float_of_str Demo.research_prompt int_of_scaled.

Definition error_text (data : json) (num_results : nat) : str :=
  u "the response could not be processed".

Definition web := RagService.web_search Demo.py_repr error_text.

End DemoStartup.

(** ** More vocabulary *)

(** The narrative field of the plan that the synthesizer shows in the
    section titled [title]. *)
Definition narrative_field (title : str) (plan : AccountPlan.t) : option str :=
  if str_eqb title (u "Company Profile") then Some (AccountPlan.company_profile plan)
  else if str_eqb title (u "Market Analysis") then Some (AccountPlan.market_analysis plan)
  else if str_eqb title (u "Financial Highlights")
  then Some (AccountPlan.financial_highlights plan)
  else if str_eqb title (u "Product Portfolio")
  then Some (AccountPlan.product_portfolio plan)
  else if str_eqb title (u "Technology Stack")
  then Some (AccountPlan.technology_stack plan)
  else if str_eqb title (u "Competitors") then Some (AccountPlan.competitors plan)
  else if str_eqb title (u "SWOT Analysis") then Some (AccountPlan.swot plan)
  else if str_eqb title (u "Opportunities") then Some (AccountPlan.opportunities plan)
  else if str_eqb title (u "Risks") then Some (AccountPlan.risks plan)
  else if str_eqb title (u "30-60-90 Day Plan")
  then Some (AccountPlan.account_plan_30_60_90 plan)
  else None.

(** The keys of the reply that become the [content] of a section as they
    are. *)
Definition narrative_keys : list str :=
  [ u "company_profile"; u "market_analysis"; u "financial_highlights";
    u "product_portfolio"; u "technology_stack"; u "competitors"; u "swot";
    u "risks" ].

(** A reply whose SWOT analysis is an object, not a text. *)
Definition swot_object_reply : str :=
  Demo.json_dumps None
    (JObj [ (u "overview", JStr (u "Acme makes anvils."));
            (u "swot", JObj [ (u "strengths", JStr (u "Brand")) ]) ]).

(** A world whose model answers every prompt with the JSON number 123, and
    one whose model answers in plain words. *)
Definition number_world : World.t :=
  World.mk (fun _ _ => []) (fun _ _ => None) (fun _ _ => u "123") (fun _ _ => []).

Definition prose_world : World.t :=
  World.mk (fun _ _ => []) (fun _ _ => None) (fun _ _ => u "Acme is doing well.")
           (fun _ _ => []).

(** The titles whose section and narrative field an edit keeps equal, and
    the two titles for which the attribute name derived from the title is
    not a field of the plan. *)
Definition synced_titles : list str :=
  [ u "Company Profile"; u "Market Analysis"; u "Financial Highlights";
    u "Product Portfolio"; u "Technology Stack"; u "Competitors";
    u "Opportunities"; u "Risks" ].

Definition unsynced_titles : list str := [ u "SWOT Analysis"; u "30-60-90 Day Plan" ].

(** The two queries of [build_research_prompt]. *)
Definition rag_query (req : StartResearchRequest.t) : str :=
  StartResearchRequest.company_name req
  ++ u " company overview products strategy customers competitors".

Definition web_query (req : StartResearchRequest.t) : str :=
  StartResearchRequest.company_name req
  ++ u " latest news, financials, market position, competitors, risks".

(** What [start_research] keeps of the reply [raw] as the conflict queue. *)
Definition queued_conflicts (raw : str) : json :=
  match _parse_llm_json raw with
  | JObj parsed => dict_get_or (u "conflicts") (JArr []) parsed
  | _ => JArr []
  end.

Section ResearchCalls.

Variable research_prompt : StartResearchRequest.t -> list str -> option str -> str.

(** In the world [w]: what the two searches return for the request, the
    prompt made of it, the model's reply to that prompt, and the calls in
    their order. *)
Definition found_chunks (w : World.t) (req : StartResearchRequest.t) : list str :=
  World.search_context w (rag_query req) 5.

Definition found_web (w : World.t) (req : StartResearchRequest.t) : option str :=
  World.web_search w (web_query req) 5.

Definition research_reply (w : World.t) (req : StartResearchRequest.t) : str :=
  World.call_llm w BASE_SYSTEM_PROMPT
    (research_prompt req (found_chunks w req) (found_web w req)).

Definition research_log (w : World.t) (req : StartResearchRequest.t) : list event :=
  [ SearchContextCall (rag_query req) 5;
    WebSearchCall (web_query req) 5;
    LlmCall BASE_SYSTEM_PROMPT
      (research_prompt req (found_chunks w req) (found_web w req)) ].

End ResearchCalls.

(** The first five turns of the pipeline transcript. *)
Definition start_turn (plan : AccountPlan.t) : Turn.t :=
  Turn.mk pipeline_user
    (u "Starting research pipeline for **" ++ AccountPlan.company_name plan
       ++ u "** at " ++ AccountPlan.depth plan ++ u " depth.").

Definition web_status_turn (web_text : option str) : Turn.t :=
  Turn.mk pipeline_user
    (u "Step 1 of 4: Searching external web sources and news. Status: "
       ++ (if has_text web_text then web_executed_detail else web_skipped_detail)).

Definition rag_status_turn (rag_ctx : list str) : Turn.t :=
  Turn.mk pipeline_user
    (u "Step 2 of 4: Querying internal RAG documents/data sources. Status: "
       ++ (if nonempty rag_ctx
           then u "Retrieved " ++ str_of_nat (length rag_ctx) ++ u " internal chunks."
           else u "No RAG documents found.")).

Definition tools_turn : Turn.t :=
  Turn.mk pipeline_user
    (u "Step 3 of 4: Accessing financial and competitor MCP server tools.").

Definition synthesis_turn : Turn.t :=
  Turn.mk pipeline_user
    (u "Step 4 of 4: Synthesizing all findings and detecting conflicts using the core LLM.").

(** A message that asks for one of the two charts. *)
Definition chart_message (msg : str) : Prop :=
  (contains (u "competitor") msg = true
   /\ (contains (u "pie") msg = true \/ contains (u "chart") msg = true))
  \/ (contains (u "swot") msg = true
      /\ (contains (u "graph") msg = true \/ contains (u "radar") msg = true
          \/ contains (u "chart") msg = true)).

(** A reply whose conflicts are plain sentences, not objects, and worlds
    for it and for a failed model call. *)
Definition string_conflicts_reply : str :=
  Demo.json_dumps None
    (JObj [ (u "overview", JStr (u "Acme makes anvils."));
            (u "conflicts", JArr [JStr (u "Revenue figures differ.")]) ]).

Definition string_conflicts_world : World.t :=
  World.mk (fun _ _ => []) (fun _ _ => None) (fun _ _ => string_conflicts_reply)
           (fun _ _ => []).

Definition outage_world : World.t :=
  World.mk (fun _ _ => []) (fun _ _ => None)
           (fun _ _ => LlmService.call_llm (LlmService.ClientError (u "Connection error.")))
           (fun _ _ => []).

Definition string_conflicts_plan : AccountPlan.t :=
  match Demo.build_plan now_example string_conflicts_reply acme_request [] None with
  | Ok plan => plan
  | Raise _ => empty_plan
  end.

(** The text a streamed chunk carries: the [content] of the [delta] of its
    first choice, or nothing. *)
Definition first_content (chunk : list (option (option str))) : str :=
  match chunk with
  | Some (Some text) :: _ => text
  | _ => []
  end.

(** The heading and the text of one section in the downloaded report. *)
Definition report_entry (title content : str) : str :=
  u "## " ++ title ++ [10] ++ content ++ [10].

(** A search response with two organic results and a knowledge graph, and a
    retriever that always fails. *)
Definition search_body : json :=
  JObj [ (u "organic",
          JArr [ JObj [ (u "title", JStr (u "Acme")); (u "snippet", JStr (u "Anvils.")) ];
                 JObj [ (u "title", JStr (u "Ajax")); (u "snippet", JStr (u "Rockets.")) ] ]);
         (u "knowledgeGraph", JObj [ (u "description", JStr (u "Acme Corp, founded 1949.")) ]) ].

Definition failing_store : RagService.vectorstore := Some (fun _ _ => None).

(** * Properties *)

(** ** Text *)

Section TextFacts.

Implicit Types (w s m p : list N) (c : N).

Lemma startswith_iff p s : startswith p s = true <-> exists b, s = p ++ b.
Proof.
  revert s. induction p as [|a p IH]; intros s; simpl.
  - split; [intros _; exists s; reflexivity | reflexivity].
  - destruct s as [|b s]; simpl.
    + split; [discriminate | intros [x Hx]; discriminate].
    + rewrite andb_true_iff, N.eqb_eq, IH. split.
      * intros [-> [x ->]]. exists x. reflexivity.
      * intros [x Hx]. injection Hx as -> ->. split; [reflexivity | exists x; reflexivity].
Qed.

Lemma contains_cons w c s :
  contains w (c :: s) = startswith w (c :: s) || contains w s.
Proof. reflexivity. Qed.

Lemma contains_of_startswith w s : startswith w s = true -> contains w s = true.
Proof. intros H. destruct s; simpl; rewrite H; reflexivity. Qed.

Lemma contains_iff w s : contains w s = true <-> exists a b, s = a ++ w ++ b.
Proof.
  split.
  - induction s as [|c s IH].
    + simpl. rewrite orb_false_r. intros H. apply startswith_iff in H as [b Hb].
      exists [], b. exact Hb.
    + rewrite contains_cons, orb_true_iff. intros [H|H].
      * apply startswith_iff in H as [b Hb]. exists [], b. exact Hb.
      * destruct (IH H) as (a & b & ->). exists (c :: a), b. reflexivity.
  - intros (a & b & ->). induction a as [|c a IH].
    + apply contains_of_startswith, startswith_iff. exists b. reflexivity.
    + simpl app. rewrite contains_cons, IH. apply orb_true_r.
Qed.

Lemma contains_nil s : contains [] s = true.
Proof. apply contains_iff. exists [], s. reflexivity. Qed.


Lemma contains_rev w s : contains w s = true -> contains (rev w) (rev s) = true.
Proof.
  rewrite !contains_iff. intros (a & b & ->).
  exists (rev b), (rev a). rewrite !rev_app_distr, <- app_assoc. reflexivity.
Qed.

(** Dropping a prefix of characters that [w] does not start with keeps every
    occurrence of [w]. *)
Lemma contains_drop_prefix (f : N -> bool) w p s :
  f (hd 0 w) = false -> Forall (fun c => f c = true) p ->
  contains w (p ++ s) = true -> contains w s = true.
Proof.
  intros Hw Hp. induction Hp as [|c p Hc Hp IH]; simpl app; [trivial|].
  destruct w as [|x w]; [intros _; apply contains_nil|].
  rewrite contains_cons, orb_true_iff. intros [H|H]; [|exact (IH H)].
  simpl in H, Hw. apply andb_true_iff in H as [H _]. apply N.eqb_eq in H.
  subst x. congruence.
Qed.

Lemma contains_drop_suffix (f : N -> bool) w s q :
  f (hd 0 (rev w)) = false -> Forall (fun c => f c = true) q ->
  contains w (s ++ q) = true -> contains w s = true.
Proof.
  intros Hw Hq H. apply contains_rev in H. rewrite rev_app_distr in H.
  apply (contains_drop_prefix f) in H; [| exact Hw | apply Forall_rev; exact Hq].
  apply contains_rev in H. rewrite !rev_involutive in H. exact H.
Qed.

Lemma dropwhile_split (f : N -> bool) s :
  exists p, s = p ++ dropwhile f s /\ Forall (fun c => f c = true) p.
Proof.
  induction s as [|c s (p & Hp & Hall)]; simpl.
  - exists []. split; [reflexivity | constructor].
  - destruct (f c) eqn:E.
    + exists (c :: p). split; [simpl; congruence | constructor; assumption].
    + exists []. split; [reflexivity | constructor].
Qed.

Lemma dropwhile_head (f : N -> bool) s c t : dropwhile f s = c :: t -> f c = false.
Proof.
  induction s as [|x s IH]; simpl; [discriminate|].
  destruct (f x) eqn:E; [exact IH | intros [= -> _]; exact E].
Qed.

Lemma dropwhile_stop (f : N -> bool) c t : f c = false -> dropwhile f (c :: t) = c :: t.
Proof. intros H. simpl. rewrite H. reflexivity. Qed.

Lemma dropwhile_all (f : N -> bool) p s :
  Forall (fun c => f c = true) p -> dropwhile f (p ++ s) = dropwhile f s.
Proof. induction 1 as [|c p Hc _ IH]; simpl; [reflexivity | rewrite Hc; exact IH]. Qed.

(** [strip] removes a whitespace prefix and a whitespace suffix. *)
Lemma strip_split m :
  exists p q, m = p ++ strip m ++ q
              /\ Forall (fun c => isspace c = true) p
              /\ Forall (fun c => isspace c = true) q.
Proof.
  unfold strip, rstrip, lstrip.
  destruct (dropwhile_split isspace m) as (p & Hm & Hp).
  destruct (dropwhile_split isspace (rev (dropwhile isspace m))) as (q & Hq & Hqa).
  exists p, (rev q). split; [|split; [exact Hp | apply Forall_rev; exact Hqa]].
  rewrite <- rev_app_distr, <- Hq, rev_involutive. exact Hm.
Qed.

Lemma isspace_lower_char c : isspace c = true -> lower_char c = [c].
Proof.
  unfold isspace, lower_char. intros H.
  repeat match goal with
         | |- context [if ?b then _ else _] => destruct b eqn:?
         end; try reflexivity; exfalso;
  repeat match goal with
         | H : _ && _ = true |- _ => apply andb_true_iff in H as [? ?]
         | H : negb _ = true |- _ => apply negb_true_iff in H
         | H : (_ <=? _) = true |- _ => apply N.leb_le in H
         | H : (_ =? _) = true |- _ => apply N.eqb_eq in H
         end; subst; try discriminate;
  repeat match goal with
         | H : _ || _ = true |- _ => apply orb_true_iff in H as [H|H]
         | H : _ && _ = true |- _ => apply andb_true_iff in H as [? ?]
         | H : (_ <=? _) = true |- _ => apply N.leb_le in H
         | H : (_ =? _) = true |- _ => apply N.eqb_eq in H
         end; lia.
Qed.

Lemma lower_app s1 s2 : lower (s1 ++ s2) = lower s1 ++ lower s2.
Proof. unfold lower. apply flat_map_app. Qed.

Lemma lower_spaces p : Forall (fun c => isspace c = true) p -> lower p = p.
Proof.
  induction 1 as [|c p Hc _ IH]; [reflexivity|].
  unfold lower in *. simpl. rewrite IH, (isspace_lower_char c Hc). reflexivity.
Qed.

(** A keyword that neither starts nor ends with whitespace is found in the
    lower-cased message exactly when the router, which strips the message
    first, can find it. *)
Lemma contains_lower_strip w m :
  isspace (hd 0 w) = false -> isspace (hd 0 (rev w)) = false ->
  contains w (lower m) = true -> contains w (lower (strip m)) = true.
Proof.
  intros Hh Hl H. destruct (strip_split m) as (p & q & Hm & Hp & Hq).
  rewrite Hm, !lower_app, (lower_spaces p Hp), (lower_spaces q Hq) in H.
  apply (contains_drop_prefix isspace) in H; [| exact Hh | exact Hp].
  apply (contains_drop_suffix isspace) in H; [exact H | exact Hl | exact Hq].
Qed.

Lemma contains_lower w m :
  lower w = w -> contains w m = true -> contains w (lower m) = true.
Proof.
  intros Hw. rewrite !contains_iff. intros (a & b & ->).
  exists (lower a), (lower b). rewrite !lower_app, Hw. reflexivity.
Qed.

(** A lower-case keyword of the raw message is still there after
    [strip().lower()]. *)
Lemma contains_user_message_lower w m :
  lower w = w -> isspace (hd 0 w) = false -> isspace (hd 0 (rev w)) = false ->
  contains w m = true -> contains w (lower (strip m)) = true.
Proof.
  intros Hw Hh Hl H. apply contains_lower_strip; [exact Hh | exact Hl |].
  apply contains_lower; assumption.
Qed.

End TextFacts.

(** ** The decoder *)

Section DecoderFacts.

Implicit Types (s r t : list N) (c : N) (v : json).

Lemma after_cons r c t : r `suffix_of` t -> after r (c :: t).
Proof. intros [pre ->]. exists c, pre. reflexivity. Qed.

Lemma after_suffix r s : after r s -> r `suffix_of` s.
Proof. intros (c & pre & ->). exists (c :: pre). reflexivity. Qed.

Lemma after_length r s : after r s -> (length r < length s)%nat.
Proof. intros (c & pre & ->). simpl. rewrite length_app. lia. Qed.

Lemma after_trans r s s' : after r s -> s `suffix_of` s' -> after r s'.
Proof.
  intros (c & pre & ->) [k ->]. destruct k as [|x k]; simpl.
  - exists c, pre. reflexivity.
  - exists x, (k ++ c :: pre). rewrite <- app_assoc. reflexivity.
Qed.

Ltac suffix_tac :=
  solve [ repeat first [ assumption | reflexivity | apply suffix_drop
                       | apply suffix_cons_r | apply suffix_app_r ] ].

Ltac after_tac := apply after_cons; suffix_tac.

Lemma skip_ws_split s : exists p, s = p ++ skip_ws s /\ Forall (fun c => is_ws c = true) p.
Proof. apply dropwhile_split. Qed.

Lemma skip_ws_suffix s : skip_ws s `suffix_of` s.
Proof. destruct (skip_ws_split s) as (p & H & _). exists p. exact H. Qed.

Lemma skip_ws_nil s : skip_ws s = [] -> Forall (fun c => is_ws c = true) s.
Proof.
  intros H. destruct (skip_ws_split s) as (p & Hs & Hp).
  rewrite H, app_nil_r in Hs. subst p. exact Hp.
Qed.

Lemma span_digits_app s ds r : span_digits s = (ds, r) -> s = ds ++ r.
Proof.
  revert ds r. induction s as [|c s IH]; simpl; intros ds r H.
  - injection H as <- <-. reflexivity.
  - destruct (is_digit c).
    + destruct (span_digits s) as [ds' r'] eqn:E. injection H as <- <-.
      simpl. f_equal. apply IH. reflexivity.
    + injection H as <- <-. reflexivity.
Qed.

Lemma scanstring_after s acc x r : scanstring s acc = Some (x, r) -> after r s.
Proof.
  remember (length s) as n eqn:Hn. revert s acc Hn.
  induction n as [n IH] using lt_wf_ind. intros s acc Hn H.
  assert (IH' : forall t acc', (length t < length s)%nat ->
                  scanstring t acc' = Some (x, r) -> r `suffix_of` t).
  { intros t acc' Hlt Ht. apply after_suffix.
    apply (IH (length t)) with (acc := acc'); [lia | reflexivity | exact Ht]. }
  clear IH. destruct s as [|c t]; [discriminate|]. simpl in H.
  repeat match type of H with
         | context [if ?b then _ else _] => destruct b eqn:?
         | context [match ?l with [] => _ | _ :: _ => _ end] => destruct l
         | context [match hex4 ?a ?b ?c ?d with _ => _ end] =>
             destruct (hex4 a b c d)
         | context [match simple_escape ?e with _ => _ end] =>
             destruct (simple_escape e)
         | None = Some _ => discriminate H
         | Some _ = Some _ => injection H as <- <-; after_tac
         end;
  try discriminate;
  (apply after_cons; apply IH' in H; [suffix_tac | simpl; lia]).
Qed.

Lemma match_number_after s v r :
  match_number s = Some (v, r) -> after r s /\ is_dict v = false.
Proof.
  unfold match_number. intros H.
  repeat match type of H with
         | context [if ?b then _ else _] => destruct b eqn:?
         | context [match ?l with [] => _ | _ :: _ => _ end] => destruct l
         | context [let '(_, _) := span_digits ?t in _] =>
             let E := fresh "E" in
             destruct (span_digits t) eqn:E; apply span_digits_app in E
         | context [let '(_, _) := ?p in _] => destruct p eqn:?
         | context [match ?o with Some _ => _ | None => _ end] => destruct o eqn:?
         end;
  simplify_eq; try discriminate;
  repeat match goal with
         | E : _ :: _ = _ ++ _ |- _ => simpl in E; simplify_eq
         end;
  (split; [after_tac | reflexivity]).
Qed.


Lemma after_suffix_l r t s : r `suffix_of` t -> after t s -> after r s.
Proof.
  intros [k ->] (c & pre & ->). exists c, (pre ++ k).
  rewrite <- app_assoc. reflexivity.
Qed.

(** Chains the suffix facts of the context. *)
Ltac suffix_chain :=
  first [ reflexivity
        | assumption
        | apply suffix_drop
        | match goal with
          | H : ?a `suffix_of` ?b |- _ `suffix_of` ?b =>
              transitivity a; [clear H; suffix_chain | exact H]
          end
        | apply suffix_cons_r; suffix_chain
        | apply suffix_app_r; suffix_chain ].

Ltac note_skip_ws t :=
  let Hws := fresh "Hws" in pose proof (skip_ws_suffix t) as Hws.

(** What [scan_once] and its two loops consume: at least one character; an
    object starts with an opening brace and its text ends with the closing
    one; only the opening brace yields a dict. *)
Lemma scan_shape n :
  (forall s v r, scan_once n s = Some (v, r) ->
     after r s
     /\ (is_dict v = true -> hd 0 s = 123 /\ (125 :: r) `suffix_of` s))
  /\ (forall d s v r, object_items n d s = Some (v, r) ->
        (125 :: r) `suffix_of` s /\ is_dict v = true)
  /\ (forall acc s v r, array_items n acc s = Some (v, r) ->
        after r s /\ is_dict v = false).
Proof.
  induction n as [|n (IHA & IHB & IHC)].
  { repeat split; intros; discriminate. }
  Opaque startswith u skipn match_number scanstring skip_ws.
  split; [|split].
  - intros s v r H. destruct s as [|c t]; [discriminate|]. simpl in H.
    destruct (c =? 34).
    { destruct (scanstring t []) as [[x r']|] eqn:Es; [|discriminate].
      injection H as <- <-. apply scanstring_after, after_suffix in Es.
      split; [apply after_cons; exact Es | discriminate]. }
    destruct (c =? 123) eqn:E123.
    { apply N.eqb_eq in E123. subst c. note_skip_ws t.
      destruct (skip_ws t) as [|c' r'] eqn:Ew; [discriminate|].
      destruct (c' =? 125) eqn:E125.
      - injection H as <- <-. apply N.eqb_eq in E125. subst c'.
        split; [apply after_cons; suffix_chain|].
        intros _. split; [reflexivity | suffix_chain].
      - apply IHB in H as [Hs _].
        split; [apply after_cons; suffix_chain|].
        intros _. split; [reflexivity | suffix_chain]. }
    destruct (c =? 91).
    { note_skip_ws t.
      destruct (skip_ws t) as [|c' r'] eqn:Ew; [discriminate|].
      destruct (c' =? 93).
      - injection H as <- <-. split; [apply after_cons; suffix_chain | discriminate].
      - apply IHC in H as [Hs Hd]. apply after_suffix in Hs.
        split; [apply after_cons; suffix_chain | congruence]. }
    repeat match type of H with
           | context [if ?b then _ else _] => destruct b
           end;
    try (injection H as <- <-; split; [apply after_cons; suffix_chain | discriminate]).
    apply match_number_after in H as [Ha Hd]. split; [exact Ha | congruence].
  - intros d s v r H. destruct s as [|q t1]; [discriminate|]. simpl in H.
    destruct (q =? 34); [|discriminate].
    destruct (scanstring t1 []) as [[key t2]|] eqn:Es; [|discriminate].
    apply scanstring_after, after_suffix in Es. note_skip_ws t2.
    destruct (skip_ws t2) as [|col t3] eqn:Ew2; [discriminate|].
    destruct (col =? 58); [|discriminate].
    destruct (scan_once n (skip_ws t3)) as [[v' t4]|] eqn:Ev; [|discriminate].
    apply IHA in Ev as [Ev _]. apply after_suffix in Ev.
    note_skip_ws t3. note_skip_ws t4.
    destruct (skip_ws t4) as [|x t5] eqn:Ew4; [discriminate|].
    destruct (x =? 125) eqn:E125.
    + injection H as <- <-. apply N.eqb_eq in E125. subst x.
      split; [suffix_chain | reflexivity].
    + destruct (x =? 44); [|discriminate].
      apply IHB in H as [Hs Hd]. note_skip_ws t5.
      split; [suffix_chain | exact Hd].
  - intros acc s v r H. simpl in H.
    destruct (scan_once n s) as [[v' t]|] eqn:Ev; [|discriminate].
    apply IHA in Ev as [Ev _]. note_skip_ws t.
    destruct (skip_ws t) as [|x t'] eqn:Ew; [discriminate|].
    destruct (x =? 93).
    + injection H as <- <-. split; [|reflexivity].
      apply (after_suffix_l _ t); [suffix_chain | exact Ev].
    + destruct (x =? 44); [|discriminate].
      apply IHC in H as [Hs Hd]. apply after_suffix in Hs. note_skip_ws t'.
      split; [|exact Hd].
      apply (after_suffix_l _ t); [suffix_chain | exact Ev].
  Transparent startswith u skipn match_number scanstring skip_ws.
Qed.

Lemma is_ws_isspace c : is_ws c = true -> isspace c = true.
Proof.
  unfold is_ws. rewrite !orb_true_iff, !N.eqb_eq.
  intros [[[-> | ->] | ->] | ->]; reflexivity.
Qed.

(** The text of a JSON object: whitespace, an opening brace, ..., a closing
    brace, whitespace. *)
Lemma json_object_shape s d :
  json_loads s = Some (JObj d) ->
  exists p z q,
    s = p ++ 123 :: z ++ 125 :: q
    /\ Forall (fun c => is_ws c = true) p
    /\ Forall (fun c => is_ws c = true) q.
Proof.
  unfold json_loads. destruct (startswith [65279] s); [discriminate|].
  destruct (scan_once _ (skip_ws s)) as [[v r]|] eqn:E; [|discriminate].
  destruct (skip_ws r) eqn:Er; [|discriminate]. intros [= ->].
  apply scan_shape in E as [_ E]. destruct (E eq_refl) as [Hhd [k Hk]].
  destruct (skip_ws_split s) as (p & Hs & Hp).
  destruct (skip_ws s) as [|c t]; [destruct k; discriminate|].
  simpl in Hhd. subst c.
  destruct k as [|c k].
  - simpl in Hk. discriminate.
  - simpl in Hk. injection Hk as <- ->.
    exists p, k, r. split; [exact Hs | split; [exact Hp | apply skip_ws_nil, Er]].
Qed.


Ltac length_facts :=
  repeat match goal with
         | H : after _ _ |- _ => apply after_length in H
         | H : _ `suffix_of` _ |- _ => apply suffix_length in H
         end;
  simpl length in *.

(** More fuel than twice the length of the text changes nothing. *)
Lemma scan_fuel n :
  (forall s m, (2 * length s <= n)%nat -> (n <= m)%nat ->
     scan_once m s = scan_once n s)
  /\ (forall d s m, (2 * length s + 1 <= n)%nat -> (n <= m)%nat ->
        object_items m d s = object_items n d s)
  /\ (forall acc s m, (2 * length s + 1 <= n)%nat -> (n <= m)%nat ->
        array_items m acc s = array_items n acc s).
Proof.
  induction n as [|n (IHA & IHB & IHC)].
  { split; [|split; intros; lia].
    intros [|c t] m Hs _; [destruct m; reflexivity | simpl in Hs; lia]. }
  Opaque startswith u skipn match_number scanstring skip_ws.
  split; [|split].
  - intros s m Hs Hm. destruct m as [|m]; [lia|].
    destruct s as [|c t]; [reflexivity|]. simpl in Hs. simpl.
    destruct (c =? 34); [reflexivity|].
    destruct (c =? 123).
    { note_skip_ws t. destruct (skip_ws t) as [|c' r'] eqn:Ew; [reflexivity|].
      destruct (c' =? 125); [reflexivity|].
      apply IHB; [length_facts; lia | lia]. }
    destruct (c =? 91); [|reflexivity].
    note_skip_ws t. destruct (skip_ws t) as [|c' r'] eqn:Ew; [reflexivity|].
    destruct (c' =? 93); [reflexivity|].
    apply IHC; [length_facts; lia | lia].
  - intros d s m Hs Hm. destruct m as [|m]; [lia|].
    destruct s as [|q t1]; [reflexivity|]. simpl in Hs. simpl.
    destruct (q =? 34); [|reflexivity].
    destruct (scanstring t1 []) as [[key t2]|] eqn:Es; [|reflexivity].
    apply scanstring_after in Es. note_skip_ws t2.
    destruct (skip_ws t2) as [|col t3] eqn:Ew2; [reflexivity|].
    destruct (col =? 58); [|reflexivity].
    note_skip_ws t3.
    rewrite (IHA (skip_ws t3) m); [| length_facts; lia | lia].
    destruct (scan_once n (skip_ws t3)) as [[v' t4]|] eqn:Ev; [|reflexivity].
    apply scan_shape in Ev as [Ev _]. note_skip_ws t4.
    destruct (skip_ws t4) as [|x t5] eqn:Ew4; [reflexivity|].
    destruct (x =? 125); [reflexivity|].
    destruct (x =? 44); [|reflexivity].
    note_skip_ws t5. apply IHB; [length_facts; lia | lia].
  - intros acc s m Hs Hm. destruct m as [|m]; [lia|]. simpl.
    rewrite (IHA s m); [| lia | lia].
    destruct (scan_once n s) as [[v' t]|] eqn:Ev; [|reflexivity].
    apply scan_shape in Ev as [Ev _]. note_skip_ws t.
    destruct (skip_ws t) as [|x t'] eqn:Ew; [reflexivity|].
    destruct (x =? 93); [reflexivity|].
    destruct (x =? 44); [|reflexivity].
    note_skip_ws t'. apply IHC; [length_facts; lia | lia].
  Transparent startswith u skipn match_number scanstring skip_ws.
Qed.

(** [json_loads] does not depend on the fuel it supplies. *)
Lemma json_loads_fuel s m :
  (S (2 * length s) <= m)%nat ->
  scan_once m (skip_ws s) = scan_once (S (2 * length s)) (skip_ws s).
Proof.
  intros Hm. pose proof (suffix_length _ _ (skip_ws_suffix s)) as Hl.
  apply (proj1 (scan_fuel _)); lia.
Qed.

End DecoderFacts.

(** ** Structured-output parser *)

Section ParserFacts.

Implicit Types (s t p q z : list N) (c x y : N).

Lemma dropwhile_app_stop (f : N -> bool) s x t :
  f x = false -> dropwhile f (s ++ x :: t) = dropwhile f s ++ x :: t.
Proof.
  intros Hx. induction s as [|c s IH]; simpl.
  - rewrite Hx. reflexivity.
  - destruct (f c); [exact IH | reflexivity].
Qed.

Lemma dropwhile_id (f : N -> bool) s x t :
  Forall (fun c => f c = false) (s ++ [x]) -> dropwhile f (s ++ x :: t) = s ++ x :: t.
Proof.
  intros H. destruct s as [|c s]; simpl in *.
  - apply Forall_inv in H. rewrite H. reflexivity.
  - apply Forall_inv in H. rewrite H. reflexivity.
Qed.

Lemma rstrip_app_nonspace s x t :
  isspace x = false -> rstrip (s ++ x :: t) = s ++ x :: rstrip t.
Proof.
  intros Hx. unfold rstrip.
  rewrite rev_app_distr. simpl rev. rewrite <- app_assoc. simpl app.
  rewrite (dropwhile_app_stop isspace _ _ _ Hx), rev_app_distr. simpl rev.
  rewrite rev_involutive, <- app_assoc. reflexivity.
Qed.

Lemma rstrip_spaces q : Forall (fun c => isspace c = true) q -> rstrip q = [].
Proof.
  intros H. unfold rstrip. apply Forall_rev in H.
  rewrite <- (app_nil_r (rev q)), (dropwhile_all isspace _ [] H). reflexivity.
Qed.

(** [strip] on a text with a known first and last visible character. *)
Lemma strip_core p x z y q :
  Forall (fun c => isspace c = true) p -> Forall (fun c => isspace c = true) q ->
  isspace x = false -> isspace y = false ->
  strip (p ++ x :: z ++ y :: q) = x :: z ++ [y].
Proof.
  intros Hp Hq Hx Hy. unfold strip, lstrip.
  rewrite (dropwhile_all isspace p _ Hp), (dropwhile_stop isspace _ _ Hx).
  change (x :: z ++ y :: q) with ((x :: z) ++ y :: q).
  rewrite (rstrip_app_nonspace _ _ _ Hy), (rstrip_spaces q Hq). reflexivity.
Qed.

Lemma split1_app sep s t :
  ~ In sep s -> split1 sep (s ++ sep :: t) = (s, Some t).
Proof.
  induction s as [|c s IH]; simpl; intros H.
  - rewrite N.eqb_refl. reflexivity.
  - destruct (c =? sep) eqn:E.
    + apply N.eqb_eq in E. tauto.
    + rewrite IH; [reflexivity | tauto].
Qed.

Lemma rstrip_char_repeat ch s y t k :
  Forall (fun c => (ch =? c) = false) (y :: t) ->
  rstrip_char ch (s ++ y :: t ++ repeat ch k) = s ++ y :: t.
Proof.
  intros H. unfold rstrip_char.
  replace (s ++ y :: t ++ repeat ch k) with ((s ++ y :: t) ++ repeat ch k)
    by (rewrite <- app_assoc; reflexivity).
  rewrite rev_app_distr, rev_repeat, dropwhile_all.
  2:{ clear. induction k as [|k IH]; simpl; constructor;
      [apply N.eqb_refl | exact IH]. }
  rewrite rev_app_distr. simpl rev. rewrite <- app_assoc. simpl app.
  rewrite dropwhile_id.
  - rewrite rev_app_distr. simpl rev.
    rewrite !rev_involutive, <- app_assoc. reflexivity.
  - apply Forall_rev in H. simpl rev in H. exact H.
Qed.

Lemma isspace_not_backtick c : isspace c = true -> (96 =? c) = false.
Proof.
  intros H. destruct (96 =? c) eqn:E; [|reflexivity].
  apply N.eqb_eq in E. subst c. discriminate.
Qed.

Lemma startswith_app p s : startswith p (p ++ s) = true.
Proof. apply startswith_iff. exists s. reflexivity. Qed.

Lemma repeat_snoc (c : N) k : repeat c (S k) = repeat c k ++ [c].
Proof. simpl. apply repeat_cons. Qed.

(** Both sides are the same list up to the bracketing of [++]. *)
Ltac list_eq :=
  unfold backticks3;
  repeat (rewrite <- ?app_assoc, ?app_nil_r; simpl);
  reflexivity.

(** A fenced JSON object and the bare one are cleaned to the same text. *)
Lemma strip_code_fences_fenced J tag mid n d :
  json_loads J = Some (JObj d) ->
  ~ In 10 tag ->
  Forall (fun c => isspace c = true) mid ->
  _strip_code_fences (backticks3 ++ tag ++ [10] ++ J ++ mid ++ repeat 96 n)
  = _strip_code_fences J.
Proof.
  intros HJ Htag Hmid.
  destruct (json_object_shape J d HJ) as (p & z & q & -> & Hp & Hq).
  assert (Hp' : Forall (fun c => isspace c = true) p)
    by (eapply Forall_impl; [exact Hp | apply is_ws_isspace]).
  assert (Hq' : Forall (fun c => isspace c = true) q)
    by (eapply Forall_impl; [exact Hq | apply is_ws_isspace]).
  (* the bare text *)
  assert (Hbare : _strip_code_fences (p ++ 123 :: z ++ 125 :: q) = 123 :: z ++ [125]).
  { unfold _strip_code_fences.
    rewrite (strip_core p 123 z 125 q Hp' Hq' eq_refl eq_refl). simpl startswith.
    cbv iota. apply (strip_core [] 123 z 125 []); constructor || reflexivity. }
  rewrite Hbare.
  (* the fenced text, stripped *)
  assert (Hfenced : exists W k,
            Forall (fun c => isspace c = true) W
            /\ strip (backticks3 ++ tag ++ [10] ++ (p ++ 123 :: z ++ 125 :: q)
                        ++ mid ++ repeat 96 n)
               = backticks3 ++ tag ++ 10 :: p ++ 123 :: z ++ 125 :: W ++ repeat 96 k).
  { destruct n as [|n].
    - exists [], O. split; [constructor|].
      replace (backticks3 ++ tag ++ [10] ++ (p ++ 123 :: z ++ 125 :: q)
                 ++ mid ++ repeat 96 0)
        with ([] ++ 96 :: ([96; 96] ++ tag ++ 10 :: p ++ 123 :: z) ++ 125 :: (q ++ mid))
        by list_eq.
      rewrite strip_core; [list_eq | constructor | | reflexivity | reflexivity].
      apply Forall_app. split; assumption.
    - exists (q ++ mid), (S n). split; [apply Forall_app; split; assumption|].
      rewrite repeat_snoc.
      replace (backticks3 ++ tag ++ [10] ++ (p ++ 123 :: z ++ 125 :: q)
                 ++ mid ++ repeat 96 n ++ [96])
        with ([] ++ 96 :: ([96; 96] ++ tag ++ 10 :: (p ++ 123 :: z ++ 125 :: q)
                             ++ mid ++ repeat 96 n) ++ 96 :: [])
        by list_eq.
      rewrite strip_core; [list_eq | constructor | constructor | reflexivity | reflexivity]. }
  destruct Hfenced as (W & k & HW & Hstrip).
  unfold _strip_code_fences. rewrite Hstrip, startswith_app.
  rewrite (app_assoc backticks3 tag), split1_app.
  2:{ intros Hin. apply in_app_or in Hin as [Hin|Hin]; [|tauto].
      unfold backticks3 in Hin. simpl in Hin.
      repeat destruct Hin as [Hin|Hin]; try discriminate; contradiction. }
  assert (Hfirst : startswith backticks3 (strip (backticks3 ++ tag)) = true).
  { unfold strip, lstrip, backticks3. simpl app.
    rewrite (dropwhile_stop isspace 96 _ eq_refl).
    change (96 :: 96 :: 96 :: tag) with ([96; 96] ++ 96 :: tag).
    rewrite (rstrip_app_nonspace _ 96 _ eq_refl). reflexivity. }
  rewrite Hfirst.
  replace (p ++ 123 :: z ++ 125 :: W ++ repeat 96 k)
    with ((p ++ 123 :: z) ++ 125 :: W ++ repeat 96 k) by list_eq.
  rewrite rstrip_char_repeat.
  2:{ constructor; [reflexivity|].
      eapply Forall_impl; [exact HW | apply isspace_not_backtick]. }
  rewrite <- app_assoc. simpl app.
  apply strip_core; [assumption | assumption | reflexivity | reflexivity].
Qed.

End ParserFacts.

(** C9. For every text [J] that is a valid JSON object, the fenced form of
    [J] (three backticks, an optional language tag without a newline, a
    newline, [J], optional whitespace, any number of closing backticks) is
    parsed to the same value as [J] itself. *)
Theorem parse_llm_json_fenced (J tag mid : list N) (n : nat) (d : list (list N * json)) :
  json_loads J = Some (JObj d) ->
  ~ In 10 tag ->
  Forall (fun c => isspace c = true) mid ->
  _parse_llm_json (backticks3 ++ tag ++ [10] ++ J ++ mid ++ repeat 96 n)
  = _parse_llm_json J.
Proof.
  intros HJ Htag Hmid. unfold _parse_llm_json.
  rewrite (strip_code_fences_fenced J tag mid n d HJ Htag Hmid). reflexivity.
Qed.

Lemma parse_llm_json_fenced_witness :
  _parse_llm_json
    (backticks3 ++ u "json" ++ [10] ++ small_object_text ++ [10] ++ repeat 96 3)
  = _parse_llm_json small_object_text.
Proof.
  apply (parse_llm_json_fenced small_object_text (u "json") [10] 3 [(u "a", JInt 1)]).
  - vm_compute. reflexivity.
  - vm_compute. intros H. repeat destruct H as [H|H]; try discriminate H. exact H.
  - repeat constructor.
Defined.

(** C1, at a failing input.  The reply [123] contains no brace, the decoder
    accepts it, and [_parse_llm_json] returns the number 123: neither a
    mapping nor the empty mapping. *)
Theorem parse_llm_json_bare_number :
  contains [123] (u "123") = false
  /\ contains [125] (u "123") = false
  /\ _parse_llm_json (u "123") = JInt 123
  /\ is_dict (_parse_llm_json (u "123")) = false.
Proof. vm_compute. repeat split. Qed.

(** What the parser does return for a text without braces: the decoded
    value when the cleaned text is a JSON document, the empty dict when it is
    not. *)
Lemma parse_llm_json_no_brace raw :
  find 123 (_strip_code_fences raw) = (-1)%Z ->
  _parse_llm_json raw
  = match json_loads (_strip_code_fences raw) with
    | Some v => v
    | None => JObj []
    end.
Proof.
  intros H. unfold _parse_llm_json. rewrite H.
  destruct (json_loads (_strip_code_fences raw)); reflexivity.
Qed.

Lemma find_from_split ch i s :
  find_from ch i s = (-1)%Z
  \/ exists pre post, s = pre ++ ch :: post
                      /\ find_from ch i s = (i + Z.of_nat (length pre))%Z.
Proof.
  revert i. induction s as [|c s IH]; intros i; simpl; [left; reflexivity|].
  destruct (c =? ch) eqn:E.
  - apply N.eqb_eq in E. subst c. right. exists [], s. split; [reflexivity|].
    simpl. lia.
  - destruct (IH (i + 1)%Z) as [H | (pre & post & -> & H)]; [left; exact H|].
    right. exists (c :: pre), post. split; [reflexivity|]. rewrite H. simpl length. lia.
Qed.

(** A text that starts with an opening brace decodes to a dict or not at
    all. *)
Lemma json_loads_brace t v : json_loads (123 :: t) = Some v -> is_dict v = true.
Proof.
  unfold json_loads. destruct (startswith [65279] (123 :: t)); [discriminate|].
  change (skip_ws (123 :: t)) with (123 :: t).
  destruct (scan_once _ (123 :: t)) as [[v' r]|] eqn:E; [|discriminate].
  destruct (skip_ws r); [|discriminate]. intros [= <-].
  cbn [scan_once] in E. change (123 =? 34) with false in E.
  change (123 =? 123) with true in E. cbv iota in E.
  destruct (skip_ws t) as [|c' r']; [discriminate|].
  destruct (c' =? 125).
  - injection E as <- _. reflexivity.
  - apply scan_shape in E as [_ E]. exact E.
Qed.

(** What [_parse_llm_json] returns is a dict, or else the value the whole
    cleaned text decodes to. *)
Lemma parse_llm_json_cases raw :
  is_dict (_parse_llm_json raw) = true
  \/ (json_loads (_strip_code_fences raw) = Some (_parse_llm_json raw)
      /\ is_dict (_parse_llm_json raw) = false).
Proof.
  unfold _parse_llm_json. generalize (_strip_code_fences raw). intros cleaned.
  destruct (json_loads cleaned) as [v|] eqn:E.
  - destruct (is_dict v) eqn:Ed; [left; reflexivity | right; split; reflexivity].
  - left.
    destruct (negb (find 123 cleaned =? -1)%Z && negb (rfind 125 cleaned =? -1)%Z
              && (find 123 cleaned <? rfind 125 cleaned)%Z) eqn:Ec; [|reflexivity].
    destruct (json_loads (slice _ _ cleaned)) as [v|] eqn:Es; [|reflexivity].
    apply andb_true_iff in Ec as [Ec Hlt]. apply andb_true_iff in Ec as [Hs _].
    apply negb_true_iff, Z.eqb_neq in Hs. apply Z.ltb_lt in Hlt.
    unfold find in *.
    destruct (find_from_split 123 0 cleaned) as [H | (pre & post & Hc & H)];
      [contradiction|].
    subst cleaned. rewrite H in Es, Hlt. unfold slice in Es.
    replace (Z.to_nat (0 + Z.of_nat (length pre))) with (length pre) in Es by lia.
    rewrite skipn_app, skipn_all, Nat.sub_diag in Es. simpl in Es.
    destruct (Z.to_nat _) as [|k] eqn:Ek in Es; [lia|].
    simpl in Es. apply json_loads_brace in Es. exact Es.
Qed.

(** ** Plan synthesizer *)

Section SynthesizerFacts.

Variable float_of_str : list N -> option pyfloat.

Local Abbreviation build := (_build_account_plan_from_llm float_of_str).

Lemma fallback_plan_eq now raw req rag_ctx web_text :
  truthy (_parse_llm_json raw) = false ->
  build now raw req rag_ctx web_text
  = Ok (AccountPlan.mk
          (StartResearchRequest.company_name req)
          (depth_value (StartResearchRequest.depth req))
          (StartResearchRequest.company_name req ++ snapshot_heading ++ firstn 700 raw)
          [] [] [] [] [] [] [] [] [] [] JNull None
          (Some (ResearchMetadata.mk now
                   (depth_value (StartResearchRequest.depth req))
                   ((if nonempty rag_ctx then [u "rag"] else [])
                    ++ (if has_text web_text then [u "web"] else []))
                   (_build_steps rag_ctx web_text) false float_zero))
          [CompanySection.mk (u "Full Research Output") raw]).
Proof.
  intros H. unfold _build_account_plan_from_llm. rewrite H. reflexivity.
Qed.

(** C2. When the reply parses to the empty mapping, the synthesizer returns
    (it does not raise) a plan with confidence 0.0, no conflicts detected,
    the single section "Full Research Output" holding the whole reply, empty
    narrative fields, and a non-empty overview made of the company name, the
    snapshot heading and the first 700 characters of the reply. *)
Theorem fallback_plan now raw req rag_ctx web_text :
  _parse_llm_json raw = JObj [] ->
  exists plan meta,
    build now raw req rag_ctx web_text = Ok plan
    /\ AccountPlan.metadata plan = Some meta
    /\ ResearchMetadata.confidence_score meta = float_zero
    /\ ResearchMetadata.conflicts_detected meta = false
    /\ AccountPlan.sections plan = [CompanySection.mk (u "Full Research Output") raw]
    /\ ( AccountPlan.company_profile plan = []
         /\ AccountPlan.market_analysis plan = []
         /\ AccountPlan.financial_highlights plan = []
         /\ AccountPlan.product_portfolio plan = []
         /\ AccountPlan.technology_stack plan = []
         /\ AccountPlan.competitors plan = []
         /\ AccountPlan.swot plan = []
         /\ AccountPlan.opportunities plan = []
         /\ AccountPlan.risks plan = []
         /\ AccountPlan.account_plan_30_60_90 plan = [] )
    /\ AccountPlan.overview plan
       = StartResearchRequest.company_name req ++ snapshot_heading ++ firstn 700 raw
    /\ startswith (StartResearchRequest.company_name req) (AccountPlan.overview plan) = true
    /\ AccountPlan.overview plan <> [].
Proof.
  intros H. eexists _, _. split.
  - apply fallback_plan_eq. rewrite H. reflexivity.
  - cbn [AccountPlan.metadata AccountPlan.sections AccountPlan.overview
         AccountPlan.company_profile AccountPlan.market_analysis
         AccountPlan.financial_highlights AccountPlan.product_portfolio
         AccountPlan.technology_stack AccountPlan.competitors AccountPlan.swot
         AccountPlan.opportunities AccountPlan.risks
         AccountPlan.account_plan_30_60_90
         ResearchMetadata.confidence_score ResearchMetadata.conflicts_detected].
    repeat split.
    + apply startswith_app.
    + destruct (StartResearchRequest.company_name req); discriminate.
Qed.

(** C5, on the fallback path.  When the reply parses to nothing, the plan's
    [sources_used] lists "rag" and "web" as available and does not contain
    "llm", although the section of that plan is the model's reply. *)
Theorem fallback_sources_used now raw req rag_ctx web_text :
  truthy (_parse_llm_json raw) = false ->
  exists plan meta,
    build now raw req rag_ctx web_text = Ok plan
    /\ AccountPlan.metadata plan = Some meta
    /\ ResearchMetadata.sources_used meta
       = (if nonempty rag_ctx then [u "rag"] else [])
         ++ (if has_text web_text then [u "web"] else [])
    /\ ~ In (u "llm") (ResearchMetadata.sources_used meta).
Proof.
  intros H. eexists _, _. split; [apply fallback_plan_eq; exact H|].
  cbn [AccountPlan.metadata ResearchMetadata.sources_used].
  repeat split.
  destruct (nonempty rag_ctx), (has_text web_text); vm_compute;
    intros Hin; repeat destruct Hin as [Hin|Hin]; try discriminate Hin; exact Hin.
Qed.

End SynthesizerFacts.

Lemma fallback_plan_witness :
  exists plan meta,
    Demo.build_plan now_example (u "not json") acme_request [] None = Ok plan
    /\ AccountPlan.metadata plan = Some meta
    /\ ResearchMetadata.confidence_score meta = float_zero
    /\ ResearchMetadata.conflicts_detected meta = false
    /\ AccountPlan.sections plan
       = [CompanySection.mk (u "Full Research Output") (u "not json")]
    /\ ( AccountPlan.company_profile plan = []
         /\ AccountPlan.market_analysis plan = []
         /\ AccountPlan.financial_highlights plan = []
         /\ AccountPlan.product_portfolio plan = []
         /\ AccountPlan.technology_stack plan = []
         /\ AccountPlan.competitors plan = []
         /\ AccountPlan.swot plan = []
         /\ AccountPlan.opportunities plan = []
         /\ AccountPlan.risks plan = []
         /\ AccountPlan.account_plan_30_60_90 plan = [] )
    /\ AccountPlan.overview plan
       = u "Acme Corp" ++ snapshot_heading ++ firstn 700 (u "not json")
    /\ startswith (u "Acme Corp") (AccountPlan.overview plan) = true
    /\ AccountPlan.overview plan <> [].
Proof.
  apply (fallback_plan Demo.float_of_str now_example (u "not json") acme_request [] None).
  vm_compute. reflexivity.
Defined.

Lemma fallback_sources_used_witness :
  exists plan meta,
    Demo.build_plan now_example (u "not json") acme_request [] None = Ok plan
    /\ AccountPlan.metadata plan = Some meta
    /\ ResearchMetadata.sources_used meta = []
    /\ ~ In (u "llm") (ResearchMetadata.sources_used meta).
Proof.
  apply (fallback_sources_used Demo.float_of_str now_example (u "not json")
           acme_request [] None).
  vm_compute. reflexivity.
Defined.

Section StructuredPlan.

Variable float_of_str : list N -> option pyfloat.

Lemma dict_lookup_get_or k dflt d v :
  dict_lookup k d = Some v -> dict_get_or k dflt d = v.
Proof. unfold dict_get_or. intros ->. reflexivity. Qed.

Lemma dict_lookup_get k d v : dict_lookup k d = Some v -> dict_get k d = v.
Proof. unfold dict_get. intros ->. reflexivity. Qed.

(** C7, as the code has it.  When the reply parses to a mapping in which the
    schema fields are present with their types, the plan has ten sections,
    in the fixed order; the content of eight of them is the input field,
    verbatim; "Opportunities" holds the items of [opportunities_points]
    joined by blank lines, and "30-60-90 Day Plan" a fixed sentence. *)
Theorem structured_plan_sections
    now raw req rag_ctx web_text (data : list (list N * json))
    (overview company_profile market_analysis financial_highlights
     product_portfolio technology_stack competitors swot risks : list N)
    (points kpis : list json) (parts : list (list N)) (confidence : pyfloat) :
  _parse_llm_json raw = JObj data ->
  dict_lookup (u "overview") data = Some (JStr overview) ->
  dict_lookup (u "company_profile") data = Some (JStr company_profile) ->
  dict_lookup (u "market_analysis") data = Some (JStr market_analysis) ->
  dict_lookup (u "financial_highlights") data = Some (JStr financial_highlights) ->
  dict_lookup (u "product_portfolio") data = Some (JStr product_portfolio) ->
  dict_lookup (u "technology_stack") data = Some (JStr technology_stack) ->
  dict_lookup (u "competitors") data = Some (JStr competitors) ->
  dict_lookup (u "swot") data = Some (JStr swot) ->
  dict_lookup (u "risks") data = Some (JStr risks) ->
  dict_lookup (u "opportunities_points") data = Some (JArr points) ->
  strings_of points = Some parts ->
  dict_lookup (u "kpi_summary") data = Some (JArr kpis) ->
  forallb is_dict kpis = true ->
  dict_lookup (u "confidence_score") data = Some (JFloat confidence) ->
  exists plan,
    _build_account_plan_from_llm float_of_str now raw req rag_ctx web_text = Ok plan
    /\ AccountPlan.sections plan
       = [ CompanySection.mk (u "Company Profile") company_profile;
           CompanySection.mk (u "Market Analysis") market_analysis;
           CompanySection.mk (u "Financial Highlights") financial_highlights;
           CompanySection.mk (u "Product Portfolio") product_portfolio;
           CompanySection.mk (u "Technology Stack") technology_stack;
           CompanySection.mk (u "Competitors") competitors;
           CompanySection.mk (u "SWOT Analysis") swot;
           CompanySection.mk (u "Opportunities") (join [10; 10] parts);
           CompanySection.mk (u "Risks") risks;
           CompanySection.mk (u "30-60-90 Day Plan")
             (u "Structured 30-60-90 Day Plan data is available below.") ].
Proof.
  intros Hraw Hov Hcp Hma Hfh Hpp Hts Hco Hsw Hri Hop Hparts Hkpi Hdicts Hconf.
  unfold _build_account_plan_from_llm. rewrite Hraw.
  assert (Ht : truthy (JObj data) = true).
  { destruct data; [discriminate Hov | reflexivity]. }
  rewrite Ht. cbv beta iota delta [negb].
  rewrite (dict_lookup_get_or _ _ _ _ Hov), (dict_lookup_get_or _ _ _ _ Hcp),
    (dict_lookup_get_or _ _ _ _ Hma), (dict_lookup_get_or _ _ _ _ Hfh),
    (dict_lookup_get_or _ _ _ _ Hpp), (dict_lookup_get_or _ _ _ _ Hts),
    (dict_lookup_get_or _ _ _ _ Hco), (dict_lookup_get_or _ _ _ _ Hsw),
    (dict_lookup_get_or _ _ _ _ Hri), (dict_lookup_get_or _ _ _ _ Hop),
    (dict_lookup_get _ _ _ Hkpi), (dict_lookup_get _ _ _ Hconf).
  cbn [join_value confidence_of validate_str validate_kpi_summary mbind result_bind].
  rewrite Hparts, Hdicts.
  cbn [mbind result_bind].
  destruct overview;
    cbn [truthy validate_str mbind result_bind]; eexists; (split; [reflexivity|]);
    reflexivity.
Qed.

End StructuredPlan.

Lemma dict_lookup_In k d v : dict_lookup k d = Some v -> In (k, v) d.
Proof.
  induction d as [|[k' v'] d IH]; simpl; [discriminate|].
  unfold str_eqb. destruct (bool_decide (k = k')) eqn:E.
  - apply bool_decide_eq_true in E. subst k'. intros [= ->]. left. reflexivity.
  - intros H. right. exact (IH H).
Qed.

Lemma structured_plan_sections_witness :
  exists plan,
    Demo.build_plan now_example full_reply_text acme_request [] None = Ok plan
    /\ AccountPlan.sections plan
       = [ CompanySection.mk (u "Company Profile") (u "Founded in 1949.");
           CompanySection.mk (u "Market Analysis") (u "The anvil market is stable.");
           CompanySection.mk (u "Financial Highlights") (u "Revenue grew.");
           CompanySection.mk (u "Product Portfolio") (u "Anvils and rockets.");
           CompanySection.mk (u "Technology Stack") (u "Forges.");
           CompanySection.mk (u "Competitors") (u "Ajax and Apex.");
           CompanySection.mk (u "SWOT Analysis") (u "Strong brand.");
           CompanySection.mk (u "Opportunities")
             (join [10; 10] [u "Opportunity 1"; u "Opportunity 2"]);
           CompanySection.mk (u "Risks") (u "Coyotes.");
           CompanySection.mk (u "30-60-90 Day Plan")
             (u "Structured 30-60-90 Day Plan data is available below.") ].
Proof.
  apply (structured_plan_sections Demo.float_of_str now_example full_reply_text
           acme_request [] None full_mapping (u "Acme makes anvils."))
    with (points := [JStr (u "Opportunity 1"); JStr (u "Opportunity 2")])
         (kpis := [JObj [ (u "name", JStr (u "Employees")); (u "value", JInt 120) ]])
         (confidence := FDec false 86 (-2));
    vm_compute; reflexivity.
Defined.

(** C7, refuted as stated.  The reply [full_reply_text] has every field of
    the schema, and two of the ten sections of its plan hold a text that is
    the value of no input field: "Opportunities" (the list items joined) and
    "30-60-90 Day Plan" (the fixed sentence). *)
Lemma structured_plan_sections_counterexample :
  _parse_llm_json full_reply_text = JObj full_mapping
  /\ exists plan s8 s10,
       Demo.build_plan now_example full_reply_text acme_request [] None = Ok plan
       /\ length (AccountPlan.sections plan) = 10%nat
       /\ AccountPlan.sections plan !! 7%nat = Some s8
       /\ AccountPlan.sections plan !! 9%nat = Some s10
       /\ CompanySection.title s8 = u "Opportunities"
       /\ CompanySection.title s10 = u "30-60-90 Day Plan"
       /\ (forall k v, dict_lookup k full_mapping = Some v ->
                       v <> JStr (CompanySection.content s8))
       /\ (forall k v, dict_lookup k full_mapping = Some v ->
                       v <> JStr (CompanySection.content s10)).
Proof.
  split; [vm_compute; reflexivity|].
  eexists _, _, _. split; [vm_compute; reflexivity|].
  split; [reflexivity|]. split; [reflexivity|]. split; [reflexivity|].
  split; [reflexivity|]. split; [reflexivity|].
  split; intros k v H; apply dict_lookup_In in H; vm_compute in H;
    repeat destruct H as [H|H]; try contradiction;
    injection H as <- <-; vm_compute; discriminate.
Qed.

(** ** Conversation store *)

Section StoreFacts.

Implicit Types (l : list CompanySection.t) (st : gmap (list N) Conversation.t).

Lemma find_section_first title l i :
  find_section title l = Some i <-> exists s, first_with_title title l i s.
Proof.
  revert i. induction l as [|s l IH]; intros i; simpl.
  - split; [discriminate | intros (s & H & _); discriminate].
  - unfold str_eqb. destruct (bool_decide (CompanySection.title s = title)) eqn:E.
    + apply bool_decide_eq_true in E. split.
      * intros [= <-]. exists s. split; [reflexivity|]. split; [exact E|].
        intros j s' Hj. lia.
      * intros (s' & Hl & Ht & Hfirst). destruct i as [|i]; [reflexivity|].
        exfalso. apply (Hfirst O s); [lia | reflexivity | exact E].
    + apply bool_decide_eq_false in E. split.
      * destruct (find_section title l) as [i'|] eqn:Ef; [|discriminate].
        intros [= <-]. destruct (proj1 (IH i') eq_refl) as (s' & Hl & Ht & Hfirst).
        exists s'. split; [exact Hl|]. split; [exact Ht|].
        intros [|j] s'' Hj Hs''.
        -- simpl in Hs''. injection Hs'' as <-. exact E.
        -- apply (Hfirst j); [lia | exact Hs''].
      * intros (s' & Hl & Ht & Hfirst). destruct i as [|i].
        -- simpl in Hl. injection Hl as <-. contradiction.
        -- rewrite (proj2 (IH i)); [reflexivity|].
           exists s'. split; [exact Hl|]. split; [exact Ht|].
           intros j s'' Hj Hs''. apply (Hfirst (S j)); [lia | exact Hs''].
Qed.

Lemma find_section_none title l :
  (forall s, In s l -> CompanySection.title s <> title) ->
  find_section title l = None.
Proof.
  induction l as [|s l IH]; intros H; simpl; [reflexivity|].
  unfold str_eqb. destruct (bool_decide (CompanySection.title s = title)) eqn:E.
  - apply bool_decide_eq_true in E. exfalso. apply (H s); [left; reflexivity | exact E].
  - rewrite IH; [reflexivity|]. intros s' Hs'. apply H. right. exact Hs'.
Qed.

Lemma alter_set_content new l i s :
  l !! i = Some s ->
  alter (set_content new) i l = <[i := CompanySection.mk (CompanySection.title s) new]> l.
Proof.
  revert i. induction l as [|a l IH]; intros [|i] H; try discriminate.
  - injection H as ->. reflexivity.
  - simpl. f_equal. apply IH. exact H.
Qed.

Lemma sections_set_sections v plan : AccountPlan.sections (set_sections v plan) = v.
Proof. destruct plan. reflexivity. Qed.

Lemma setattr_sections name v plan plan' :
  setattr name v plan = Some plan' ->
  AccountPlan.sections plan' = AccountPlan.sections plan.
Proof.
  unfold setattr. destruct plan.
  repeat match goal with
         | |- context [if ?b then _ else _] => destruct b
         end;
  intros [= <-]; reflexivity.
Qed.

(** C6. [update_account_plan_section] on an unknown identifier returns
    [False] and leaves the store alone; on a known identifier whose plan has
    a section with exactly that title, it puts the new content in (the
    first) such section, appends one audit turn to the transcript and
    returns [True]; on a known identifier without such a section it returns
    [False] and leaves the store alone.  The stored plan is any plan whose
    sections carry the titles the synthesizer gives. *)
Theorem update_account_plan_section_spec cid title new_content st :
  (st !! cid = None ->
   update_account_plan_section cid title new_content st = (false, st))
  /\ (forall conv, st !! cid = Some conv ->
      titles_synthesized (Conversation.plan conv) ->
      let sections := AccountPlan.sections (Conversation.plan conv) in
      (forall i s, first_with_title title sections i s ->
         exists plan',
           update_account_plan_section cid title new_content st
           = (true,
              <[cid := Conversation.mk plan'
                         (Conversation.history conv ++ [edit_turn title])
                         (Conversation.conflicts_to_resolve conv)]> st)
           /\ AccountPlan.sections plan'
              = <[i := CompanySection.mk title new_content]> sections)
      /\ ((forall s, In s sections -> CompanySection.title s <> title) ->
          update_account_plan_section cid title new_content st = (false, st))).
Proof.
  split.
  - intros H. unfold update_account_plan_section. rewrite H. reflexivity.
  - intros conv Hconv _ sections. split.
    + intros i s Hfirst. unfold update_account_plan_section. rewrite Hconv.
      fold sections.
      rewrite (proj2 (find_section_first title sections i)) by (exists s; exact Hfirst).
      destruct Hfirst as (Hl & Ht & _).
      rewrite (alter_set_content new_content sections i s Hl), Ht.
      eexists. split; [reflexivity|].
      destruct (hasattr (attr_name_of title)
                && negb (bool_decide (attr_name_of title ∈ protected_attrs)));
        [|apply sections_set_sections].
      destruct (setattr _ _ _) as [plan'|] eqn:E; [|apply sections_set_sections].
      rewrite (setattr_sections _ _ _ _ E). apply sections_set_sections.
    + intros Hnone. unfold update_account_plan_section. rewrite Hconv.
      fold sections. rewrite (find_section_none title sections Hnone). reflexivity.
Qed.

(** Every plan the synthesizer returns has the titles of
    [synthesized_titles], and an edit keeps them. *)
Lemma synthesizer_titles float_of_str now raw req rag_ctx web_text plan :
  _build_account_plan_from_llm float_of_str now raw req rag_ctx web_text = Ok plan ->
  titles_synthesized plan.
Proof.
  unfold _build_account_plan_from_llm, titles_synthesized.
  destruct (negb (truthy (_parse_llm_json raw))).
  - intros [= <-]. cbn [AccountPlan.sections].
    constructor; [apply (bool_decide_unpack _); vm_compute; exact I | constructor].
  - destruct (_parse_llm_json raw); try discriminate.
    repeat match goal with
           | |- context [@mbind result _ _ _ _ ?r] =>
               destruct r; cbn [mbind result_bind]; try discriminate
           end.
    intros [= <-]. cbn [AccountPlan.sections].
    repeat (constructor; [apply (bool_decide_unpack _); vm_compute; exact I|]).
    constructor.
Qed.

Lemma alter_set_content_titles new l i :
  Forall (fun s => CompanySection.title s ∈ synthesized_titles) l ->
  Forall (fun s => CompanySection.title s ∈ synthesized_titles)
         (alter (set_content new) i l).
Proof.
  intros H. revert i. induction H as [|s l Hs Hl IH]; intros [|i]; simpl.
  - constructor.
  - constructor.
  - constructor; [exact Hs | exact Hl].
  - constructor; [exact Hs | apply IH].
Qed.

Lemma update_keeps_titles cid title new_content st :
  (forall c conv, st !! c = Some conv -> titles_synthesized (Conversation.plan conv)) ->
  forall c conv,
    snd (update_account_plan_section cid title new_content st) !! c = Some conv ->
    titles_synthesized (Conversation.plan conv).
Proof.
  intros Hst c conv. unfold update_account_plan_section.
  destruct (st !! cid) as [state|] eqn:E; [|apply Hst].
  destruct (find_section title _) as [i|]; [|apply Hst].
  cbn [snd]. destruct (decide (cid = c)) as [->|Hne].
  - rewrite lookup_insert_eq. intros [= <-]. cbn [Conversation.plan].
    unfold titles_synthesized.
    assert (Hsec : forall plan,
               AccountPlan.sections plan
               = alter (set_content new_content) i
                   (AccountPlan.sections (Conversation.plan state)) ->
               Forall (fun s => CompanySection.title s ∈ synthesized_titles)
                      (AccountPlan.sections plan)).
    { intros plan ->. apply alter_set_content_titles. exact (Hst c state E). }
    destruct (hasattr (attr_name_of title)
              && negb (bool_decide (attr_name_of title ∈ protected_attrs)));
      [|apply Hsec, sections_set_sections].
    destruct (setattr _ _ _) as [plan'|] eqn:Ea; [|apply Hsec, sections_set_sections].
    apply Hsec. rewrite (setattr_sections _ _ _ _ Ea). apply sections_set_sections.
  - rewrite lookup_insert_ne by exact Hne. apply Hst.
Qed.

(** For a synthesized title, the attribute the edit looks up is a narrative
    field of the plan or no field at all. *)
Lemma attr_name_of_synthesized :
  Forall (fun title =>
            hasattr (attr_name_of title) = false
            \/ In (attr_name_of title)
                 [ u "company_profile"; u "market_analysis";
                   u "financial_highlights"; u "product_portfolio";
                   u "technology_stack"; u "competitors"; u "opportunities";
                   u "risks" ])
         synthesized_titles.
Proof.
  unfold synthesized_titles.
  repeat (constructor;
          [ first [ left; vm_compute; reflexivity
                  | right; vm_compute; tauto ] |]).
  constructor.
Qed.

End StoreFacts.

Lemma example_store_lookup :
  example_store !! u "c1"
  = Some (Conversation.mk full_plan [] (JArr [revenue_conflict])).
Proof. vm_compute. reflexivity. Qed.

Lemma full_plan_titles : titles_synthesized full_plan.
Proof.
  apply (synthesizer_titles Demo.float_of_str now_example full_reply_text
           acme_request [] None).
  vm_compute. reflexivity.
Qed.

Lemma update_account_plan_section_witness :
  update_account_plan_section (u "zz") (u "Risks") (u "New risks.") example_store
  = (false, example_store)
  /\ (exists plan',
        update_account_plan_section (u "c1") (u "Risks") (u "New risks.") example_store
        = (true,
           <[u "c1" := Conversation.mk plan' ([] ++ [edit_turn (u "Risks")])
                         (JArr [revenue_conflict])]> example_store)
        /\ AccountPlan.sections plan'
           = <[8%nat := CompanySection.mk (u "Risks") (u "New risks.")]>
               (AccountPlan.sections full_plan))
  /\ update_account_plan_section (u "c1") (u "No such section") (u "x") example_store
     = (false, example_store).
Proof.
  split; [|split].
  - apply (proj1 (update_account_plan_section_spec
                    (u "zz") (u "Risks") (u "New risks.") example_store)).
    vm_compute. reflexivity.
  - apply (proj1 (proj2 (update_account_plan_section_spec
                           (u "c1") (u "Risks") (u "New risks.") example_store)
                    _ example_store_lookup full_plan_titles)
             8%nat (CompanySection.mk (u "Risks") (u "Coyotes."))).
    split; [vm_compute; reflexivity|]. split; [reflexivity|].
    intros j s' Hj Hs'.
    do 8 (destruct j as [|j];
          [vm_compute in Hs'; injection Hs' as <-; vm_compute; discriminate|]).
    lia.
  - apply (proj2 (proj2 (update_account_plan_section_spec
                           (u "c1") (u "No such section") (u "x") example_store)
                    _ example_store_lookup full_plan_titles)).
    intros s Hs. vm_compute in Hs.
    repeat destruct Hs as [Hs|Hs]; try contradiction;
      subst s; vm_compute; discriminate.
Defined.

(** ** Chat router *)

Section ChatFacts.

Variable py_repr : json -> list N.
Variable json_dumps : option nat -> json -> list N.

Local Abbreviation chat := (chat_with_agent py_repr json_dumps).

Implicit Types (st : gmap (list N) Conversation.t) (msg : list N).

(** A keyword of the raw message reaches the tests of the router. *)
Ltac keyword H :=
  apply contains_user_message_lower in H; [| reflexivity | reflexivity | reflexivity].

Lemma wants_deep_dive_raw msg :
  contains (u "deep-dive") msg = true \/ contains (u "dig deeper") msg = true ->
  wants_deep_dive (lower (strip msg)) = true.
Proof.
  unfold wants_deep_dive. intros [H|H]; keyword H; rewrite H;
    [reflexivity | apply orb_true_r].
Qed.

Lemma wants_competitor_chart_raw msg :
  contains (u "competitor") msg = true ->
  contains (u "pie") msg = true \/ contains (u "chart") msg = true ->
  wants_competitor_chart (lower (strip msg)) = true.
Proof.
  unfold wants_competitor_chart. intros Hc [H|H]; keyword Hc; keyword H;
    rewrite Hc, H; [reflexivity | apply orb_true_r].
Qed.

Lemma wants_swot_chart_raw msg :
  contains (u "swot") msg = true ->
  contains (u "graph") msg = true \/ contains (u "radar") msg = true
  \/ contains (u "chart") msg = true ->
  wants_swot_chart (lower (strip msg)) = true.
Proof.
  unfold wants_swot_chart. intros Hs [H|[H|H]]; keyword Hs; keyword H;
    rewrite Hs, H; rewrite ?orb_true_r; reflexivity.
Qed.

(** C4. When the stored plan has [sources = None], a message containing
    "competitor" with "pie" or "chart", or "swot" with "graph", "radar" or
    "chart", makes [chat_with_agent] raise [AttributeError]; no response is
    returned and the store is as it was. *)
Theorem chart_request_without_sources st cid conv msg :
  st !! cid = Some conv ->
  AccountPlan.sources (Conversation.plan conv) = None ->
  (contains (u "competitor") msg = true
   /\ (contains (u "pie") msg = true \/ contains (u "chart") msg = true))
  \/ (contains (u "swot") msg = true
      /\ (contains (u "graph") msg = true \/ contains (u "radar") msg = true
          \/ contains (u "chart") msg = true)) ->
  chat (ChatMessageRequest.mk cid msg) st = Done (Raise AttributeError, st).
Proof.
  intros Hst Hsrc Hmsg. unfold chat_with_agent.
  cbn [ChatMessageRequest.conversation_id ChatMessageRequest.message].
  rewrite Hst. unfold chart_request. rewrite Hsrc.
  destruct (wants_competitor_chart (lower (strip msg))) eqn:Ec; [reflexivity|].
  destruct Hmsg as [[Hc Hp] | [Hs Hg]].
  - rewrite (wants_competitor_chart_raw msg Hc Hp) in Ec. discriminate.
  - rewrite (wants_swot_chart_raw msg Hs Hg). reflexivity.
Qed.


(** One conflict-resolution turn. *)
Lemma deep_dive_turn w st cid conv msg conflict remaining :
  st !! cid = Some conv ->
  Conversation.conflicts_to_resolve conv = JArr (conflict :: remaining) ->
  is_dict conflict = true ->
  deep_dive_message msg ->
  answers_with_mapping w ->
  exists reply,
    run w (chat (ChatMessageRequest.mk cid msg) st)
    = ((Ok (ChatMessageResponse.mk reply),
        <[cid := Conversation.mk (Conversation.plan conv)
                   (Conversation.history conv ++ [Turn.mk (strip msg) reply])
                   (JArr remaining)]> st),
       resolution_log py_repr
         (AccountPlan.company_name (Conversation.plan conv)) w conflict).
Proof.
  intros Hst Hq Hdict (Hdd & Hc & Hs & Hk) Hw.
  apply wants_deep_dive_raw in Hdd.
  destruct conflict as [| | | | | |d]; try discriminate Hdict.
  unfold chat_with_agent.
  cbn [ChatMessageRequest.conversation_id ChatMessageRequest.message].
  rewrite Hst. unfold chart_request. rewrite Hc, Hs, Hk, Hq, Hdd.
  cbn [truthy andb run]. unfold resolution_log, topic_of, deep_dive_query.
  specialize (Hw BASE_SYSTEM_PROMPT
                (resolution_prompt py_repr
                   (AccountPlan.company_name (Conversation.plan conv))
                   (dict_get_or (u "topic") (JStr (u "data discrepancy")) d)
                   (World.web_search w
                      (AccountPlan.company_name (Conversation.plan conv) ++ u " "
                         ++ format_value py_repr
                              (dict_get_or (u "topic") (JStr (u "data discrepancy")) d)
                         ++ u " official report") 3))).
  destruct (_parse_llm_json _) as [| | | | | |rd]; try discriminate Hw.
  cbn [run]. eexists. unfold append_turn.
  cbn [Conversation.plan Conversation.history Conversation.conflicts_to_resolve].
  reflexivity.
Qed.


(** C8, as the code has it.  Let the conflict queue of a conversation hold
    [M] conflicts (dicts).  After [N <= M] chat messages, each containing
    "deep-dive" or "dig deeper", each triggering none of the chart and KPI
    rules the router tests first, and each answered by the model with a
    reply that parses to a mapping, the queue holds the last [M - N]
    conflicts.  Each turn pops the oldest conflict, makes exactly two calls
    (one web search for "{company} {topic} official report" with 3 results,
    then one model call), returns a response, and the transcript has grown
    by one turn per message. *)
Theorem deep_dive_turns cid turns st conv queue :
  st !! cid = Some conv ->
  Conversation.conflicts_to_resolve conv = JArr queue ->
  Forall (fun c => is_dict c = true) queue ->
  (length turns <= length queue)%nat ->
  Forall (fun t => deep_dive_message (snd t) /\ answers_with_mapping (fst t)) turns ->
  exists st' conv' outs,
    chat_turns py_repr json_dumps cid turns st = (st', outs)
    /\ st' !! cid = Some conv'
    /\ Conversation.plan conv' = Conversation.plan conv
    /\ Conversation.conflicts_to_resolve conv' = JArr (skipn (length turns) queue)
    /\ length (skipn (length turns) queue) = (length queue - length turns)%nat
    /\ length (Conversation.history conv')
       = (length (Conversation.history conv) + length turns)%nat
    /\ Forall2
         (fun out ct =>
            (exists resp, fst out = Ok resp)
            /\ snd out
               = [ WebSearchCall
                     (AccountPlan.company_name (Conversation.plan conv) ++ u " "
                        ++ format_value py_repr (topic_of (fst ct))
                        ++ u " official report") 3;
                   LlmCall BASE_SYSTEM_PROMPT
                     (resolution_prompt py_repr
                        (AccountPlan.company_name (Conversation.plan conv))
                        (topic_of (fst ct))
                        (World.web_search (fst (snd ct))
                           (AccountPlan.company_name (Conversation.plan conv) ++ u " "
                              ++ format_value py_repr (topic_of (fst ct))
                              ++ u " official report") 3)) ])
         outs (combine queue turns).
Proof.
  revert st conv queue.
  induction turns as [|[w msg] turns IH]; intros st conv queue Hst Hq Hdicts Hlen Hturns.
  - exists st, conv, []. simpl length. rewrite Nat.sub_0_r, Nat.add_0_r.
    repeat split; try assumption.
    destruct queue; constructor.
  - destruct queue as [|conflict queue]; [simpl in Hlen; lia|].
    apply Forall_cons_1 in Hdicts as [Hdict Hdicts].
    apply Forall_cons_1 in Hturns as [[Hmsg Hw] Hturns].
    simpl in Hmsg, Hw.
    destruct (deep_dive_turn w st cid conv msg conflict queue Hst Hq Hdict Hmsg Hw)
      as [reply Hrun].
    set (conv1 := Conversation.mk (Conversation.plan conv)
                    (Conversation.history conv ++ [Turn.mk (strip msg) reply])
                    (JArr queue)) in *.
    destruct (IH (<[cid := conv1]> st) conv1 queue) as
      (st' & conv' & outs & Hrest & Hst' & Hplan & Hq' & Hlen' & Hhist & Houts).
    + apply lookup_insert_eq.
    + reflexivity.
    + exact Hdicts.
    + simpl in Hlen. lia.
    + exact Hturns.
    + exists st', conv', ((Ok (ChatMessageResponse.mk reply),
                            resolution_log py_repr
                              (AccountPlan.company_name (Conversation.plan conv))
                              w conflict) :: outs).
      split. { cbn [chat_turns]. rewrite Hrun, Hrest. reflexivity. }
      split; [exact Hst'|]. split; [exact Hplan|]. split; [exact Hq'|].
      split; [simpl; exact Hlen'|].
      split.
      { rewrite Hhist. unfold conv1. cbn [Conversation.history].
        rewrite length_app. simpl. lia. }
      simpl combine. constructor; [|exact Houts].
      split; [eexists; reflexivity | reflexivity].
Qed.

End ChatFacts.

Lemma fallback_store_lookup :
  fallback_store !! u "c2" = Some (Conversation.mk fallback_example_plan [] (JArr [])).
Proof. vm_compute. reflexivity. Qed.

Lemma chart_request_without_sources_witness :
  Demo.chat (ChatMessageRequest.mk (u "c2") (u "show competitor pie chart"))
    fallback_store
  = Done (Raise AttributeError, fallback_store).
Proof.
  apply (chart_request_without_sources Demo.py_repr Demo.json_dumps fallback_store
           (u "c2") _ (u "show competitor pie chart") fallback_store_lookup).
  - vm_compute. reflexivity.
  - left. split; [vm_compute; reflexivity | left; vm_compute; reflexivity].
Defined.



Lemma example_world_answers : answers_with_mapping example_world.
Proof. intros sp up. vm_compute. reflexivity. Qed.

Lemma deep_dive_turns_witness :
  exists st' conv' outs,
    chat_turns Demo.py_repr Demo.json_dumps (u "c1")
      [(example_world, u "please deep-dive on revenue")] example_store
    = (st', outs)
    /\ st' !! u "c1" = Some conv'
    /\ Conversation.plan conv' = full_plan
    /\ Conversation.conflicts_to_resolve conv' = JArr []
    /\ length (@nil json) = (1 - 1)%nat
    /\ length (Conversation.history conv') = (0 + 1)%nat
    /\ Forall2
         (fun out ct =>
            (exists resp, fst out = Ok resp)
            /\ snd out
               = [ WebSearchCall
                     (AccountPlan.company_name full_plan ++ u " "
                        ++ format_value Demo.py_repr (topic_of (fst ct))
                        ++ u " official report") 3;
                   LlmCall BASE_SYSTEM_PROMPT
                     (resolution_prompt Demo.py_repr
                        (AccountPlan.company_name full_plan)
                        (topic_of (fst ct))
                        (World.web_search (fst (snd ct))
                           (AccountPlan.company_name full_plan ++ u " "
                              ++ format_value Demo.py_repr (topic_of (fst ct))
                              ++ u " official report") 3)) ])
         outs
         [(revenue_conflict, (example_world, u "please deep-dive on revenue"))].
Proof.
  apply (deep_dive_turns Demo.py_repr Demo.json_dumps (u "c1")
           [(example_world, u "please deep-dive on revenue")] example_store
           _ [revenue_conflict] example_store_lookup eq_refl).
  - repeat constructor.
  - simpl. lia.
  - constructor; [|constructor]. split.
    + split; [left; vm_compute; reflexivity|].
      split; [vm_compute; reflexivity|].
      split; vm_compute; reflexivity.
    + exact example_world_answers.
Defined.

(** C8, refuted as stated.  The queue of [example_store] holds one conflict
    and the message contains "deep-dive"; it also matches the KPI rule,
    which is tested first.  After the message the queue still holds one
    conflict, and no web search or model call was made. *)
Lemma deep_dive_turns_counterexample :
  contains (u "deep-dive") kpi_deep_dive_message = true
  /\ example_store !! u "c1"
     = Some (Conversation.mk full_plan [] (JArr [revenue_conflict]))
  /\ exists st' conv' out,
       chat_turns Demo.py_repr Demo.json_dumps (u "c1")
         [(example_world, kpi_deep_dive_message)] example_store
       = (st', [(out, [])])
       /\ st' !! u "c1" = Some conv'
       /\ Conversation.conflicts_to_resolve conv' = JArr [revenue_conflict]
       /\ length [revenue_conflict] <> Nat.max (1 - 1) 0.
Proof.
  split; [vm_compute; reflexivity|]. split; [vm_compute; reflexivity|].
  eexists _, _, _. split; [vm_compute; reflexivity|].
  split; [vm_compute; reflexivity|]. split; [reflexivity|].
  simpl. lia.
Qed.

(** ** Streaming orchestrator *)

Section StreamFacts.

Variable research_prompt :
  StartResearchRequest.t -> list (list N) -> option (list N) -> list N.

Lemma run_stream_tokens {A : Type} w chunks (next : io A) :
  run w (stream_tokens chunks next)
  = (fst (run w next),
     List.map (fun chunk => Yielded (_sse (u "token") chunk))
       (List.filter (fun chunk => nonempty (strip chunk)) chunks)
     ++ snd (run w next)).
Proof.
  induction chunks as [|chunk chunks IH]; simpl.
  - destruct (run w next). reflexivity.
  - destruct (nonempty (strip chunk)); simpl; rewrite IH; reflexivity.
Qed.

Lemma frames_of_app l1 l2 : frames_of (l1 ++ l2) = frames_of l1 ++ frames_of l2.
Proof.
  induction l1 as [|e l1 IH]; simpl; [reflexivity|].
  destruct e; simpl; rewrite IH; reflexivity.
Qed.

Lemma frames_of_yielded l : frames_of (List.map Yielded l) = l.
Proof. induction l as [|x l IH]; simpl; [reflexivity | rewrite IH; reflexivity]. Qed.

Lemma run_faulty_stream_tokens {A : Type} f w chunks (next : io A) :
  run_faulty f w (stream_tokens chunks next)
  = (fst (run_faulty f w next),
     List.map (fun chunk => Yielded (_sse (u "token") chunk))
       (List.filter (fun chunk => nonempty (strip chunk)) chunks)
     ++ snd (run_faulty f w next)).
Proof.
  induction chunks as [|chunk chunks IH]; simpl.
  - destruct (run_faulty f w next). reflexivity.
  - destruct (nonempty (strip chunk)); simpl; rewrite IH; reflexivity.
Qed.

(** C10, as the code has it.  A run of [stream_research] in which the
    vector search returns and the model stream is read to its end makes the
    two retrieval calls, yields six status frames (intent, RAG search, RAG
    result count, web search, web search outcome, synthesis), calls the
    model stream, yields one token frame per chunk that is not made of
    whitespace only (in arrival order, each newline of the chunk replaced
    by a space), and ends with two status frames and the frame [done].
    When the vector search raises, the generator raises before its first
    frame.  When the reading of the model stream raises, the generator
    raises at the loop: it has yielded the six status frames and the token
    frames of the chunks delivered before, and no closing frame. *)
Theorem stream_research_frames f w req :
  let name := StartResearchRequest.company_name req in
  let rag_query := name ++ u " company overview products strategy customers competitors" in
  let web_query :=
    name ++ u " latest news, financials, market position, competitors, risks" in
  let rag_ctx := World.search_context w rag_query 5 in
  let web_text := World.web_search w web_query 5 in
  let prompt := research_prompt req rag_ctx web_text in
  let chunks := World.stream_llm w BASE_SYSTEM_PROMPT prompt in
  let frame event data :=
    u "event: " ++ event ++ [10] ++ u "data: " ++ replace_char 10 32 data ++ [10; 10] in
  let opening :=
    [ frame (u "status") (u "Understanding intent and preparing research pipeline.");
      frame (u "status") (u "Searching internal RAG documents.");
      frame (u "status")
        (u "RAG search complete. " ++ str_of_nat (length rag_ctx)
           ++ u " internal chunks found.");
      frame (u "status") (u "Running external web search.");
      frame (u "status")
        (if has_text web_text
         then u "Web search complete."
         else u "Web search unavailable. Continuing with RAG and LLM synthesis.");
      frame (u "status")
        (u "Synthesizing account plan with LLM and checking for conflicts.") ] in
  let tokens_of delivered :=
    List.map (frame (u "token"))
      (List.filter (fun chunk => nonempty (strip chunk)) delivered) in
  let closing :=
    [ frame (u "status") (u "Research synthesis complete. Checking for data conflicts.");
      frame (u "status") (u "Plan ready. Conversation starting.");
      frame (u "done") (u "true") ] in
  let calls_and_frames delivered :=
    [SearchContextCall rag_query 5; WebSearchCall web_query 5]
    ++ List.map Yielded opening
    ++ [LlmStreamCall BASE_SYSTEM_PROMPT prompt]
    ++ List.map Yielded (tokens_of delivered) in
  run_faulty f w (stream_research research_prompt req)
  = (if Faults.vectorstore_raises f then (None, [SearchContextCall rag_query 5])
     else
       match Faults.stream_raises_after f with
       | None => (Some Returned, calls_and_frames chunks ++ List.map Yielded closing)
       | Some k => (Some Raised, calls_and_frames (firstn k chunks))
       end)
  /\ frames_of (snd (run_faulty f w (stream_research research_prompt req)))
     = (if Faults.vectorstore_raises f then []
        else
          match Faults.stream_raises_after f with
          | None => opening ++ tokens_of chunks ++ closing
          | Some k => opening ++ tokens_of (firstn k chunks)
          end)
  /\ run w (stream_research research_prompt req)
     = (Returned, calls_and_frames chunks ++ List.map Yielded closing)
  /\ frames_of (snd (run w (stream_research research_prompt req)))
     = opening ++ tokens_of chunks ++ closing.
Proof.
  intros name rag_query web_query rag_ctx web_text prompt chunks frame
    opening tokens_of closing calls_and_frames.
  assert (Hfaulty :
            run_faulty f w (stream_research research_prompt req)
            = (if Faults.vectorstore_raises f then (None, [SearchContextCall rag_query 5])
               else
                 match Faults.stream_raises_after f with
                 | None =>
                     (Some Returned, calls_and_frames chunks ++ List.map Yielded closing)
                 | Some k => (Some Raised, calls_and_frames (firstn k chunks))
                 end)).
  { unfold stream_research, build_research_prompt.
    cbn [mbind io_mbind io_bind run_faulty].
    fold name. fold rag_query. fold web_query.
    destruct (Faults.vectorstore_raises f); [reflexivity|].
    fold rag_ctx. fold web_text. fold prompt. fold chunks.
    destruct (Faults.stream_raises_after f) as [k|];
      rewrite run_faulty_stream_tokens; cbn [run_faulty fst snd];
      unfold calls_and_frames, tokens_of; rewrite List.map_map;
      repeat (rewrite <- ?app_assoc; cbn [app List.map]); rewrite ?app_nil_r;
      reflexivity. }
  assert (Hrun : run w (stream_research research_prompt req)
                 = (Returned, calls_and_frames chunks ++ List.map Yielded closing)).
  { unfold stream_research, build_research_prompt.
    cbn [mbind io_mbind io_bind run].
    fold name. fold rag_query. fold web_query. fold rag_ctx. fold web_text.
    fold prompt. fold chunks.
    rewrite run_stream_tokens. cbn [run fst snd].
    unfold calls_and_frames, tokens_of. rewrite List.map_map.
    repeat (rewrite <- ?app_assoc; cbn [app List.map]). reflexivity. }
  assert (Hframes : forall delivered,
            frames_of (calls_and_frames delivered) = opening ++ tokens_of delivered).
  { intros delivered. unfold calls_and_frames.
    rewrite !frames_of_app. cbn [app frames_of].
    rewrite !frames_of_yielded. reflexivity. }
  split; [exact Hfaulty|]. split; [|split; [exact Hrun|]].
  - rewrite Hfaulty. destruct (Faults.vectorstore_raises f); [reflexivity|].
    destruct (Faults.stream_raises_after f) as [k|]; cbn [snd].
    + apply Hframes.
    + rewrite frames_of_app, Hframes, frames_of_yielded, <- app_assoc. reflexivity.
  - rewrite Hrun. cbn [snd].
    rewrite frames_of_app, Hframes, frames_of_yielded, <- app_assoc. reflexivity.
Qed.

End StreamFacts.

(** C10, refuted as stated.  The model stream of [blank_world] delivers one
    non-empty chunk, a space; the run yields no token frame for it. *)
Lemma stream_research_counterexample :
  World.stream_llm blank_world BASE_SYSTEM_PROMPT
    (Demo.research_prompt acme_request [] None) = [u " "]
  /\ length (List.filter (fun chunk : list N => nonempty chunk) [u " "]) = 1%nat
  /\ token_frames (frames_of (snd (run blank_world (Demo.stream acme_request)))) = []
  /\ length (frames_of (snd (run blank_world (Demo.stream acme_request)))) = 9%nat.
Proof. vm_compute. repeat split. Qed.

(** ** More on the structured-output parser *)

(** X28. What [_parse_llm_json] returns, in full.  When the whole cleaned
    text is a JSON document, the result is the value it decodes to,
    whatever its type; when it is not, the result is a dict.  So the result
    is not a mapping exactly when the cleaned reply is a JSON document that
    is not an object. *)
Theorem parse_llm_json_characterised raw :
  (forall v, json_loads (_strip_code_fences raw) = Some v -> _parse_llm_json raw = v)
  /\ (json_loads (_strip_code_fences raw) = None ->
      is_dict (_parse_llm_json raw) = true)
  /\ (is_dict (_parse_llm_json raw) = false
      <-> exists v, json_loads (_strip_code_fences raw) = Some v /\ is_dict v = false).
Proof.
  assert (Hsome : forall v, json_loads (_strip_code_fences raw) = Some v ->
                            _parse_llm_json raw = v).
  { intros v H. unfold _parse_llm_json. rewrite H. reflexivity. }
  split; [exact Hsome|]. split.
  - intros Hnone. destruct (parse_llm_json_cases raw) as [H | [H _]]; [exact H|].
    rewrite Hnone in H. discriminate H.
  - split.
    + intros Hd. destruct (parse_llm_json_cases raw) as [H | [H _]].
      * rewrite Hd in H. discriminate H.
      * exists (_parse_llm_json raw). split; [exact H | exact Hd].
    + intros (v & Hv & Hd). rewrite (Hsome v Hv). exact Hd.
Qed.


Section CleanerFacts.

Implicit Types (s t p q : list N) (c x y : N).

Lemma dropwhile_idem (f : N -> bool) s : dropwhile f (dropwhile f s) = dropwhile f s.
Proof.
  destruct (dropwhile f s) as [|c t] eqn:E; [reflexivity|].
  apply dropwhile_head in E. apply dropwhile_stop. exact E.
Qed.

Lemma rev_dropwhile_prefix (f : N -> bool) s :
  exists q, s = rev (dropwhile f (rev s)) ++ q /\ Forall (fun c => f c = true) q.
Proof.
  destruct (dropwhile_split f (rev s)) as (p & E & Hp).
  exists (rev p). split.
  - rewrite <- rev_app_distr, <- E, rev_involutive. reflexivity.
  - apply Forall_rev. exact Hp.
Qed.

Lemma rstrip_drop_trailing s q :
  Forall (fun c => isspace c = true) q -> rstrip (s ++ q) = rstrip s.
Proof.
  intros Hq. unfold rstrip. rewrite rev_app_distr.
  rewrite dropwhile_all; [reflexivity|]. apply Forall_rev. exact Hq.
Qed.

Lemma lstrip_rstrip s : lstrip (rstrip (lstrip s)) = rstrip (lstrip s).
Proof.
  unfold lstrip at 2 3. destruct (dropwhile isspace s) as [|c t] eqn:E; [reflexivity|].
  apply dropwhile_head in E.
  pose proof (rstrip_app_nonspace [] c t E) as H.
  change ([] ++ c :: t) with (c :: t) in H. change ([] ++ c :: rstrip t) with (c :: rstrip t) in H.
  rewrite H. unfold lstrip. apply dropwhile_stop. exact E.
Qed.

Lemma strip_idem s : strip (strip s) = strip s.
Proof.
  unfold strip. rewrite lstrip_rstrip. unfold rstrip.
  rewrite rev_involutive, dropwhile_idem. reflexivity.
Qed.

Lemma strip_pad p s q :
  Forall (fun c => isspace c = true) p -> Forall (fun c => isspace c = true) q ->
  strip (p ++ s ++ q) = strip s.
Proof.
  intros Hp Hq. unfold strip, lstrip. rewrite dropwhile_all by exact Hp.
  destruct (dropwhile_split isspace s) as (p' & E & Hp').
  destruct (dropwhile isspace s) as [|c t] eqn:Ed.
  - rewrite app_nil_r in E. subst p'.
    rewrite dropwhile_all by exact Hp'.
    rewrite <- (app_nil_r q), dropwhile_all by exact Hq. reflexivity.
  - apply dropwhile_head in Ed.
    rewrite E at 1. rewrite <- app_assoc, dropwhile_all by exact Hp'.
    simpl app. rewrite dropwhile_stop by exact Ed.
    apply (rstrip_drop_trailing (c :: t) q Hq).
Qed.

Lemma strip_part s : exists a b, s = a ++ strip s ++ b.
Proof. destruct (strip_split s) as (a & b & E & _). exists a, b. exact E. Qed.

Lemma split1_rest sep s a b : split1 sep s = (a, Some b) -> s = a ++ sep :: b.
Proof.
  revert a. induction s as [|c s IH]; intros a; simpl; [discriminate|].
  destruct (c =? sep) eqn:E.
  - apply N.eqb_eq in E. intros [= <- <-]. subst c. reflexivity.
  - destruct (split1 sep s) as [a' b'] eqn:Es. intros [= <- ->].
    rewrite (IH a' eq_refl). reflexivity.
Qed.

Lemma strip_code_fences_piece text : exists a b, text = a ++ _strip_code_fences text ++ b.
Proof.
  assert (Hpiece : forall s, (exists a b, strip text = a ++ s ++ b) ->
            exists a b, text = a ++ strip (rstrip_char 96 s) ++ b).
  { intros s (a & b & E).
    destruct (strip_part text) as (a0 & b0 & E0).
    destruct (rev_dropwhile_prefix (N.eqb 96) s) as (k & Ek & _).
    fold (rstrip_char 96 s) in Ek.
    destruct (strip_part (rstrip_char 96 s)) as (a1 & b1 & E1).
    exists (a0 ++ a ++ a1), (b1 ++ k ++ b ++ b0).
    rewrite E0 at 1. rewrite E. rewrite Ek at 1. rewrite E1 at 1.
    rewrite <- !app_assoc. reflexivity. }
  unfold _strip_code_fences.
  destruct (startswith backticks3 (strip text)).
  - destruct (split1 10 (strip text)) as [first [rest|]] eqn:Es.
    + destruct (startswith backticks3 (strip first)).
      * apply Hpiece. apply split1_rest in Es.
        exists (first ++ [10]), []. rewrite app_nil_r, <- app_assoc. exact Es.
      * apply Hpiece. exists [], []. rewrite app_nil_r. reflexivity.
    + apply Hpiece. exists [], []. rewrite app_nil_r. reflexivity.
  - rewrite strip_idem. apply strip_part.
Qed.

(** X1. The cleaner only removes text at the two ends of the reply: its
    result is one contiguous piece of the input, and it has no white space
    left at either end. *)
Theorem strip_code_fences_part text :
  (exists a b, text = a ++ _strip_code_fences text ++ b)
  /\ strip (_strip_code_fences text) = _strip_code_fences text.
Proof.
  split; [apply strip_code_fences_piece|].
  unfold _strip_code_fences.
  destruct (startswith backticks3 (strip text)); apply strip_idem.
Qed.

Lemma strip_code_fences_padding p raw q :
  Forall (fun c => isspace c = true) p -> Forall (fun c => isspace c = true) q ->
  _strip_code_fences (p ++ raw ++ q) = _strip_code_fences raw.
Proof.
  intros Hp Hq. unfold _strip_code_fences. rewrite (strip_pad p raw q Hp Hq).
  reflexivity.
Qed.

(** X2. White space around the model's reply never changes what the parser
    returns. *)
Theorem parse_llm_json_padding p raw q :
  Forall (fun c => isspace c = true) p -> Forall (fun c => isspace c = true) q ->
  _parse_llm_json (p ++ raw ++ q) = _parse_llm_json raw.
Proof.
  intros Hp Hq. unfold _parse_llm_json.
  rewrite (strip_code_fences_padding p raw q Hp Hq). reflexivity.
Qed.

Lemma find_from_first ch i pre post :
  ~ In ch pre -> find_from ch i (pre ++ ch :: post) = (i + Z.of_nat (length pre))%Z.
Proof.
  revert i. induction pre as [|c pre IH]; intros i Hn; simpl.
  - rewrite N.eqb_refl. lia.
  - destruct (c =? ch) eqn:E.
    + apply N.eqb_eq in E. exfalso. apply Hn. left. exact E.
    + rewrite IH; [lia|]. intros Hin. apply Hn. right. exact Hin.
Qed.

Lemma rfind_from_absent ch i best s : ~ In ch s -> rfind_from ch i best s = best.
Proof.
  revert i best. induction s as [|c s IH]; intros i best Hn; simpl; [reflexivity|].
  destruct (c =? ch) eqn:E.
  - apply N.eqb_eq in E. exfalso. apply Hn. left. exact E.
  - apply IH. intros Hin. apply Hn. right. exact Hin.
Qed.

Lemma rfind_from_last ch i best pre post :
  ~ In ch post ->
  rfind_from ch i best (pre ++ ch :: post) = (i + Z.of_nat (length pre))%Z.
Proof.
  revert i best. induction pre as [|c pre IH]; intros i best Hn; simpl.
  - rewrite N.eqb_refl. rewrite rfind_from_absent by exact Hn. lia.
  - rewrite IH by exact Hn. lia.
Qed.

Lemma slice_middle pre mid post :
  slice (Z.of_nat (length pre)) (Z.of_nat (length pre) + Z.of_nat (length mid))
        (pre ++ mid ++ post) = mid.
Proof.
  unfold slice. rewrite Nat2Z.id.
  replace (Z.to_nat _) with (length mid) by lia.
  rewrite skipn_app, skipn_all, Nat.sub_diag. simpl.
  change (drop 0 (mid ++ post)) with (mid ++ post).
  rewrite firstn_app, firstn_all, Nat.sub_diag. simpl. apply app_nil_r.
Qed.

Lemma not_in_dropwhile (f : N -> bool) c s : ~ In c s -> ~ In c (dropwhile f s).
Proof.
  intros Hn Hin. apply Hn.
  destruct (dropwhile_split f s) as (p & E & _). rewrite E.
  apply in_or_app. right. exact Hin.
Qed.

Lemma not_in_rstrip c s : ~ In c s -> ~ In c (rstrip s).
Proof.
  intros Hn Hin. apply Hn. unfold rstrip in Hin.
  apply in_rev in Hin. apply (not_in_dropwhile isspace c (rev s)) in Hin; [contradiction|].
  intros H. apply Hn. apply in_rev. exact H.
Qed.

(** X3. An object in the middle of prose is recovered: when the reply is
    not JSON as a whole and does not open with a code fence, but holds one
    text in braces that decodes, with no opening brace before it and no
    closing brace after it, the parser returns what that text decodes to,
    a dict. *)
Theorem parse_llm_json_embedded_object pre body post v :
  ~ In 123 pre -> ~ In 125 post ->
  startswith backticks3 (strip (pre ++ 123 :: body ++ 125 :: post)) = false ->
  json_loads (strip (pre ++ 123 :: body ++ 125 :: post)) = None ->
  json_loads (123 :: body ++ [125]) = Some v ->
  _parse_llm_json (pre ++ 123 :: body ++ 125 :: post) = v /\ is_dict v = true.
Proof.
  intros Hpre Hpost Hfence Hwhole Hobj.
  split; [|exact (json_loads_brace _ _ Hobj)].
  unfold _parse_llm_json, _strip_code_fences. rewrite Hfence, strip_idem, Hwhole.
  assert (Es : strip (pre ++ 123 :: body ++ 125 :: post)
               = lstrip pre ++ (123 :: body ++ [125]) ++ rstrip post).
  { unfold strip, lstrip. rewrite (dropwhile_app_stop isspace pre 123) by reflexivity.
    replace (dropwhile isspace pre ++ 123 :: body ++ 125 :: post)
      with ((dropwhile isspace pre ++ 123 :: body) ++ 125 :: post)
      by (rewrite <- app_assoc; reflexivity).
    rewrite (rstrip_app_nonspace _ 125 post) by reflexivity.
    repeat (rewrite <- ?app_assoc; simpl). reflexivity. }
  rewrite Es.
  assert (Hl : ~ In 123 (lstrip pre)) by (apply not_in_dropwhile; exact Hpre).
  assert (Hr : ~ In 125 (rstrip post)) by (apply not_in_rstrip; exact Hpost).
  assert (Ef : find 123 (lstrip pre ++ (123 :: body ++ [125]) ++ rstrip post)
               = Z.of_nat (length (lstrip pre))).
  { unfold find. simpl app. rewrite find_from_first by exact Hl. lia. }
  assert (Er : rfind 125 (lstrip pre ++ (123 :: body ++ [125]) ++ rstrip post)
               = (Z.of_nat (length (lstrip pre)) + Z.of_nat (length body) + 1)%Z).
  { unfold rfind.
    replace (lstrip pre ++ (123 :: body ++ [125]) ++ rstrip post)
      with ((lstrip pre ++ 123 :: body) ++ 125 :: rstrip post)
      by (simpl; rewrite <- !app_assoc; reflexivity).
    rewrite rfind_from_last by exact Hr. rewrite length_app. simpl length. lia. }
  rewrite Ef, Er.
  replace (negb (Z.of_nat (length (lstrip pre)) =? -1)%Z) with true
    by (symmetry; apply negb_true_iff, Z.eqb_neq; lia).
  replace (negb (Z.of_nat (length (lstrip pre)) + Z.of_nat (length body) + 1 =? -1)%Z)
    with true by (symmetry; apply negb_true_iff, Z.eqb_neq; lia).
  replace (Z.of_nat (length (lstrip pre))
           <? Z.of_nat (length (lstrip pre)) + Z.of_nat (length body) + 1)%Z
    with true by (symmetry; apply Z.ltb_lt; lia).
  cbn [andb].
  pose (obj := 123 :: body ++ [125]).
  replace (Z.of_nat (length (lstrip pre)) + Z.of_nat (length body) + 1 + 1)%Z
    with (Z.of_nat (length (lstrip pre)) + Z.of_nat (length obj))%Z
    by (unfold obj; simpl length; rewrite length_app; simpl length; lia).
  unfold obj. rewrite slice_middle, Hobj. reflexivity.
Qed.

End CleanerFacts.

Lemma parse_llm_json_padding_witness :
  _parse_llm_json ([10; 32] ++ small_object_text ++ [32; 10])
  = _parse_llm_json small_object_text.
Proof.
  apply (parse_llm_json_padding [10; 32] small_object_text [32; 10]);
    repeat constructor.
Defined.

Lemma parse_llm_json_embedded_object_witness :
  _parse_llm_json (u "Here is the plan: " ++ 123 :: ([34] ++ u "a" ++ [34] ++ u ": 1")
                     ++ 125 :: u " Thanks.")
  = JObj [(u "a", JInt 1)]
  /\ is_dict (JObj [(u "a", JInt 1)]) = true.
Proof.
  apply (parse_llm_json_embedded_object (u "Here is the plan: ")
           ([34] ++ u "a" ++ [34] ++ u ": 1") (u " Thanks.")).
  - vm_compute. intuition discriminate.
  - vm_compute. intuition discriminate.
  - vm_compute. reflexivity.
  - vm_compute. reflexivity.
  - vm_compute. reflexivity.
Defined.

(** ** More on the plan synthesizer *)

Section SynthesizerInvariants.

Variable float_of_str : list N -> option pyfloat.

Local Abbreviation build := (_build_account_plan_from_llm float_of_str).

Ltac split_binds :=
  repeat match goal with
         | |- context [@mbind result _ _ _ _ ?r] =>
             destruct r; cbn [mbind result_bind]; try discriminate
         end.

Lemma sources_used_rag (a b : bool) (rest : list (list N)) :
  ~ In (u "rag") rest ->
  In (u "rag") ((if a then [u "rag"] else []) ++ (if b then [u "web"] else []) ++ rest)
  <-> a = true.
Proof.
  intros Hn. destruct a, b; simpl; split; intros H; try reflexivity; try discriminate;
    try (left; reflexivity); exfalso;
    repeat match goal with
           | H : _ \/ _ |- _ => destruct H as [H|H]
           end;
    try (apply Hn; exact H); vm_compute in H; discriminate.
Qed.

Lemma sources_used_web (a b : bool) (rest : list (list N)) :
  ~ In (u "web") rest ->
  In (u "web") ((if a then [u "rag"] else []) ++ (if b then [u "web"] else []) ++ rest)
  <-> b = true.
Proof.
  intros Hn. destruct a, b; simpl; split; intros H; try reflexivity; try discriminate;
    try (left; reflexivity); try (right; left; reflexivity); exfalso;
    repeat match goal with
           | H : _ \/ _ |- _ => destruct H as [H|H]
           end;
    try (apply Hn; exact H); vm_compute in H; discriminate.
Qed.

Lemma sources_used_llm (a b : bool) :
  ~ In (u "llm") ((if a then [u "rag"] else []) ++ (if b then [u "web"] else []) ++ []).
Proof.
  destruct a, b; simpl; intros H;
    repeat match goal with
           | H : _ \/ _ |- _ => destruct H as [H|H]
           end;
    try contradiction; vm_compute in H; discriminate.
Qed.

Lemma not_in_llm (x : list N) : x <> u "llm" -> ~ In x [u "llm"].
Proof. intros Hx [H|[]]. apply Hx. symmetry. exact H. Qed.

(** X4. What every plan the synthesizer returns has, on either path: the
    requested name and depth; metadata with the time of the call and the
    four steps of [_build_steps]; "rag" among the sources used exactly when
    the vector search found something, "web" exactly when the web search
    gave a text, "llm" exactly on the structured path; auxiliary data
    ([sources]) exactly on the structured path; one section on the fallback
    path and ten on the structured one. *)
Theorem synthesized_plan_invariants now raw req rag_ctx web_text plan :
  build now raw req rag_ctx web_text = Ok plan ->
  AccountPlan.company_name plan = StartResearchRequest.company_name req
  /\ AccountPlan.depth plan = depth_value (StartResearchRequest.depth req)
  /\ exists meta,
       AccountPlan.metadata plan = Some meta
       /\ ResearchMetadata.generated_at meta = now
       /\ ResearchMetadata.steps meta = _build_steps rag_ctx web_text
       /\ (In (u "rag") (ResearchMetadata.sources_used meta) <-> nonempty rag_ctx = true)
       /\ (In (u "web") (ResearchMetadata.sources_used meta) <-> has_text web_text = true)
       /\ (In (u "llm") (ResearchMetadata.sources_used meta)
           <-> truthy (_parse_llm_json raw) = true)
       /\ (AccountPlan.sources plan = None <-> truthy (_parse_llm_json raw) = false)
       /\ length (AccountPlan.sections plan)
          = (if truthy (_parse_llm_json raw) then 10 else 1)%nat.
Proof.
  unfold _build_account_plan_from_llm.
  destruct (truthy (_parse_llm_json raw)) eqn:Et; cbn [negb].
  - destruct (_parse_llm_json raw); try discriminate.
    split_binds. intros [= <-].
    cbn [AccountPlan.company_name AccountPlan.depth AccountPlan.metadata
         AccountPlan.sources AccountPlan.sections].
    split; [reflexivity|]. split; [reflexivity|]. eexists. split; [reflexivity|].
    cbn [ResearchMetadata.generated_at ResearchMetadata.steps
         ResearchMetadata.sources_used].
    split; [reflexivity|]. split; [reflexivity|].
    split. { apply sources_used_rag. apply not_in_llm. intros H. vm_compute in H. discriminate. }
    split. { apply sources_used_web. apply not_in_llm. intros H. vm_compute in H. discriminate. }
    split. { split; [reflexivity|]. intros _. apply in_or_app. right.
             apply in_or_app. right. left. reflexivity. }
    split; [split; discriminate | reflexivity].
  - intros [= <-].
    cbn [AccountPlan.company_name AccountPlan.depth AccountPlan.metadata
         AccountPlan.sources AccountPlan.sections].
    split; [reflexivity|]. split; [reflexivity|]. eexists. split; [reflexivity|].
    cbn [ResearchMetadata.generated_at ResearchMetadata.steps
         ResearchMetadata.sources_used].
    split; [reflexivity|]. split; [reflexivity|].
    split. { rewrite <- (app_nil_r (if has_text web_text then _ else _)).
             apply sources_used_rag. intros []. }
    split. { rewrite <- (app_nil_r (if has_text web_text then _ else _)).
             apply sources_used_web. intros []. }
    split. { split; [|discriminate]. intros H. exfalso.
             rewrite <- (app_nil_r (if has_text web_text then _ else _)) in H.
             exact (sources_used_llm _ _ H). }
    split; [split; reflexivity | reflexivity].
Qed.

(** X5. On the structured path every section of the new plan shows the
    narrative field of the plan that belongs to its title. *)
Theorem structured_sections_mirror_fields now raw req rag_ctx web_text plan :
  truthy (_parse_llm_json raw) = true ->
  build now raw req rag_ctx web_text = Ok plan ->
  Forall (fun s => narrative_field (CompanySection.title s) plan
                   = Some (CompanySection.content s))
         (AccountPlan.sections plan).
Proof.
  intros Et. unfold _build_account_plan_from_llm. rewrite Et. cbn [negb].
  destruct (_parse_llm_json raw); try discriminate.
  split_binds. intros [= <-]. cbn [AccountPlan.sections].
  repeat (constructor; [reflexivity|]). constructor.
Qed.

Lemma validate_str_ok v s : validate_str v = Ok s -> v = JStr s.
Proof. destruct v; try discriminate. intros [= <-]. reflexivity. Qed.

(** X6. A reply in which one of the eight narrative keys is present with a
    value that is not a string (an object or a list, say) never gives a
    plan: the synthesizer raises. *)
Theorem non_string_narrative_rejected now raw req rag_ctx web_text data key v :
  _parse_llm_json raw = JObj data ->
  In key narrative_keys ->
  dict_lookup key data = Some v ->
  (forall s, v <> JStr s) ->
  exists e, build now raw req rag_ctx web_text = Raise e.
Proof.
  intros Hp Hkey Hv Hns.
  destruct (build now raw req rag_ctx web_text) as [plan|e] eqn:Eb;
    [exfalso | exists e; reflexivity].
  revert Eb. unfold _build_account_plan_from_llm. rewrite Hp.
  assert (Ht : truthy (JObj data) = true).
  { destruct data; [discriminate Hv | reflexivity]. }
  rewrite Ht. cbn [negb].
  pose proof (dict_lookup_get_or key (JStr []) data v Hv) as Hg.
  repeat match goal with
         | |- context [@mbind result _ _ _ _ ?r] =>
             destruct r eqn:?; cbn [mbind result_bind]; try discriminate
         end.
  intros _.
  repeat match goal with
         | H : validate_str _ = Ok _ |- _ => apply validate_str_ok in H
         end.
  unfold narrative_keys in Hkey. simpl in Hkey.
  repeat match goal with
         | H : _ \/ _ |- _ => destruct H as [H|H]
         end;
    try contradiction; subst key;
    match goal with
    | H : dict_get_or _ _ data = JStr ?s |- _ =>
        rewrite Hg in H; exact (Hns s H)
    end.
Qed.

End SynthesizerInvariants.

Lemma non_string_narrative_rejected_witness :
  exists e,
    Demo.build_plan now_example swot_object_reply acme_request [] None = Raise e.
Proof.
  apply (non_string_narrative_rejected Demo.float_of_str now_example swot_object_reply
           acme_request [] None
           [ (u "overview", JStr (u "Acme makes anvils."));
             (u "swot", JObj [ (u "strengths", JStr (u "Brand")) ]) ]
           (u "swot") (JObj [ (u "strengths", JStr (u "Brand")) ])).
  - vm_compute. reflexivity.
  - vm_compute. tauto.
  - vm_compute. reflexivity.
  - intros s H. discriminate H.
Defined.

Lemma structured_sections_mirror_fields_witness :
  Forall (fun s => narrative_field (CompanySection.title s) full_plan
                   = Some (CompanySection.content s))
         (AccountPlan.sections full_plan).
Proof.
  apply (structured_sections_mirror_fields Demo.float_of_str now_example full_reply_text
           acme_request [] None full_plan).
  - vm_compute. reflexivity.
  - vm_compute. reflexivity.
Defined.

Lemma synthesized_plan_invariants_witness :
  AccountPlan.company_name full_plan = StartResearchRequest.company_name acme_request
  /\ AccountPlan.depth full_plan = depth_value (StartResearchRequest.depth acme_request)
  /\ exists meta,
       AccountPlan.metadata full_plan = Some meta
       /\ ResearchMetadata.generated_at meta = now_example
       /\ ResearchMetadata.steps meta = _build_steps [] None
       /\ (In (u "rag") (ResearchMetadata.sources_used meta) <-> nonempty (@nil (list N)) = true)
       /\ (In (u "web") (ResearchMetadata.sources_used meta) <-> has_text None = true)
       /\ (In (u "llm") (ResearchMetadata.sources_used meta)
           <-> truthy (_parse_llm_json full_reply_text) = true)
       /\ (AccountPlan.sources full_plan = None
           <-> truthy (_parse_llm_json full_reply_text) = false)
       /\ length (AccountPlan.sections full_plan)
          = (if truthy (_parse_llm_json full_reply_text) then 10 else 1)%nat.
Proof.
  apply (synthesized_plan_invariants Demo.float_of_str now_example full_reply_text
           acme_request [] None full_plan).
  vm_compute. reflexivity.
Defined.

(** ** More on the chat router *)

Section ChatInvariants.

Variable py_repr : json -> list N.
Variable json_dumps : option nat -> json -> list N.

Local Abbreviation chat := (chat_with_agent py_repr json_dumps).

Implicit Types (st : gmap (list N) Conversation.t) (msg : list N).

(** Every way a chat request can end. *)
Lemma chat_shape w req st :
  match st !! ChatMessageRequest.conversation_id req with
  | None =>
      run w (chat req st)
      = ((Ok (ChatMessageResponse.mk invalid_conversation_reply), st), [])
  | Some conv =>
      exists hist' queue',
        snd (fst (run w (chat req st)))
        = <[ChatMessageRequest.conversation_id req :=
              Conversation.mk (Conversation.plan conv) hist' queue']> st
        /\ match fst (fst (run w (chat req st))) with
           | Ok resp =>
               hist' = Conversation.history conv
                       ++ [Turn.mk (strip (ChatMessageRequest.message req))
                                   (ChatMessageResponse.reply resp)]
           | Raise _ => hist' = Conversation.history conv
           end
        /\ (queue' = Conversation.conflicts_to_resolve conv
            \/ (wants_deep_dive (lower (strip (ChatMessageRequest.message req))) = true
                /\ exists c rest,
                     Conversation.conflicts_to_resolve conv = JArr (c :: rest)
                     /\ queue' = JArr rest))
        /\ (snd (run w (chat req st)) = []
            \/ (exists p, snd (run w (chat req st)) = [LlmCall BASE_SYSTEM_PROMPT p])
            \/ (exists q p, snd (run w (chat req st))
                            = [WebSearchCall q 3; LlmCall BASE_SYSTEM_PROMPT p]))
  end.
Proof.
  destruct req as [cid msg].
  cbn [ChatMessageRequest.conversation_id ChatMessageRequest.message].
  unfold chat_with_agent.
  cbn [ChatMessageRequest.conversation_id ChatMessageRequest.message].
  destruct (st !! cid) as [[plan hist queue]|] eqn:E; [|reflexivity].
  cbn [Conversation.plan Conversation.history Conversation.conflicts_to_resolve].
  assert (Hsame : st = <[cid := Conversation.mk plan hist queue]> st)
    by (symmetry; apply insert_id; exact E).
  pose (leaf := fun (r : (result ChatMessageResponse.t
                          * gmap (list N) Conversation.t) * list event) =>
    exists hist' queue',
      snd (fst r) = <[cid := Conversation.mk plan hist' queue']> st
      /\ match fst (fst r) with
         | Ok resp => hist' = hist ++ [Turn.mk (strip msg) (ChatMessageResponse.reply resp)]
         | Raise _ => hist' = hist
         end
      /\ (queue' = queue
          \/ (wants_deep_dive (lower (strip msg)) = true
              /\ exists c rest, queue = JArr (c :: rest) /\ queue' = JArr rest))
      /\ (snd r = []
          \/ (exists p, snd r = [LlmCall BASE_SYSTEM_PROMPT p])
          \/ (exists q p, snd r = [WebSearchCall q 3; LlmCall BASE_SYSTEM_PROMPT p]))).
  assert (Hraise : forall e, leaf ((Raise e, st), [])).
  { intros e. exists hist, queue. cbn [fst snd].
    split; [exact Hsame|]. split; [reflexivity|]. split; left; reflexivity. }
  assert (Hanswer : forall reply,
             leaf ((Ok (ChatMessageResponse.mk reply),
                    append_turn cid (Conversation.mk plan hist queue)
                      (Turn.mk (strip msg) reply) st), [])).
  { intros reply. exists (hist ++ [Turn.mk (strip msg) reply]), queue. cbn [fst snd].
    split; [reflexivity|]. split; [reflexivity|]. split; left; reflexivity. }
  match goal with
  | |- context [run w ?t] => change (leaf (run w t))
  end.
  destruct (chart_request plan (lower (strip msg))) as [[[cd ct] ctl]|e];
    [|exact (Hraise e)].
  destruct (truthy cd); [apply Hanswer|].
  destruct (wants_kpi (lower (strip msg))); [apply Hanswer|].
  destruct (truthy queue && wants_deep_dive (lower (strip msg))) eqn:Ed.
  - apply andb_true_iff in Ed as [_ Hdd].
    destruct queue as [| | | | |l|d]; try exact (Hraise _).
    destruct l as [|c rest]; [exact (Hraise _)|].
    assert (Hpop : forall e log,
               (log = [] \/ (exists p, log = [LlmCall BASE_SYSTEM_PROMPT p])
                \/ (exists q p, log = [WebSearchCall q 3; LlmCall BASE_SYSTEM_PROMPT p])) ->
               leaf ((Raise e, <[cid := Conversation.mk plan hist (JArr rest)]> st), log)).
    { intros e log Hlog. exists hist, (JArr rest). cbn [fst snd].
      split; [reflexivity|]. split; [reflexivity|].
      split; [|exact Hlog]. right. split; [exact Hdd|]. exists c, rest. split; reflexivity. }
    destruct c as [| | | | | |conflict]; try (apply Hpop; left; reflexivity).
    cbn [run].
    destruct (_parse_llm_json _) as [| | | | | |rd];
      cbn [run]; try (apply Hpop; right; right; eexists _, _; reflexivity).
    eexists _, (JArr rest). cbn [fst snd]. unfold append_turn.
    cbn [Conversation.plan Conversation.history Conversation.conflicts_to_resolve
         ChatMessageResponse.reply].
    split; [reflexivity|]. split; [reflexivity|].
    split.
    + right. split; [exact Hdd|]. exists (JObj conflict), rest. split; reflexivity.
    + right. right. eexists _, _. reflexivity.
  - destruct (wants_edit_help (lower (strip msg))); [apply Hanswer|].
    cbn [run].
    eexists _, queue. cbn [fst snd]. unfold append_turn.
    cbn [Conversation.plan Conversation.history Conversation.conflicts_to_resolve
         ChatMessageResponse.reply].
    split; [reflexivity|]. split; [reflexivity|].
    split; [left; reflexivity|]. right. left. eexists. reflexivity.
Qed.

(** X7. A chat request touches nothing but the conversation it names: every
    other conversation is stored as before, no conversation is added or
    removed, and no plan changes, whatever the message and whatever the
    collaborators answer, also when the request ends in an exception. *)
Theorem chat_touches_one_conversation w req st c :
  let st' := snd (fst (run w (chat req st))) in
  option_map Conversation.plan (st' !! c) = option_map Conversation.plan (st !! c)
  /\ (c <> ChatMessageRequest.conversation_id req -> st' !! c = st !! c).
Proof.
  intros st'. subst st'. pose proof (chat_shape w req st) as H.
  destruct (st !! ChatMessageRequest.conversation_id req) as [conv|] eqn:E.
  - destruct H as (hist' & queue' & -> & _).
    destruct (decide (ChatMessageRequest.conversation_id req = c)) as [<-|Hne].
    + rewrite lookup_insert_eq, E. split; [reflexivity|]. intros Hc. contradiction.
    + rewrite lookup_insert_ne by exact Hne. split; [reflexivity|]. reflexivity.
  - rewrite H. cbn [fst snd]. split; reflexivity.
Qed.

(** X8. The transcript and the conflict queue of the conversation a chat
    request names: a request that returns a response has appended exactly
    one turn, the stripped message with the reply returned; a request that
    raises has appended nothing; and the queue is as before or, for a
    message asking for a deep dive, has lost its first entry. *)
Theorem chat_transcript_and_queue w req st conv :
  st !! ChatMessageRequest.conversation_id req = Some conv ->
  exists conv',
    snd (fst (run w (chat req st))) !! ChatMessageRequest.conversation_id req = Some conv'
    /\ match fst (fst (run w (chat req st))) with
       | Ok resp =>
           Conversation.history conv'
           = Conversation.history conv
             ++ [Turn.mk (strip (ChatMessageRequest.message req))
                         (ChatMessageResponse.reply resp)]
       | Raise _ => Conversation.history conv' = Conversation.history conv
       end
    /\ (Conversation.conflicts_to_resolve conv' = Conversation.conflicts_to_resolve conv
        \/ (wants_deep_dive (lower (strip (ChatMessageRequest.message req))) = true
            /\ exists c rest,
                 Conversation.conflicts_to_resolve conv = JArr (c :: rest)
                 /\ Conversation.conflicts_to_resolve conv' = JArr rest)).
Proof.
  intros E. pose proof (chat_shape w req st) as H. rewrite E in H.
  destruct H as (hist' & queue' & Hst & Hhist & Hq & _).
  exists (Conversation.mk (Conversation.plan conv) hist' queue').
  rewrite Hst, lookup_insert_eq.
  cbn [Conversation.history Conversation.conflicts_to_resolve].
  split; [reflexivity|]. split; [|exact Hq].
  destruct (fst (fst (run w (chat req st)))); exact Hhist.
Qed.

(** X9. The calls of a chat request: none at all, or one model call, or one
    web search for three results followed by one model call; the model is
    always called with the base system prompt.  The vector search and the
    streaming endpoint are never used, and an unknown conversation id gives
    the fixed reply without any call and without a change of the store. *)
Theorem chat_calls w req st :
  (snd (run w (chat req st)) = []
   \/ (exists p, snd (run w (chat req st)) = [LlmCall BASE_SYSTEM_PROMPT p])
   \/ (exists q p, snd (run w (chat req st))
                   = [WebSearchCall q 3; LlmCall BASE_SYSTEM_PROMPT p]))
  /\ (st !! ChatMessageRequest.conversation_id req = None ->
      run w (chat req st)
      = ((Ok (ChatMessageResponse.mk invalid_conversation_reply), st), [])).
Proof.
  pose proof (chat_shape w req st) as H.
  destruct (st !! ChatMessageRequest.conversation_id req) as [conv|] eqn:E.
  - destruct H as (hist' & queue' & _ & _ & _ & Hlog).
    split; [exact Hlog | discriminate].
  - split; [left; rewrite H; reflexivity | intros _; exact H].
Qed.

(** X10. A conflict is lost when the model's answer to a deep dive is JSON
    but not an object: the turn raises [AttributeError] after the web search
    and the model call, the conflict has left the queue, and no turn is
    appended. *)
Theorem deep_dive_conflict_lost w st cid conv msg conflict remaining :
  st !! cid = Some conv ->
  Conversation.conflicts_to_resolve conv = JArr (JObj conflict :: remaining) ->
  deep_dive_message msg ->
  (forall sp up, is_dict (_parse_llm_json (World.call_llm w sp up)) = false) ->
  run w (chat (ChatMessageRequest.mk cid msg) st)
  = ((Raise AttributeError,
      <[cid := Conversation.mk (Conversation.plan conv) (Conversation.history conv)
                 (JArr remaining)]> st),
     resolution_log py_repr
       (AccountPlan.company_name (Conversation.plan conv)) w (JObj conflict)).
Proof.
  intros Hst Hq (Hdd & Hc & Hs & Hk) Hw.
  apply wants_deep_dive_raw in Hdd.
  unfold chat_with_agent.
  cbn [ChatMessageRequest.conversation_id ChatMessageRequest.message].
  rewrite Hst. unfold chart_request. rewrite Hc, Hs, Hk, Hq, Hdd.
  cbn [truthy andb run]. unfold resolution_log, topic_of, deep_dive_query.
  match goal with
  | |- context [_parse_llm_json (World.call_llm w ?sp ?up)] =>
      specialize (Hw sp up); destruct (_parse_llm_json (World.call_llm w sp up))
  end; try discriminate Hw; reflexivity.
Qed.

End ChatInvariants.

Lemma chat_transcript_and_queue_witness :
  exists conv',
    snd (fst (run prose_world
                (Demo.chat (ChatMessageRequest.mk (u "c1") (u " How is Acme doing? "))
                   example_store)))
      !! ChatMessageRequest.conversation_id
           (ChatMessageRequest.mk (u "c1") (u " How is Acme doing? "))
    = Some conv'
    /\ match fst (fst (run prose_world
                         (Demo.chat
                            (ChatMessageRequest.mk (u "c1") (u " How is Acme doing? "))
                            example_store))) with
       | Ok resp =>
           Conversation.history conv'
           = Conversation.history
               (Conversation.mk full_plan [] (JArr [revenue_conflict]))
             ++ [Turn.mk (strip (ChatMessageRequest.message
                                   (ChatMessageRequest.mk (u "c1")
                                      (u " How is Acme doing? "))))
                         (ChatMessageResponse.reply resp)]
       | Raise _ =>
           Conversation.history conv'
           = Conversation.history
               (Conversation.mk full_plan [] (JArr [revenue_conflict]))
       end
    /\ (Conversation.conflicts_to_resolve conv'
        = Conversation.conflicts_to_resolve
            (Conversation.mk full_plan [] (JArr [revenue_conflict]))
        \/ (wants_deep_dive
              (lower (strip (ChatMessageRequest.message
                               (ChatMessageRequest.mk (u "c1")
                                  (u " How is Acme doing? "))))) = true
            /\ exists c rest,
                 Conversation.conflicts_to_resolve
                   (Conversation.mk full_plan [] (JArr [revenue_conflict]))
                 = JArr (c :: rest)
                 /\ Conversation.conflicts_to_resolve conv' = JArr rest)).
Proof.
  apply (chat_transcript_and_queue Demo.py_repr Demo.json_dumps prose_world
           (ChatMessageRequest.mk (u "c1") (u " How is Acme doing? ")) example_store
           (Conversation.mk full_plan [] (JArr [revenue_conflict]))).
  exact example_store_lookup.
Defined.

Lemma deep_dive_conflict_lost_witness :
  run number_world
    (Demo.chat (ChatMessageRequest.mk (u "c1") (u "please deep-dive on revenue"))
       example_store)
  = ((Raise AttributeError,
      <[u "c1" := Conversation.mk full_plan [] (JArr [])]> example_store),
     resolution_log Demo.py_repr (AccountPlan.company_name full_plan) number_world
       revenue_conflict).
Proof.
  apply (deep_dive_conflict_lost Demo.py_repr Demo.json_dumps number_world example_store
           (u "c1") (Conversation.mk full_plan [] (JArr [revenue_conflict]))
           (u "please deep-dive on revenue")
           [ (u "topic", JStr (u "revenue"));
             (u "details", JStr (u "Two figures."));
             (u "needs_deep_dive", JBool true) ] []).
  - exact example_store_lookup.
  - reflexivity.
  - vm_compute. repeat split; left; reflexivity.
  - intros sp up. vm_compute. reflexivity.
Defined.

(** ** More on the section edit *)

Section EditFacts.

Implicit Types (l : list CompanySection.t) (st : gmap (list N) Conversation.t).

Lemma find_section_some title l s :
  In s l -> CompanySection.title s = title -> exists i, find_section title l = Some i.
Proof.
  induction l as [|x l IH]; intros Hin Ht; [destruct Hin|].
  simpl. destruct (str_eqb (CompanySection.title x) title) eqn:E; [exists O; reflexivity|].
  destruct Hin as [->|Hin].
  - unfold str_eqb in E. rewrite bool_decide_eq_false in E. contradiction.
  - destruct (IH Hin Ht) as [i Hi]. exists (S i). rewrite Hi. reflexivity.
Qed.

Lemma find_section_lookup title l i :
  find_section title l = Some i -> exists s, l !! i = Some s /\ CompanySection.title s = title.
Proof.
  intros H. apply find_section_first in H as (s & Hs & Ht & _). exists s. split; assumption.
Qed.

Lemma narrative_field_set_sections t v plan :
  narrative_field t (set_sections v plan) = narrative_field t plan.
Proof. destruct plan. reflexivity. Qed.

Ltac compute_plan :=
  match goal with
  | |- context [if ?b then ?x else ?y] =>
      match type of x with
      | AccountPlan.t =>
          let p := eval vm_compute in (if b then x else y) in
          change (if b then x else y) with p
      end
  end.

Ltac other_fields t' Hne :=
  unfold narrative_field;
  cbn [AccountPlan.company_profile AccountPlan.market_analysis
       AccountPlan.financial_highlights AccountPlan.product_portfolio
       AccountPlan.technology_stack AccountPlan.competitors AccountPlan.swot
       AccountPlan.opportunities AccountPlan.risks AccountPlan.account_plan_30_60_90];
  repeat match goal with
         | |- context [str_eqb t' ?x] =>
             let E := fresh "E" in
             destruct (str_eqb t' x) eqn:E;
             [ first [ reflexivity
                     | exfalso; apply Hne;
                       unfold str_eqb in E; rewrite bool_decide_eq_true in E;
                       rewrite E; vm_compute; reflexivity ]
             | ]
         end;
  reflexivity.

(** X11. An edit of one of the eight sections Company Profile, Market
    Analysis, Financial Highlights, Product Portfolio, Technology Stack,
    Competitors, Opportunities and Risks also writes the new content to the
    narrative field of the plan that belongs to the title, and leaves the
    narrative fields of all other titles as they were. *)
Theorem update_syncs_narrative cid title new_content st conv s :
  st !! cid = Some conv ->
  In title synced_titles ->
  In s (AccountPlan.sections (Conversation.plan conv)) ->
  CompanySection.title s = title ->
  exists conv',
    update_account_plan_section cid title new_content st
    = (true, <[cid := conv']> st)
    /\ narrative_field title (Conversation.plan conv') = Some new_content
    /\ (forall t', t' <> title ->
          narrative_field t' (Conversation.plan conv')
          = narrative_field t' (Conversation.plan conv)).
Proof.
  intros E Ht Hs Hts.
  destruct (find_section_some title _ s Hs Hts) as [i Hi].
  unfold update_account_plan_section. rewrite E, Hi.
  eexists. split; [reflexivity|]. cbn [Conversation.plan].
  destruct (Conversation.plan conv)
    as [cn dp ov cp ma fh pp ts co sw op ri ap kp so me se].
  cbn [AccountPlan.sections].
  unfold synced_titles in Ht. simpl in Ht.
  repeat match goal with
         | H : _ \/ _ |- _ => destruct H as [H|H]
         end;
    try contradiction; subst title; compute_plan;
    (split; [vm_compute; reflexivity | intros t' Hne; other_fields t' Hne]).
Qed.

(** X12. An edit of the section SWOT Analysis or 30-60-90 Day Plan changes
    the section only: no narrative field of the plan is written, so the
    fields [swot] and [account_plan_30_60_90] keep the old text while the
    section shows the new one. *)
Theorem update_leaves_field_stale cid title new_content st conv s :
  st !! cid = Some conv ->
  In title unsynced_titles ->
  In s (AccountPlan.sections (Conversation.plan conv)) ->
  CompanySection.title s = title ->
  exists conv' i,
    update_account_plan_section cid title new_content st
    = (true, <[cid := conv']> st)
    /\ AccountPlan.sections (Conversation.plan conv') !! i
       = Some (CompanySection.mk title new_content)
    /\ (forall t', narrative_field t' (Conversation.plan conv')
                   = narrative_field t' (Conversation.plan conv)).
Proof.
  intros E Ht Hs Hts.
  destruct (find_section_some title _ s Hs Hts) as [i Hi].
  destruct (find_section_lookup _ _ _ Hi) as (s0 & Hs0 & Ht0).
  unfold update_account_plan_section. rewrite E, Hi.
  assert (Hattr : hasattr (attr_name_of title)
                  && negb (bool_decide (attr_name_of title ∈ protected_attrs)) = false).
  { unfold unsynced_titles in Ht. simpl in Ht.
    destruct Ht as [<-|[<-|[]]]; vm_compute; reflexivity. }
  rewrite Hattr.
  eexists _, i. split; [reflexivity|]. cbn [Conversation.plan].
  split.
  - rewrite sections_set_sections, (alter_set_content _ _ _ _ Hs0), Ht0.
    apply list_lookup_insert_eq. apply lookup_lt_Some in Hs0. exact Hs0.
  - intros t'. apply narrative_field_set_sections.
Qed.

Lemma alter_set_content_map_title new l i :
  List.map CompanySection.title (alter (set_content new) i l)
  = List.map CompanySection.title l.
Proof.
  revert i. induction l as [|s l IH]; intros [|i]; simpl; try reflexivity.
  f_equal. apply IH.
Qed.

(** X13. An edit of a stored plan touches nothing but the conversation it
    names, and there
    only section contents, one narrative field at most and the transcript:
    every other conversation is stored as before, no conversation is added
    or removed, every conflict queue is as before, the titles of the
    sections and their order are as before, and a call that returns [False]
    has changed nothing at all. *)
Theorem update_touches_one_conversation cid title new_content st c :
  (forall conv, st !! cid = Some conv -> titles_synthesized (Conversation.plan conv)) ->
  let st' := snd (update_account_plan_section cid title new_content st) in
  (c <> cid -> st' !! c = st !! c)
  /\ option_map Conversation.conflicts_to_resolve (st' !! c)
     = option_map Conversation.conflicts_to_resolve (st !! c)
  /\ option_map (fun conv => List.map CompanySection.title
                               (AccountPlan.sections (Conversation.plan conv)))
       (st' !! c)
     = option_map (fun conv => List.map CompanySection.title
                                 (AccountPlan.sections (Conversation.plan conv)))
         (st !! c)
  /\ (fst (update_account_plan_section cid title new_content st) = false -> st' = st).
Proof.
  intros _ st'. subst st'. unfold update_account_plan_section.
  destruct (st !! cid) as [state|] eqn:E; [|repeat split; reflexivity].
  destruct (find_section title _) as [i|]; [|repeat split; reflexivity].
  cbn [fst snd].
  split; [intros Hne; apply lookup_insert_ne; congruence|].
  destruct (decide (cid = c)) as [<-|Hne].
  - rewrite lookup_insert_eq, E. cbn [option_map Conversation.conflicts_to_resolve
                                      Conversation.plan].
    split; [reflexivity|]. split; [|discriminate].
    f_equal.
    assert (Hsec : forall plan,
               AccountPlan.sections plan
               = alter (set_content new_content) i
                   (AccountPlan.sections (Conversation.plan state)) ->
               List.map CompanySection.title (AccountPlan.sections plan)
               = List.map CompanySection.title
                   (AccountPlan.sections (Conversation.plan state))).
    { intros plan ->. apply alter_set_content_map_title. }
    destruct (hasattr (attr_name_of title)
              && negb (bool_decide (attr_name_of title ∈ protected_attrs)));
      [|apply Hsec, sections_set_sections].
    destruct (setattr _ _ _) as [plan'|] eqn:Ea; [|apply Hsec, sections_set_sections].
    apply Hsec. rewrite (setattr_sections _ _ _ _ Ea). apply sections_set_sections.
  - rewrite lookup_insert_ne by exact Hne.
    split; [reflexivity|]. split; [reflexivity | discriminate].
Qed.

End EditFacts.

Lemma update_syncs_narrative_witness :
  exists conv',
    update_account_plan_section (u "c1") (u "Risks") (u "New risks.") example_store
    = (true, <[u "c1" := conv']> example_store)
    /\ narrative_field (u "Risks") (Conversation.plan conv') = Some (u "New risks.")
    /\ (forall t', t' <> u "Risks" ->
          narrative_field t' (Conversation.plan conv')
          = narrative_field t'
              (Conversation.plan (Conversation.mk full_plan [] (JArr [revenue_conflict])))).
Proof.
  apply (update_syncs_narrative (u "c1") (u "Risks") (u "New risks.") example_store
           (Conversation.mk full_plan [] (JArr [revenue_conflict]))
           (CompanySection.mk (u "Risks") (u "Coyotes."))).
  - exact example_store_lookup.
  - vm_compute. tauto.
  - vm_compute. tauto.
  - reflexivity.
Defined.

Lemma update_leaves_field_stale_witness :
  exists conv' i,
    update_account_plan_section (u "c1") (u "SWOT Analysis") (u "Weak brand.")
      example_store
    = (true, <[u "c1" := conv']> example_store)
    /\ AccountPlan.sections (Conversation.plan conv') !! i
       = Some (CompanySection.mk (u "SWOT Analysis") (u "Weak brand."))
    /\ (forall t',
          narrative_field t' (Conversation.plan conv')
          = narrative_field t'
              (Conversation.plan (Conversation.mk full_plan [] (JArr [revenue_conflict])))).
Proof.
  apply (update_leaves_field_stale (u "c1") (u "SWOT Analysis") (u "Weak brand.")
           example_store (Conversation.mk full_plan [] (JArr [revenue_conflict]))
           (CompanySection.mk (u "SWOT Analysis") (u "Strong brand."))).
  - exact example_store_lookup.
  - vm_compute. tauto.
  - vm_compute. tauto.
  - reflexivity.
Defined.

Lemma update_touches_one_conversation_witness :
  let st' :=
    snd (update_account_plan_section (u "c1") (u "Risks") (u "New risks.") example_store) in
  (u "c1" <> u "c1" -> st' !! u "c1" = example_store !! u "c1")
  /\ option_map Conversation.conflicts_to_resolve (st' !! u "c1")
     = option_map Conversation.conflicts_to_resolve (example_store !! u "c1")
  /\ option_map (fun conv => List.map CompanySection.title
                               (AccountPlan.sections (Conversation.plan conv)))
       (st' !! u "c1")
     = option_map (fun conv => List.map CompanySection.title
                                 (AccountPlan.sections (Conversation.plan conv)))
         (example_store !! u "c1")
  /\ (fst (update_account_plan_section (u "c1") (u "Risks") (u "New risks.")
              example_store) = false ->
      st' = example_store).
Proof.
  apply (update_touches_one_conversation (u "c1") (u "Risks") (u "New risks.")
           example_store (u "c1")).
  intros conv H. rewrite example_store_lookup in H. injection H as <-.
  exact full_plan_titles.
Defined.

(** ** Starting a conversation *)

Section StartupFacts.

Variable float_of_str : list N -> option pyfloat.
Variable research_prompt :
  StartResearchRequest.t -> list (list N) -> option (list N) -> list N.
Variable int_of_scaled : pyfloat -> result Z.
Variable py_repr : json -> list N.
Variable json_dumps : option nat -> json -> list N.

Local Abbreviation build := (_build_account_plan_from_llm float_of_str).
Local Abbreviation history := (_generate_pipeline_history int_of_scaled).
Local Abbreviation start := (start_research float_of_str research_prompt int_of_scaled).
Local Abbreviation chat := (chat_with_agent py_repr json_dumps).
Local Abbreviation reply_of := (research_reply research_prompt).
Local Abbreviation log_of := (research_log research_prompt).

Implicit Types (st : gmap (list N) Conversation.t) (req : StartResearchRequest.t).

Lemma web_step_complete rag_ctx web_text :
  existsb (fun s => str_eqb (ResearchStep.id s) (u "web_search")
                    && is_complete (ResearchStep.status s))
          (_build_steps rag_ctx web_text)
  = has_text web_text.
Proof.
  unfold _build_steps. destruct web_text as [[|c t]|]; destruct rag_ctx;
    vm_compute; reflexivity.
Qed.

Lemma rag_step_detail rag_ctx web_text :
  match List.find (fun s => str_eqb (ResearchStep.id s) (u "rag_search"))
                  (_build_steps rag_ctx web_text) with
  | Some s =>
      match ResearchStep.detail s with
      | Some d => Ok d
      | None => Raise TypeError
      end
  | None => Ok (u "No RAG process initiated.")
  end
  = Ok (if nonempty rag_ctx
        then u "Retrieved " ++ str_of_nat (length rag_ctx) ++ u " internal chunks."
        else u "No RAG documents found.").
Proof.
  unfold _build_steps. destruct rag_ctx; vm_compute; reflexivity.
Qed.

(** The transcript of a plan whose steps are those of [_build_steps]. *)
Lemma history_eq plan now depth used rag_ctx web_text cd conf queue :
  AccountPlan.metadata plan
  = Some (ResearchMetadata.mk now depth used (_build_steps rag_ctx web_text) cd conf) ->
  history plan queue
  = (intro ← agent_intro int_of_scaled (AccountPlan.company_name plan) cd conf queue;
     Ok [ start_turn plan; web_status_turn web_text; rag_status_turn rag_ctx;
          tools_turn; synthesis_turn; Turn.mk research_user intro ]).
Proof.
  intros Hm. unfold _generate_pipeline_history. rewrite Hm.
  cbn [ResearchMetadata.steps ResearchMetadata.conflicts_detected
       ResearchMetadata.confidence_score].
  rewrite web_step_complete, rag_step_detail. cbn [mbind result_bind]. reflexivity.
Qed.

(** The metadata of a synthesized plan. *)
Lemma build_metadata now raw req rag_ctx web_text plan :
  build now raw req rag_ctx web_text = Ok plan ->
  AccountPlan.company_name plan = StartResearchRequest.company_name req
  /\ exists used cd conf,
       AccountPlan.metadata plan
       = Some (ResearchMetadata.mk now (depth_value (StartResearchRequest.depth req))
                 used (_build_steps rag_ctx web_text) cd conf)
       /\ (truthy (_parse_llm_json raw) = false ->
           cd = false /\ conf = float_zero /\ AccountPlan.sources plan = None)
       /\ (forall data, _parse_llm_json raw = JObj data -> data <> [] ->
           cd = truthy (dict_get (u "conflicts") data)
           /\ confidence_of float_of_str (dict_get (u "confidence_score") data) = Ok conf).
Proof.
  unfold _build_account_plan_from_llm.
  destruct (truthy (_parse_llm_json raw)) eqn:Et; cbn [negb].
  - destruct (_parse_llm_json raw) as [| | | | | |data0]; try discriminate.
    repeat match goal with
           | |- context [@mbind result _ _ _ _ ?r] =>
               destruct r eqn:?; cbn [mbind result_bind]; try discriminate
           end.
    intros [= <-]. cbn [AccountPlan.company_name AccountPlan.metadata].
    split; [reflexivity|]. eexists _, _, _. split; [reflexivity|].
    split; [discriminate|]. intros data [= <-] _. split; [reflexivity | assumption].
  - intros [= <-]. cbn [AccountPlan.company_name AccountPlan.metadata AccountPlan.sources].
    split; [reflexivity|]. eexists _, _, _. split; [reflexivity|].
    split; [intros _; repeat split|].
    intros data Hd Hne. rewrite Hd in Et. destruct data; [contradiction | discriminate].
Qed.

(** What one call of [start_research] does, by the outcome of its steps. *)
Lemma run_start_research w now cid req st :
  run w (start now cid req st)
  = (match build now (reply_of w req) req (found_chunks w req) (found_web w req) with
     | Raise e => (Raise e, st)
     | Ok plan =>
         match history plan (queued_conflicts (reply_of w req)) with
         | Raise e =>
             (Raise e,
              <[cid := Conversation.mk plan [] (queued_conflicts (reply_of w req))]> st)
         | Ok h =>
             (Ok (StartResearchResponse.mk cid plan),
              <[cid := Conversation.mk plan h (queued_conflicts (reply_of w req))]> st)
         end
     end,
     log_of w req).
Proof.
  unfold start_research, build_research_prompt.
  cbn [mbind io_mbind io_bind run].
  unfold research_reply, research_log, found_chunks, found_web, rag_query, web_query,
    queued_conflicts.
  destruct (build now _ req _ _) as [plan|e]; [|reflexivity].
  destruct (history plan _); reflexivity.
Qed.

Lemma pipeline_history_shape_aux now raw req rag_ctx web_text plan queue h :
  build now raw req rag_ctx web_text = Ok plan ->
  history plan queue = Ok h ->
  exists intro,
    h = [ start_turn plan; web_status_turn web_text; rag_status_turn rag_ctx;
          tools_turn; synthesis_turn; Turn.mk research_user intro ].
Proof.
  intros Hb Hh. destruct (build_metadata _ _ _ _ _ _ Hb) as (_ & used & cd & conf & Hm & _).
  rewrite (history_eq _ _ _ _ _ _ _ _ _ Hm) in Hh.
  destruct (agent_intro _ _ _ _ _) as [intro|e]; cbn [mbind result_bind] in Hh;
    [|discriminate].
  injection Hh as <-. exists intro. reflexivity.
Qed.

(** X14. The pipeline transcript of a synthesized plan has six turns: the
    opening turn, the web step with the status "executed" exactly when the
    web search gave a text, the vector-search step with the number of chunks
    found (or the note that none were found), the two fixed turns for the
    tools and the synthesis, and the closing turn, which alone is signed
    "System Initiated Research". *)
Theorem pipeline_history_turns now raw req rag_ctx web_text plan queue h :
  build now raw req rag_ctx web_text = Ok plan ->
  history plan queue = Ok h ->
  exists intro,
    h = [ start_turn plan; web_status_turn web_text; rag_status_turn rag_ctx;
          tools_turn; synthesis_turn; Turn.mk research_user intro ].
Proof.
  exact (pipeline_history_shape_aux now raw req rag_ctx web_text plan queue h).
Qed.

(** X15. A call of [start_research] that returns has made three calls, in
    this order: the vector search and the web search for five results each,
    then one model call with the base system prompt and the research prompt.
    The response carries the identifier drawn and the plan synthesized from
    the model's reply; under that identifier the store then holds this plan,
    a transcript of six turns and the conflicts of the reply, and every
    other conversation is as before. *)
Theorem start_research_stores_conversation w now cid req st resp st' log :
  run w (start now cid req st) = ((Ok resp, st'), log) ->
  StartResearchResponse.conversation_id resp = cid
  /\ build now (reply_of w req) req (found_chunks w req) (found_web w req)
     = Ok (StartResearchResponse.account_plan resp)
  /\ (exists h,
        get_conversation_state cid st'
        = Some (Conversation.mk (StartResearchResponse.account_plan resp) h
                  (queued_conflicts (reply_of w req)))
        /\ length h = 6%nat)
  /\ (forall c, c <> cid -> st' !! c = st !! c)
  /\ log = log_of w req.
Proof.
  rewrite run_start_research.
  destruct (build now _ req _ _) as [plan|e] eqn:Eb; [|discriminate].
  destruct (history plan _) as [h|e] eqn:Eh; [|discriminate].
  intros [= <- <- <-].
  cbn [StartResearchResponse.conversation_id StartResearchResponse.account_plan].
  split; [reflexivity|]. split; [reflexivity|].
  split.
  - exists h. unfold get_conversation_state. rewrite lookup_insert_eq.
    split; [reflexivity|].
    destruct (pipeline_history_shape_aux _ _ _ _ _ _ _ _ Eb Eh) as [intro ->]. reflexivity.
  - split; [|reflexivity]. intros c Hc. apply lookup_insert_ne. congruence.
Qed.

Lemma queued_conflicts_falsy raw :
  truthy (_parse_llm_json raw) = false -> queued_conflicts raw = JArr [].
Proof.
  unfold queued_conflicts. destruct (_parse_llm_json raw) as [| | | | | |d]; try reflexivity.
  destruct d; [reflexivity | discriminate].
Qed.

(** A start whose reply decodes to nothing that counts as true. *)
Lemma run_start_fallback w now cid req st :
  truthy (_parse_llm_json (reply_of w req)) = false ->
  exists plan h,
    run w (start now cid req st)
    = ((Ok (StartResearchResponse.mk cid plan),
        <[cid := Conversation.mk plan h (JArr [])]> st),
       log_of w req)
    /\ build now (reply_of w req) req (found_chunks w req) (found_web w req) = Ok plan
    /\ AccountPlan.sources plan = None
    /\ AccountPlan.sections plan
       = [CompanySection.mk (u "Full Research Output") (reply_of w req)]
    /\ (exists meta,
          AccountPlan.metadata plan = Some meta
          /\ ResearchMetadata.steps meta
             = _build_steps (found_chunks w req) (found_web w req))
    /\ h = [ start_turn plan; web_status_turn (found_web w req);
             rag_status_turn (found_chunks w req); tools_turn; synthesis_turn;
             Turn.mk research_user
               (complete_intro (StartResearchRequest.company_name req) 0) ].
Proof.
  intros Et. rewrite run_start_research.
  rewrite (fallback_plan_eq float_of_str now _ req _ _ Et).
  rewrite (queued_conflicts_falsy _ Et).
  erewrite history_eq by reflexivity.
  cbn [AccountPlan.company_name]. unfold agent_intro. cbn [andb].
  unfold confidence_percent, float_zero.
  change (float_is_zero (FDec false 0 0)) with true.
  cbn [mbind result_bind].
  eexists _, _. split; [reflexivity|]. split; [reflexivity|].
  cbn [AccountPlan.sources AccountPlan.sections AccountPlan.metadata].
  split; [reflexivity|]. split; [reflexivity|].
  split; [eexists; split; reflexivity | reflexivity].
Qed.

Lemma chart_request_raises st cid conv msg :
  st !! cid = Some conv ->
  AccountPlan.sources (Conversation.plan conv) = None ->
  chart_message msg ->
  chat (ChatMessageRequest.mk cid msg) st = Done (Raise AttributeError, st).
Proof.
  intros Hst Hsrc Hmsg. unfold chat_with_agent.
  cbn [ChatMessageRequest.conversation_id ChatMessageRequest.message].
  rewrite Hst. unfold chart_request. rewrite Hsrc.
  destruct (wants_competitor_chart (lower (strip msg))) eqn:Ec; [reflexivity|].
  destruct Hmsg as [[Hc Hp] | [Hs Hg]].
  - rewrite (wants_competitor_chart_raw msg Hc Hp) in Ec. discriminate.
  - rewrite (wants_swot_chart_raw msg Hs Hg). reflexivity.
Qed.

(** X16. When the model's reply decodes to nothing that counts as true
    (plain prose, say), [start_research] still returns a conversation: the
    fallback plan, an empty conflict queue and a transcript whose closing
    turn reports a confidence of 0 percent.  That conversation cannot be
    shown: the results page raises [AttributeError] for it, and so does
    every chat message that asks for one of the two charts. *)
Theorem start_research_fallback_unusable w now cid req st :
  truthy (_parse_llm_json (reply_of w req)) = false ->
  exists plan h,
    let st' := <[cid := Conversation.mk plan h (JArr [])]> st in
    run w (start now cid req st)
    = ((Ok (StartResearchResponse.mk cid plan), st'), log_of w req)
    /\ h !! 5%nat
       = Some (Turn.mk research_user
                 (complete_intro (StartResearchRequest.company_name req) 0))
    /\ research_results cid st' = (Raise AttributeError, st')
    /\ (forall w' msg, chart_message msg ->
          run w' (chat (ChatMessageRequest.mk cid msg) st')
          = ((Raise AttributeError, st'), [])).
Proof.
  intros Et.
  destruct (run_start_fallback w now cid req st Et)
    as (plan & h & Hrun & _ & Hsrc & _ & _ & Hh).
  exists plan, h. cbv zeta. split; [exact Hrun|].
  split; [rewrite Hh; reflexivity|].
  split.
  - unfold research_results, get_conversation_state. rewrite lookup_insert_eq.
    cbn [Conversation.plan]. rewrite Hsrc. reflexivity.
  - intros w' msg Hmsg.
    rewrite (chart_request_raises _ cid (Conversation.mk plan h (JArr [])) msg);
      [reflexivity | apply lookup_insert_eq | exact Hsrc | exact Hmsg].
Qed.

(** X17. [start_research] can raise after it has stored the conversation.
    When the plan was synthesized from an object and either the reply has
    no conflicts and a confidence score of NaN, or its list of conflicts
    starts with a value that is not an object (a plain sentence, say), the
    call raises ([ValueError] or [AttributeError]), and the new
    conversation stays in the store with an empty transcript. *)
Theorem start_research_raises_after_storing w now cid req st plan data :
  build now (reply_of w req) req (found_chunks w req) (found_web w req) = Ok plan ->
  _parse_llm_json (reply_of w req) = JObj data ->
  (truthy (dict_get (u "conflicts") data) = false
   /\ dict_get (u "confidence_score") data = JFloat FNaN)
  \/ (exists c rest,
        dict_lookup (u "conflicts") data = Some (JArr (c :: rest))
        /\ is_dict c = false) ->
  exists e,
    run w (start now cid req st)
    = ((Raise e,
        <[cid := Conversation.mk plan [] (queued_conflicts (reply_of w req))]> st),
       log_of w req)
    /\ (e = ValueError \/ e = AttributeError).
Proof.
  intros Hb Hp Hcause. rewrite run_start_research, Hb.
  destruct (build_metadata _ _ _ _ _ _ Hb) as (_ & used & cd & conf & Hm & _ & Hs).
  assert (Hne : data <> []).
  { intros ->. destruct Hcause as [[_ H] | (c & rest & H & _)]; discriminate H. }
  destruct (Hs data Hp Hne) as [Hcd Hconf].
  rewrite (history_eq _ _ _ _ _ _ _ _ _ Hm).
  unfold queued_conflicts. rewrite Hp.
  destruct Hcause as [[Hfalse Hnan] | (c & rest & Hl & Hc)].
  - exists ValueError. split; [|left; reflexivity].
    rewrite Hnan in Hconf. injection Hconf as <-.
    unfold agent_intro. rewrite Hcd, Hfalse. reflexivity.
  - exists AttributeError. split; [|right; reflexivity].
    rewrite (dict_lookup_get_or _ (JArr []) _ _ Hl).
    rewrite (dict_lookup_get _ _ _ Hl) in Hcd. subst cd.
    unfold agent_intro. cbn [truthy andb].
    destruct c; try discriminate Hc; reflexivity.
Qed.

Lemma find_absent ch s : ~ In ch s -> find ch s = (-1)%Z.
Proof.
  unfold find. generalize 0%Z. induction s as [|c s IH]; intros i Hn; [reflexivity|].
  simpl. destruct (c =? ch) eqn:E.
  - apply N.eqb_eq in E. exfalso. apply Hn. left. exact E.
  - apply IH. intros H. apply Hn. right. exact H.
Qed.

(** The text [call_llm] returns for a failed request decodes to nothing. *)
Lemma parse_llm_error text :
  ~ In 123 text ->
  _parse_llm_json (LlmService.call_llm (LlmService.ClientError text)) = JObj [].
Proof.
  intros Hn. cbn [LlmService.call_llm].
  set (raw := u "(llm_error: " ++ text ++ u ")").
  assert (Hraw : raw = 40 :: (u "llm_error: " ++ text) ++ [41]).
  { unfold raw. rewrite <- app_assoc. reflexivity. }
  assert (Hclean : _strip_code_fences raw = raw).
  { unfold _strip_code_fences.
    assert (Hs : strip raw = raw).
    { rewrite Hraw.
      exact (strip_core [] 40 (u "llm_error: " ++ text) 41 []
               (Forall_nil_2 _) (Forall_nil_2 _) eq_refl eq_refl). }
    rewrite !Hs. rewrite Hraw. reflexivity. }
  rewrite parse_llm_json_no_brace.
  - rewrite Hclean, Hraw. reflexivity.
  - rewrite Hclean. apply find_absent. unfold raw. intros H.
    apply in_app_or in H as [H|H]; [vm_compute in H; intuition discriminate|].
    apply in_app_or in H as [H|H]; [contradiction | vm_compute in H; intuition discriminate].
Qed.

(** X18. A failed model request looks like a finished research.  When the
    client raises, [call_llm] returns the text "(llm_error: ...)"; unless
    that text has an opening brace, [start_research] takes it for an
    unparseable reply and returns a conversation whose plan has the error
    text as its only section, with the synthesis step marked complete and a
    closing turn reporting a confidence of 0 percent. *)
Theorem start_research_llm_error w now cid req st text :
  reply_of w req = LlmService.call_llm (LlmService.ClientError text) ->
  ~ In 123 text ->
  exists plan h meta,
    run w (start now cid req st)
    = ((Ok (StartResearchResponse.mk cid plan),
        <[cid := Conversation.mk plan h (JArr [])]> st),
       log_of w req)
    /\ AccountPlan.sections plan
       = [CompanySection.mk (u "Full Research Output")
            (u "(llm_error: " ++ text ++ u ")")]
    /\ AccountPlan.metadata plan = Some meta
    /\ ResearchMetadata.steps meta !! 3%nat
       = Some (ResearchStep.mk (u "llm_synthesis") (u "LLM synthesis of account plan")
                 complete
                 (Some (u "LLM combined all signals into structured account plan.")))
    /\ h !! 5%nat
       = Some (Turn.mk research_user
                 (complete_intro (StartResearchRequest.company_name req) 0)).
Proof.
  intros Hreply Hn.
  assert (Et : truthy (_parse_llm_json (reply_of w req)) = false).
  { rewrite Hreply, (parse_llm_error text Hn). reflexivity. }
  destruct (run_start_fallback w now cid req st Et)
    as (plan & h & Hrun & _ & _ & Hsec & (meta & Hm & Hsteps) & Hh).
  exists plan, h, meta. split; [exact Hrun|].
  split; [rewrite Hsec, Hreply; reflexivity|].
  split; [exact Hm|].
  split; [rewrite Hsteps; reflexivity | rewrite Hh; reflexivity].
Qed.

(** X27. A reply that is a JSON document but not an object (a bare number,
    a list, a quoted string) and counts as true makes [start_research]
    raise [AttributeError] after its three calls; nothing is stored. *)
Theorem start_research_non_mapping w now cid req st :
  truthy (_parse_llm_json (reply_of w req)) = true ->
  is_dict (_parse_llm_json (reply_of w req)) = false ->
  run w (start now cid req st) = ((Raise AttributeError, st), log_of w req).
Proof.
  intros Ht Hd. rewrite run_start_research. unfold _build_account_plan_from_llm.
  rewrite Ht. cbn [negb].
  destruct (_parse_llm_json (reply_of w req)); try discriminate Hd; reflexivity.
Qed.

End StartupFacts.

Lemma pipeline_history_turns_witness :
  exists intro,
    [ start_turn full_plan; web_status_turn None; rag_status_turn [];
      tools_turn; synthesis_turn;
      Turn.mk research_user (complete_intro (u "Acme Corp") 86) ]
    = [ start_turn full_plan; web_status_turn None; rag_status_turn [];
        tools_turn; synthesis_turn; Turn.mk research_user intro ].
Proof.
  apply (pipeline_history_turns Demo.float_of_str DemoStartup.int_of_scaled
           now_example full_reply_text acme_request [] None full_plan (JArr [])).
  - vm_compute. reflexivity.
  - vm_compute. reflexivity.
Defined.

Lemma start_research_stores_conversation_witness :
  StartResearchResponse.conversation_id (StartResearchResponse.mk (u "c7") sparse_plan)
  = u "c7"
  /\ Demo.build_plan now_example
       (research_reply Demo.research_prompt
          (World.mk (fun _ _ => []) (fun _ _ => None) (fun _ _ => sparse_reply_text)
             (fun _ _ => []))
          acme_request)
       acme_request [] None
     = Ok (StartResearchResponse.account_plan
             (StartResearchResponse.mk (u "c7") sparse_plan))
  /\ (exists h,
        get_conversation_state (u "c7")
          (snd (fst (run (World.mk (fun _ _ => []) (fun _ _ => None)
                            (fun _ _ => sparse_reply_text) (fun _ _ => []))
                       (DemoStartup.start now_example (u "c7") acme_request
                          example_store))))
        = Some (Conversation.mk
                  (StartResearchResponse.account_plan
                     (StartResearchResponse.mk (u "c7") sparse_plan))
                  h
                  (queued_conflicts
                     (research_reply Demo.research_prompt
                        (World.mk (fun _ _ => []) (fun _ _ => None)
                           (fun _ _ => sparse_reply_text) (fun _ _ => []))
                        acme_request)))
        /\ length h = 6%nat)
  /\ (forall c, c <> u "c7" ->
        snd (fst (run (World.mk (fun _ _ => []) (fun _ _ => None)
                         (fun _ _ => sparse_reply_text) (fun _ _ => []))
                    (DemoStartup.start now_example (u "c7") acme_request
                       example_store))) !! c
        = example_store !! c)
  /\ snd (run (World.mk (fun _ _ => []) (fun _ _ => None)
                 (fun _ _ => sparse_reply_text) (fun _ _ => []))
            (DemoStartup.start now_example (u "c7") acme_request example_store))
     = research_log Demo.research_prompt
         (World.mk (fun _ _ => []) (fun _ _ => None) (fun _ _ => sparse_reply_text)
            (fun _ _ => []))
         acme_request.
Proof.
  apply (start_research_stores_conversation Demo.float_of_str Demo.research_prompt
           DemoStartup.int_of_scaled
           (World.mk (fun _ _ => []) (fun _ _ => None) (fun _ _ => sparse_reply_text)
              (fun _ _ => []))
           now_example (u "c7") acme_request example_store).
  vm_compute. reflexivity.
Defined.

Lemma start_research_fallback_unusable_witness :
  exists plan h,
    let st' := <[u "c8" := Conversation.mk plan h (JArr [])]> example_store in
    run prose_world (DemoStartup.start now_example (u "c8") acme_request example_store)
    = ((Ok (StartResearchResponse.mk (u "c8") plan), st'),
       research_log Demo.research_prompt prose_world acme_request)
    /\ h !! 5%nat
       = Some (Turn.mk research_user
                 (complete_intro (StartResearchRequest.company_name acme_request) 0))
    /\ research_results (u "c8") st' = (Raise AttributeError, st')
    /\ (forall w' msg, chart_message msg ->
          run w' (Demo.chat (ChatMessageRequest.mk (u "c8") msg) st')
          = ((Raise AttributeError, st'), [])).
Proof.
  apply (start_research_fallback_unusable Demo.float_of_str Demo.research_prompt
           DemoStartup.int_of_scaled Demo.py_repr Demo.json_dumps prose_world
           now_example (u "c8") acme_request example_store).
  vm_compute. reflexivity.
Defined.

Lemma start_research_raises_after_storing_witness :
  exists e,
    run string_conflicts_world
      (DemoStartup.start now_example (u "c9") acme_request example_store)
    = ((Raise e,
        <[u "c9" := Conversation.mk string_conflicts_plan []
                      (queued_conflicts
                         (research_reply Demo.research_prompt string_conflicts_world
                            acme_request))]> example_store),
       research_log Demo.research_prompt string_conflicts_world acme_request)
    /\ (e = ValueError \/ e = AttributeError).
Proof.
  apply (start_research_raises_after_storing Demo.float_of_str Demo.research_prompt
           DemoStartup.int_of_scaled string_conflicts_world now_example (u "c9")
           acme_request example_store string_conflicts_plan
           [ (u "overview", JStr (u "Acme makes anvils."));
             (u "conflicts", JArr [JStr (u "Revenue figures differ.")]) ]).
  - vm_compute. reflexivity.
  - vm_compute. reflexivity.
  - right. exists (JStr (u "Revenue figures differ.")), [].
    split; vm_compute; reflexivity.
Defined.

Lemma start_research_llm_error_witness :
  exists plan h meta,
    run outage_world (DemoStartup.start now_example (u "c10") acme_request example_store)
    = ((Ok (StartResearchResponse.mk (u "c10") plan),
        <[u "c10" := Conversation.mk plan h (JArr [])]> example_store),
       research_log Demo.research_prompt outage_world acme_request)
    /\ AccountPlan.sections plan
       = [CompanySection.mk (u "Full Research Output")
            (u "(llm_error: " ++ u "Connection error." ++ u ")")]
    /\ AccountPlan.metadata plan = Some meta
    /\ ResearchMetadata.steps meta !! 3%nat
       = Some (ResearchStep.mk (u "llm_synthesis") (u "LLM synthesis of account plan")
                 complete
                 (Some (u "LLM combined all signals into structured account plan.")))
    /\ h !! 5%nat
       = Some (Turn.mk research_user
                 (complete_intro (StartResearchRequest.company_name acme_request) 0)).
Proof.
  apply (start_research_llm_error Demo.float_of_str Demo.research_prompt
           DemoStartup.int_of_scaled outage_world now_example (u "c10") acme_request
           example_store (u "Connection error.")).
  - reflexivity.
  - vm_compute. intuition discriminate.
Defined.

Lemma start_research_non_mapping_witness :
  run number_world (DemoStartup.start now_example (u "c11") acme_request example_store)
  = ((Raise AttributeError, example_store),
     research_log Demo.research_prompt number_world acme_request).
Proof.
  apply (start_research_non_mapping Demo.float_of_str Demo.research_prompt
           DemoStartup.int_of_scaled number_world now_example (u "c11") acme_request
           example_store).
  - vm_compute. reflexivity.
  - vm_compute. reflexivity.
Defined.

(** ** Feedback *)

Section FeedbackFacts.

Variable py_repr : json -> list N.
Variable json_dumps : option nat -> json -> list N.

Lemma generate_feedback_same_ids (req : FeedbackRequest.t)
    (st st' : gmap (list N) Conversation.t) :
  (forall c, st' !! c = None <-> st !! c = None) ->
  generate_feedback req st' = generate_feedback req st.
Proof.
  intros H. unfold generate_feedback.
  specialize (H (FeedbackRequest.conversation_id req)).
  destruct (st' !! _), (st !! _); try reflexivity.
  - destruct H as [_ H]. discriminate (H eq_refl).
  - destruct H as [H _]. discriminate (H eq_refl).
Qed.

(** X19. The feedback does not depend on the conversation: for every known
    identifier the function makes one and the same model call, the base
    system prompt with the fixed template, whatever the plan, the
    transcript and the reviewer's notes are, and returns the model's
    answer; a chat turn or a section edit made before it changes neither
    the call nor the result. *)
Theorem feedback_ignores_conversation (w : World.t) (req : FeedbackRequest.t)
    (st : gmap (list N) Conversation.t) :
  (forall conv, st !! FeedbackRequest.conversation_id req = Some conv ->
     run w (generate_feedback req st)
     = (FeedbackResponse.mk (World.call_llm w BASE_SYSTEM_PROMPT feedback_prompt),
        [LlmCall BASE_SYSTEM_PROMPT feedback_prompt]))
  /\ (forall w' creq,
        generate_feedback req
          (snd (fst (run w' (chat_with_agent py_repr json_dumps creq st))))
        = generate_feedback req st)
  /\ (forall cid title new_content,
        generate_feedback req
          (snd (update_account_plan_section cid title new_content st))
        = generate_feedback req st).
Proof.
  split; [|split].
  - intros conv E. unfold generate_feedback. rewrite E. reflexivity.
  - intros w' creq. apply generate_feedback_same_ids. intros c.
    pose proof (chat_shape py_repr json_dumps w' creq st) as H.
    destruct (st !! ChatMessageRequest.conversation_id creq) as [conv|] eqn:E.
    + destruct H as (hist' & queue' & -> & _).
      destruct (decide (ChatMessageRequest.conversation_id creq = c)) as [<-|Hne].
      * rewrite lookup_insert_eq, E. split; discriminate.
      * rewrite lookup_insert_ne by exact Hne. reflexivity.
    + rewrite H. reflexivity.
  - intros cid title new_content. apply generate_feedback_same_ids. intros c.
    unfold update_account_plan_section.
    destruct (st !! cid) as [state|] eqn:E; [|reflexivity].
    destruct (find_section title _) as [i|]; [|reflexivity].
    cbn [snd]. destruct (decide (cid = c)) as [<-|Hne].
    + rewrite lookup_insert_eq, E. split; discriminate.
    + rewrite lookup_insert_ne by exact Hne. reflexivity.
Qed.

End FeedbackFacts.

(** ** Server-sent events *)

Section FrameFacts.

Implicit Types (s t a c : list N) (x : N).

Lemma split_at_first x s t a c :
  ~ In x s -> s ++ x :: t = a ++ x :: c ->
  (a = s /\ c = t) \/ (exists a', a = s ++ x :: a' /\ t = a' ++ x :: c).
Proof.
  revert a. induction s as [|y s IH]; intros a Hn H.
  - destruct a as [|z a'].
    + injection H as <-. left. split; reflexivity.
    + injection H as <- ->. right. exists a'. split; reflexivity.
  - destruct a as [|z a'].
    + injection H as -> _. exfalso. apply Hn. left. reflexivity.
    + injection H as <- H.
      destruct (IH a') as [[-> ->] | (a'' & -> & ->)].
      * intros Hin. apply Hn. right. exact Hin.
      * exact H.
      * left. split; reflexivity.
      * right. exists a''. split; reflexivity.
Qed.

Lemma replace_char_absent x y s : x <> y -> ~ In x (replace_char x y s).
Proof.
  intros Hxy. unfold replace_char. induction s as [|c s IH]; [intros []|].
  simpl. intros [H|H]; [|exact (IH H)].
  destruct (c =? x) eqn:E.
  - apply Hxy. symmetry. exact H.
  - apply N.eqb_neq in E. apply E. exact H.
Qed.

(** The frame ends with an empty line and holds no two adjacent line feeds
    before its end. *)
Lemma sse_blank_line_at_end event data :
  ~ In 10 event ->
  (exists body, _sse event data = body ++ [10; 10])
  /\ (forall a b, _sse event data = a ++ [10; 10] ++ b -> b = []).
Proof.
  intros Hev. unfold _sse. cbv zeta. split.
  - exists (u "event: " ++ event ++ [10] ++ u "data: " ++ replace_char 10 32 data).
    rewrite <- !app_assoc. reflexivity.
  - intros a b H.
    replace (u "event: " ++ event ++ [10] ++ u "data: " ++ replace_char 10 32 data
               ++ [10; 10])
      with ((u "event: " ++ event)
              ++ 10 :: (u "data: " ++ replace_char 10 32 data) ++ 10 :: [10]) in H
      by (rewrite <- !app_assoc; reflexivity).
    change (a ++ [10; 10] ++ b) with (a ++ 10 :: (10 :: b)) in H.
    apply split_at_first in H.
    + destruct H as [[_ H] | (a' & _ & H)].
      * exfalso. revert H. generalize (replace_char 10 32 data). intros l H.
        vm_compute in H. discriminate H.
      * apply split_at_first in H.
        -- destruct H as [[_ H] | (a'' & _ & H)]; [injection H as ->; reflexivity|].
           exfalso. apply (f_equal (@length N)) in H.
           rewrite length_app in H. simpl in H. lia.
        -- intros Hin. apply in_app_or in Hin as [Hin|Hin].
           ++ vm_compute in Hin. intuition discriminate.
           ++ revert Hin. apply replace_char_absent. discriminate.
    + intros Hin. apply in_app_or in Hin as [Hin|Hin]; [|exact (Hev Hin)].
      vm_compute in Hin. intuition discriminate.
Qed.

Lemma replace_char_keeps_absent x (y z : N) s :
  x <> z -> ~ In x s -> ~ In x (replace_char y z s).
Proof.
  intros Hxz Hn. unfold replace_char. induction s as [|c0 s IH]; [intros []|].
  simpl. intros [H|H].
  - destruct (c0 =? y); [apply Hxz; symmetry; exact H|].
    apply Hn. left. exact H.
  - apply IH; [|exact H]. intros Hin. apply Hn. right. exact Hin.
Qed.

Lemma replace_char_app (y z : N) s t :
  replace_char y z (s ++ t) = replace_char y z s ++ replace_char y z t.
Proof. unfold replace_char. apply List.map_app. Qed.

Lemma no_line_break s :
  ~ In 10 s -> ~ In 13 s -> Forall (fun ch : N => ch <> 10 /\ ch <> 13) s.
Proof.
  intros H10 H13. apply List.Forall_forall. intros ch Hc. split; intros ->; contradiction.
Qed.

(** X20. The line breaks of a frame.  A line of an event stream ends with a
    line feed, a carriage return or both.  For an event name without either
    and data without a carriage return, the frame [_sse] builds is the event
    line, a line feed, the data line (the data with every line feed replaced
    by a space) and two line feeds; neither line holds a line feed or a
    carriage return, so the frame has no line break besides these three, and
    its only empty line is the one that ends it.  Carriage returns in the
    data are not replaced: data with two carriage returns in a row gives a
    frame that holds them before its end, which a reader of the stream
    takes for an empty line. *)
Theorem sse_frame_line_breaks event data :
  ~ In 10 event -> ~ In 13 event -> ~ In 13 data ->
  _sse event data
  = (u "event: " ++ event) ++ [10] ++ (u "data: " ++ replace_char 10 32 data) ++ [10; 10]
  /\ Forall (fun ch : N => ch <> 10 /\ ch <> 13)
       ((u "event: " ++ event) ++ (u "data: " ++ replace_char 10 32 data))
  /\ (forall a b, _sse event data = a ++ [10; 10] ++ b -> b = [])
  /\ (forall before after,
        exists pre,
          _sse event (before ++ [13; 13] ++ after)
          = pre ++ [13; 13] ++ replace_char 10 32 after ++ [10; 10]).
Proof.
  intros He10 He13 Hd13. split; [|split; [|split]].
  - unfold _sse. rewrite <- !app_assoc. reflexivity.
  - apply no_line_break; intros Hin;
      repeat (apply in_app_or in Hin as [Hin|Hin]);
      try (vm_compute in Hin; intuition discriminate);
      try contradiction.
    + revert Hin. apply replace_char_absent. discriminate.
    + revert Hin. apply replace_char_keeps_absent; [discriminate | exact Hd13].
  - apply (sse_blank_line_at_end event data He10).
  - intros before after.
    exists (u "event: " ++ event ++ [10] ++ u "data: " ++ replace_char 10 32 before).
    unfold _sse. rewrite !replace_char_app.
    change (replace_char 10 32 [13; 13]) with [13; 13].
    rewrite <- !app_assoc. reflexivity.
Qed.

End FrameFacts.

Lemma sse_frame_line_breaks_witness :
  _sse (u "token") (u "Acme" ++ [10; 10] ++ u "event: done")
  = (u "event: " ++ u "token") ++ [10]
    ++ (u "data: " ++ replace_char 10 32 (u "Acme" ++ [10; 10] ++ u "event: done"))
    ++ [10; 10]
  /\ Forall (fun ch : N => ch <> 10 /\ ch <> 13)
       ((u "event: " ++ u "token")
        ++ (u "data: " ++ replace_char 10 32 (u "Acme" ++ [10; 10] ++ u "event: done")))
  /\ (forall a b,
        _sse (u "token") (u "Acme" ++ [10; 10] ++ u "event: done") = a ++ [10; 10] ++ b ->
        b = [])
  /\ (forall before after,
        exists pre,
          _sse (u "token") (before ++ [13; 13] ++ after)
          = pre ++ [13; 13] ++ replace_char 10 32 after ++ [10; 10]).
Proof.
  apply (sse_frame_line_breaks (u "token") (u "Acme" ++ [10; 10] ++ u "event: done")).
  - vm_compute. intuition discriminate.
  - vm_compute. intuition discriminate.
  - vm_compute. intuition discriminate.
Defined.

(** ** The model client *)

Section ClientFacts.

Lemma stream_chunks_eq (chunks : list (list (option (option (list N))))) :
  Forall (fun chunk => chunk <> []) chunks ->
  LlmService.stream_chunks chunks
  = (List.filter (@nonempty N) (List.map first_content chunks), LlmService.Exhausted).
Proof.
  induction 1 as [|chunk chunks Hc _ IH]; [reflexivity|].
  destruct chunk as [|delta rest]; [contradiction|].
  cbn [LlmService.stream_chunks]. rewrite IH.
  destruct delta as [[[|c text]|]|]; reflexivity.
Qed.

Lemma concat_filter_nonempty (l : list (list N)) :
  concat (List.filter (@nonempty N) l) = concat l.
Proof.
  induction l as [|[|c t] l IH]; simpl; [reflexivity | exact IH |].
  rewrite IH. reflexivity.
Qed.

(** X21. [stream_llm] loses no text.  When every streamed chunk has a
    choice, the generator ends normally, it yields exactly the non-empty
    contents of the chunks' first choices in arrival order, and the yielded
    chunks put together are the contents put together. *)
Theorem stream_llm_keeps_text (chunks : list (list (option (option (list N))))) :
  Forall (fun chunk => chunk <> []) chunks ->
  LlmService.stream_llm (LlmService.Stream chunks)
  = (List.filter (@nonempty N) (List.map first_content chunks), LlmService.Exhausted)
  /\ Forall (fun text => text <> []) (fst (LlmService.stream_llm (LlmService.Stream chunks)))
  /\ concat (fst (LlmService.stream_llm (LlmService.Stream chunks)))
     = concat (List.map first_content chunks).
Proof.
  intros H. cbn [LlmService.stream_llm]. rewrite (stream_chunks_eq chunks H). cbn [fst].
  split; [reflexivity|]. split; [|apply concat_filter_nonempty].
  apply List.Forall_forall. intros text Hin. apply List.filter_In in Hin as [_ Hin].
  destruct text; [discriminate Hin | discriminate].
Qed.

End ClientFacts.

Lemma stream_llm_keeps_text_witness :
  LlmService.stream_llm
    (LlmService.Stream [ [Some (Some (u "Acme"))]; [Some None]; [Some (Some (u " "))];
                         [None]; [Some (Some [])]; [Some (Some (u "makes anvils"))] ])
  = (List.filter (@nonempty N)
       (List.map first_content
          [ [Some (Some (u "Acme"))]; [Some None]; [Some (Some (u " "))];
            [None]; [Some (Some [])]; [Some (Some (u "makes anvils"))] ]),
     LlmService.Exhausted)
  /\ Forall (fun text => text <> [])
       (fst (LlmService.stream_llm
               (LlmService.Stream
                  [ [Some (Some (u "Acme"))]; [Some None]; [Some (Some (u " "))];
                    [None]; [Some (Some [])]; [Some (Some (u "makes anvils"))] ])))
  /\ concat (fst (LlmService.stream_llm
                    (LlmService.Stream
                       [ [Some (Some (u "Acme"))]; [Some None]; [Some (Some (u " "))];
                         [None]; [Some (Some [])]; [Some (Some (u "makes anvils"))] ])))
     = concat (List.map first_content
                 [ [Some (Some (u "Acme"))]; [Some None]; [Some (Some (u " "))];
                   [None]; [Some (Some [])]; [Some (Some (u "makes anvils"))] ]).
Proof.
  apply (stream_llm_keeps_text
           [ [Some (Some (u "Acme"))]; [Some None]; [Some (Some (u " "))];
             [None]; [Some (Some [])]; [Some (Some (u "makes anvils"))] ]).
  repeat (constructor; [discriminate|]). constructor.
Defined.

(** ** Retrieval *)

Section RetrievalFacts.

Variable py_repr : json -> list N.
Variable error_text : json -> nat -> list N.

Local Abbreviation web_search := (RagService.web_search py_repr error_text).

(** X22. The search cache is keyed by the query alone and is never
    invalidated.  Once a call for a query has returned, every later call
    for that query returns the same chunks without asking the vector store,
    whatever number of documents it asks for and whatever state the store
    is in; the entries of other queries are untouched; and a retrieval that
    failed is remembered as "no chunks". *)
Theorem search_context_cached query k vectordb cache results cache' :
  RagService.search_context query k vectordb cache = (Some results, cache') ->
  (forall k' vectordb',
     RagService.search_context query k' vectordb' cache' = (Some results, cache'))
  /\ (forall q, q <> query -> cache' !! q = cache !! q)
  /\ (forall retriever,
        cache !! query = None -> vectordb = Some retriever ->
        retriever query k = None -> results = []).
Proof.
  unfold RagService.search_context.
  destruct (cache !! query) as [r|] eqn:E.
  - intros [= <- <-]. split; [|split].
    + intros k' vectordb'. rewrite E. reflexivity.
    + reflexivity.
    + intros retriever H. discriminate H.
  - destruct vectordb as [retriever|]; [|discriminate].
    intros [= <- <-]. split; [|split].
    + intros k' vectordb'. rewrite lookup_insert_eq. reflexivity.
    + intros q Hq. apply lookup_insert_ne. congruence.
    + intros retriever' _ [= <-] ->. reflexivity.
Qed.

(** X23. A failed web search counts as a result.  With an API key set, a
    request that raises, or a response body that cannot be processed, makes
    [web_search] return the text "(serper_error: ...)".  That text is not
    empty, so the plan's steps report the web search as complete and
    executed, and the pipeline transcript says the same. *)
Theorem web_search_error_counts_as_result api_key answer num_results rag_ctx :
  has_text api_key = true ->
  match answer with
  | RagService.RequestError _ => True
  | RagService.Body data => RagService.summarize py_repr data num_results = None
  end ->
  let web_text := web_search api_key answer num_results in
  (exists text, web_text = Some (u "(serper_error: " ++ text ++ u ")"))
  /\ has_text web_text = true
  /\ _build_steps rag_ctx web_text !! 2%nat
     = Some (ResearchStep.mk (u "web_search") (u "External web search") complete
               (Some (u "Web search executed via Serper.")))
  /\ web_status_turn web_text
     = Turn.mk pipeline_user
         (u "Step 1 of 4: Searching external web sources and news. Status: "
            ++ u "Web search executed via Serper.").
Proof.
  intros Hkey Hfail web_text.
  assert (H : exists text, web_text = Some (u "(serper_error: " ++ text ++ u ")")).
  { unfold web_text, RagService.web_search. rewrite Hkey.
    destruct answer as [e|data]; [eexists; reflexivity|].
    rewrite Hfail. eexists. reflexivity. }
  destruct H as [text ->]. split; [eexists; reflexivity|].
  repeat split.
Qed.

Lemma organic_lines_spec items parts :
  RagService.organic_lines py_repr items = Some parts <->
  Forall2 (fun o line => RagService.organic_line py_repr o = Some line) items parts.
Proof.
  revert parts. induction items as [|o items IH]; intros parts; simpl.
  - split; [intros [= <-]; constructor | intros H; inversion H; reflexivity].
  - destruct (RagService.organic_line py_repr o) as [line|] eqn:Eo.
    + destruct (RagService.organic_lines py_repr items) as [lines|] eqn:El.
      * split.
        -- intros [= <-]. constructor; [exact Eo | apply IH; reflexivity].
        -- intros H. inversion H as [|? ? ? ? H1 H2]; subst.
           apply IH in H2. congruence.
      * split; [discriminate|]. intros H. inversion H as [|? ? ? ? H1 H2]; subst.
        apply IH in H2. discriminate.
    + split; [discriminate|]. intros H. inversion H as [|? ? ? ? H1 H2]; subst.
      congruence.
Qed.

Lemma organic_lines_dicts items :
  Forall (fun o => is_dict o = true) items ->
  exists parts, RagService.organic_lines py_repr items = Some parts.
Proof.
  induction 1 as [|o items Ho _ [parts IH]]; [exists []; reflexivity|].
  destruct o; try discriminate Ho. simpl. rewrite IH. eexists. reflexivity.
Qed.

(** X24. A well-formed search response.  With an API key set, when the
    body is an object whose organic results are a list of objects and whose
    knowledge-graph text is a string (empty when there is none),
    [web_search] returns one paragraph per organic result, "title: snippet",
    for at most [num_results] results and in their order, after the
    knowledge-graph text when that is not empty; the paragraphs are joined
    by an empty line and the whole is stripped. *)
Theorem web_search_summary api_key data items text num_results :
  has_text api_key = true ->
  dict_lookup (u "organic") data = Some (JArr items) ->
  Forall (fun o => is_dict o = true) items ->
  RagService.knowledge_text data = JStr text ->
  exists lines,
    web_search api_key (RagService.Body (JObj data)) num_results
    = Some (strip (join [10; 10] ((if nonempty text then [text] else []) ++ lines)))
    /\ Forall2 (fun o line => RagService.organic_line py_repr o = Some line)
         (firstn num_results items) lines
    /\ length lines = Nat.min num_results (length items).
Proof.
  intros Hkey Horg Hitems Htext.
  assert (Hfirst : Forall (fun o => is_dict o = true) (firstn num_results items)).
  { apply List.Forall_forall. intros o Ho. rewrite List.Forall_forall in Hitems.
    apply Hitems. rewrite <- (firstn_skipn num_results items).
    apply in_or_app. left. exact Ho. }
  destruct (organic_lines_dicts _ Hfirst) as [lines Hl].
  exists lines. split; [|split].
  - unfold RagService.web_search, RagService.summarize. rewrite Hkey.
    rewrite (dict_lookup_get_or _ (JArr []) _ _ Horg). cbn [RagService.sliced].
    rewrite Hl, Htext. destruct text; reflexivity.
  - apply organic_lines_spec. exact Hl.
  - apply organic_lines_spec in Hl. apply Forall2_length in Hl.
    rewrite <- Hl. apply length_firstn.
Qed.

End RetrievalFacts.

Lemma search_context_cached_witness :
  (forall k' vectordb',
     RagService.search_context (u "Acme") k' vectordb' {[ u "Acme" := [] ]}
     = (Some [], {[ u "Acme" := [] ]}))
  /\ (forall q, q <> u "Acme" ->
        ({[ u "Acme" := [] ]} : gmap (list N) (list (list N))) !! q
        = (∅ : gmap (list N) (list (list N))) !! q)
  /\ (forall retriever,
        (∅ : gmap (list N) (list (list N))) !! u "Acme" = None ->
        failing_store = Some retriever ->
        retriever (u "Acme") 5%nat = None -> @nil (list N) = []).
Proof.
  apply (search_context_cached (u "Acme") 5 failing_store ∅ [] {[ u "Acme" := [] ]}).
  vm_compute. reflexivity.
Defined.

Lemma web_search_error_counts_as_result_witness :
  let web_text :=
    DemoStartup.web (Some (u "key")) (RagService.RequestError (u "timed out")) 5 in
  (exists text, web_text = Some (u "(serper_error: " ++ text ++ u ")"))
  /\ has_text web_text = true
  /\ _build_steps [] web_text !! 2%nat
     = Some (ResearchStep.mk (u "web_search") (u "External web search") complete
               (Some (u "Web search executed via Serper.")))
  /\ web_status_turn web_text
     = Turn.mk pipeline_user
         (u "Step 1 of 4: Searching external web sources and news. Status: "
            ++ u "Web search executed via Serper.").
Proof.
  apply (web_search_error_counts_as_result Demo.py_repr DemoStartup.error_text
           (Some (u "key")) (RagService.RequestError (u "timed out")) 5 []).
  - reflexivity.
  - exact I.
Defined.

Lemma web_search_summary_witness :
  exists lines,
    DemoStartup.web (Some (u "key")) (RagService.Body search_body) 1
    = Some (strip (join [10; 10]
                     ((if nonempty (u "Acme Corp, founded 1949.")
                       then [u "Acme Corp, founded 1949."] else []) ++ lines)))
    /\ Forall2 (fun o line => RagService.organic_line Demo.py_repr o = Some line)
         (firstn 1
            [ JObj [ (u "title", JStr (u "Acme")); (u "snippet", JStr (u "Anvils.")) ];
              JObj [ (u "title", JStr (u "Ajax")); (u "snippet", JStr (u "Rockets.")) ] ])
         lines
    /\ length lines
       = Nat.min 1
           (length
              [ JObj [ (u "title", JStr (u "Acme")); (u "snippet", JStr (u "Anvils.")) ];
                JObj [ (u "title", JStr (u "Ajax")); (u "snippet", JStr (u "Rockets.")) ] ]).
Proof.
  apply (web_search_summary Demo.py_repr DemoStartup.error_text (Some (u "key"))
           [ (u "organic",
              JArr [ JObj [ (u "title", JStr (u "Acme")); (u "snippet", JStr (u "Anvils.")) ];
                     JObj [ (u "title", JStr (u "Ajax")); (u "snippet", JStr (u "Rockets.")) ] ]);
             (u "knowledgeGraph",
              JObj [ (u "description", JStr (u "Acme Corp, founded 1949.")) ]) ]).
  - reflexivity.
  - vm_compute. reflexivity.
  - repeat constructor.
  - vm_compute. reflexivity.
Defined.

(** ** The results page and the report *)

Section PageFacts.

Variable float_of_str : list N -> option pyfloat.

Local Abbreviation build := (_build_account_plan_from_llm float_of_str).

Implicit Types (st : gmap (list N) Conversation.t).

(** X25. The results page of a freshly synthesized plan.  For a plan of the
    structured path the page shows the stored plan and transcript and the
    store is left as it is: the plan's auxiliary data always has the key
    "swot_radar_scores", so the default the page would insert is never
    inserted.  For a plan of the fallback path, which has no auxiliary
    data, the page raises [AttributeError]. *)
Theorem research_results_of_synthesized now raw req rag_ctx web_text plan cid h q st :
  build now raw req rag_ctx web_text = Ok plan ->
  st !! cid = Some (Conversation.mk plan h q) ->
  research_results cid st
  = (if truthy (_parse_llm_json raw)
     then Ok (ResultsPage cid plan h)
     else Raise AttributeError,
     st).
Proof.
  intros Hb Hst. revert Hb Hst. unfold _build_account_plan_from_llm.
  destruct (truthy (_parse_llm_json raw)) eqn:Et; cbn [negb].
  - destruct (_parse_llm_json raw); try discriminate.
    repeat match goal with
           | |- context [@mbind result _ _ _ _ ?r] =>
               destruct r; cbn [mbind result_bind]; try discriminate
           end.
    intros [= <-] Hst. unfold research_results, get_conversation_state. rewrite Hst.
    cbn [Conversation.plan Conversation.history Conversation.conflicts_to_resolve
         AccountPlan.sources].
    unfold dict_setdefault. cbn [dict_lookup].
    change (str_eqb (u "swot_radar_scores") (u "swot_radar_scores")) with true.
    cbn [set_sources]. rewrite (insert_id _ _ _ Hst). reflexivity.
  - intros [= <-] Hst. unfold research_results, get_conversation_state. rewrite Hst.
    reflexivity.
Qed.

End PageFacts.

Section ReportFacts.

Implicit Types (st : gmap (list N) Conversation.t) (l : list CompanySection.t).

Lemma join_lines_entry (pre post : list (list N)) (heading content : list N) :
  exists a b,
    join [10] (pre ++ [heading; content; []] ++ post)
    = a ++ (heading ++ [10] ++ content ++ [10]) ++ b.
Proof.
  induction pre as [|x pre (a & b & IH)].
  - exists [], (join [10] ([] :: post)).
    change (join [10] ([] ++ [heading; content; []] ++ post))
      with (heading ++ [10] ++ content ++ [10] ++ join [10] ([] :: post)).
    generalize (join [10] ([] :: post)). intros rest.
    repeat (rewrite <- ?app_assoc; cbn [app]). reflexivity.
  - exists (x ++ [10] ++ a), b.
    replace (join [10] ((x :: pre) ++ [heading; content; []] ++ post))
      with (x ++ [10] ++ join [10] (pre ++ [heading; content; []] ++ post))
      by (destruct pre; reflexivity).
    rewrite IH, <- !app_assoc. reflexivity.
Qed.

Lemma report_has_section plan s :
  In s (AccountPlan.sections plan) ->
  exists a b,
    join [10] (report_lines plan)
    = a ++ report_entry (CompanySection.title s) (CompanySection.content s) ++ b.
Proof.
  intros Hin. apply in_split in Hin as (l1 & l2 & E).
  set (lines := fun section =>
                  [ u "## " ++ CompanySection.title section;
                    CompanySection.content section; [] ]).
  assert (Hl : report_lines plan
               = ([ u "Company Research Report: " ++ AccountPlan.company_name plan; [];
                    AccountPlan.overview plan; [] ] ++ flat_map lines l1)
                 ++ [ u "## " ++ CompanySection.title s; CompanySection.content s; [] ]
                 ++ flat_map lines l2).
  { unfold report_lines. fold lines. rewrite E, flat_map_app. cbn [flat_map].
    unfold lines at 2. rewrite <- !app_assoc. reflexivity. }
  rewrite Hl.
  destruct (join_lines_entry
              ([ u "Company Research Report: " ++ AccountPlan.company_name plan; [];
                 AccountPlan.overview plan; [] ] ++ flat_map lines l1)
              (flat_map lines l2)
              (u "## " ++ CompanySection.title s) (CompanySection.content s))
    as (a & b & H).
  exists a, b. rewrite H. unfold report_entry.
  repeat (rewrite <- ?app_assoc; cbn [app]). reflexivity.
Qed.

Lemma update_sections cid title new_content st conv i :
  st !! cid = Some conv ->
  find_section title (AccountPlan.sections (Conversation.plan conv)) = Some i ->
  exists plan',
    update_account_plan_section cid title new_content st
    = (true,
       <[cid := Conversation.mk plan'
                  (Conversation.history conv ++ [edit_turn title])
                  (Conversation.conflicts_to_resolve conv)]> st)
    /\ AccountPlan.sections plan'
       = alter (set_content new_content) i
           (AccountPlan.sections (Conversation.plan conv)).
Proof.
  intros E Hi. unfold update_account_plan_section. rewrite E, Hi.
  eexists. split; [reflexivity|].
  destruct (hasattr (attr_name_of title)
            && negb (bool_decide (attr_name_of title ∈ protected_attrs)));
    [|apply sections_set_sections].
  destruct (setattr _ _ _) as [plan'|] eqn:Ea; [|apply sections_set_sections].
  rewrite (setattr_sections _ _ _ _ Ea). apply sections_set_sections.
Qed.

Lemma utf8_encodable_app a b :
  utf8_encodable (a ++ b) = utf8_encodable a && utf8_encodable b.
Proof. apply forallb_app. Qed.

Lemma utf8_encodable_join (lines : list (list N)) :
  utf8_encodable (join [10] lines) = forallb utf8_encodable lines.
Proof.
  induction lines as [|x lines IH]; [reflexivity|].
  destruct lines as [|y lines].
  - simpl. rewrite andb_true_r. reflexivity.
  - change (join [10] (x :: y :: lines)) with (x ++ [10] ++ join [10] (y :: lines)).
    rewrite !utf8_encodable_app, IH. reflexivity.
Qed.

Lemma section_lines_encodable new l i s :
  l !! i = Some s ->
  utf8_encodable new = true ->
  forallb utf8_encodable
    (flat_map (fun section =>
                 [ u "## " ++ CompanySection.title section;
                   CompanySection.content section; [] ]) l) = true ->
  forallb utf8_encodable
    (flat_map (fun section =>
                 [ u "## " ++ CompanySection.title section;
                   CompanySection.content section; [] ])
       (alter (set_content new) i l)) = true.
Proof.
  intros Hs Hnew. revert i Hs. induction l as [|x l IH]; intros [|i] Hs; try discriminate.
  - cbn [alter list_alter flat_map app forallb set_content CompanySection.title
         CompanySection.content].
    intros H. apply andb_true_iff in H as [H1 H]. apply andb_true_iff in H as [_ H].
    rewrite H1, Hnew. exact H.
  - cbn [alter list_alter flat_map app forallb].
    intros H. apply andb_true_iff in H as [H1 H]. apply andb_true_iff in H as [H2 H].
    rewrite H1, H2. cbn [andb]. apply (IH i Hs).
    exact H.
Qed.

Lemma setattr_narrative_keeps name v p p' :
  In name [ u "company_profile"; u "market_analysis"; u "financial_highlights";
            u "product_portfolio"; u "technology_stack"; u "competitors";
            u "opportunities"; u "risks" ] ->
  setattr name v p = Some p' ->
  AccountPlan.company_name p' = AccountPlan.company_name p
  /\ AccountPlan.overview p' = AccountPlan.overview p.
Proof.
  intros Hin. destruct p. simpl in Hin.
  repeat match goal with
         | H : _ \/ _ |- _ => destruct H as [H|H]
         end;
    try contradiction; subst name; vm_compute; intros [= <-]; split; reflexivity.
Qed.

Lemma set_sections_keeps v p :
  AccountPlan.company_name (set_sections v p) = AccountPlan.company_name p
  /\ AccountPlan.overview (set_sections v p) = AccountPlan.overview p.
Proof. destruct p. split; reflexivity. Qed.

(** An edit of a section with a synthesized title: the plan afterwards. *)
Lemma update_plan cid title new_content st conv i :
  st !! cid = Some conv ->
  find_section title (AccountPlan.sections (Conversation.plan conv)) = Some i ->
  title ∈ synthesized_titles ->
  exists plan',
    update_account_plan_section cid title new_content st
    = (true,
       <[cid := Conversation.mk plan'
                  (Conversation.history conv ++ [edit_turn title])
                  (Conversation.conflicts_to_resolve conv)]> st)
    /\ AccountPlan.sections plan'
       = alter (set_content new_content) i
           (AccountPlan.sections (Conversation.plan conv))
    /\ AccountPlan.company_name plan' = AccountPlan.company_name (Conversation.plan conv)
    /\ AccountPlan.overview plan' = AccountPlan.overview (Conversation.plan conv).
Proof.
  intros E Hi Ht. unfold update_account_plan_section. rewrite E, Hi.
  eexists. split; [reflexivity|].
  pose proof attr_name_of_synthesized as Hattr.
  rewrite Forall_forall in Hattr. specialize (Hattr title Ht).
  pose proof (set_sections_keeps
                (alter (set_content new_content) i
                   (AccountPlan.sections (Conversation.plan conv)))
                (Conversation.plan conv)) as [Hn Ho].
  destruct (hasattr (attr_name_of title)) eqn:Eh; cbn [andb].
  - destruct Hattr as [Hattr|Hattr]; [discriminate|].
    destruct (negb (bool_decide (attr_name_of title ∈ protected_attrs)));
      [|split; [apply sections_set_sections | split; assumption]].
    destruct (setattr _ _ _) as [plan'|] eqn:Ea;
      [|split; [apply sections_set_sections | split; assumption]].
    destruct (setattr_narrative_keeps _ _ _ _ Hattr Ea) as [Hn' Ho'].
    split; [|split; congruence].
    rewrite (setattr_sections _ _ _ _ Ea). apply sections_set_sections.
  - split; [apply sections_set_sections | split; assumption].
Qed.

Lemma latin1_attachment_header name : latin1 (attachment_header name) = latin1 name.
Proof.
  unfold attachment_header, latin1. rewrite !forallb_app.
  change (forallb (fun c => c <=? 255) (u "attachment; filename=")) with true.
  change (forallb (fun c => c <=? 255) [34]) with true.
  change (forallb (fun c => c <=? 255) (u "_report.txt")) with true.
  cbn [andb]. rewrite !andb_true_r. reflexivity.
Qed.

(** X26. An edit shows in the download.  After a successful edit of a
    section of a stored plan, the report for that conversation contains the
    heading of the section followed by the new content.  The report is
    delivered, with status 200, when the company name can be encoded in
    Latin-1 and the report before the edit and the new content in UTF-8;
    for any stored plan whose company name is outside Latin-1 the handler
    raises [UnicodeEncodeError] when it builds the response. *)
Theorem download_report_after_edit cid title new_content st conv s :
  st !! cid = Some conv ->
  titles_synthesized (Conversation.plan conv) ->
  In s (AccountPlan.sections (Conversation.plan conv)) ->
  CompanySection.title s = title ->
  latin1 (AccountPlan.company_name (Conversation.plan conv)) = true ->
  utf8_encodable (join [10] (report_lines (Conversation.plan conv))) = true ->
  utf8_encodable new_content = true ->
  let st' := snd (update_account_plan_section cid title new_content st) in
  fst (update_account_plan_section cid title new_content st) = true
  /\ (exists resp a b,
        download_report cid st' = Ok resp
        /\ PlainTextResponse.status_code resp = 200%nat
        /\ PlainTextResponse.body resp = a ++ report_entry title new_content ++ b)
  /\ (forall cid0 st0 conv0,
        st0 !! cid0 = Some conv0 ->
        latin1 (AccountPlan.company_name (Conversation.plan conv0)) = false ->
        download_report cid0 st0 = Raise UnicodeEncodeError).
Proof.
  intros E Htitles Hs Ht Hl Hu Hnew st'. subst st'.
  destruct (find_section_some title _ s Hs Ht) as [i Hi].
  destruct (find_section_lookup _ _ _ Hi) as (s0 & Hs0 & Ht0).
  assert (Hsyn : title ∈ synthesized_titles).
  { unfold titles_synthesized in Htitles. rewrite Forall_forall in Htitles.
    rewrite <- Ht0. apply Htitles. exact (list_elem_of_lookup_2 _ _ _ Hs0). }
  destruct (update_plan cid title new_content st conv i E Hi Hsyn)
    as (plan' & -> & Hsec & Hname & Hov).
  cbn [fst snd]. split; [reflexivity|]. split.
  - unfold download_report, get_conversation_state. rewrite lookup_insert_eq.
    cbn [Conversation.plan]. unfold plain_text_response.
    assert (Hbody : utf8_encodable (join [10] (report_lines plan')) = true).
    { rewrite utf8_encodable_join in Hu |- *. unfold report_lines in Hu |- *.
      rewrite forallb_app in Hu |- *. apply andb_true_iff in Hu as [Hhead Hrest].
      rewrite Hname, Hov, Hhead, Hsec. cbn [andb].
      exact (section_lines_encodable _ _ _ _ Hs0 Hnew Hrest). }
    rewrite Hbody, latin1_attachment_header, Hname, Hl. cbn [andb].
    assert (Hin : In (CompanySection.mk title new_content) (AccountPlan.sections plan')).
    { rewrite Hsec, (alter_set_content _ _ _ _ Hs0), Ht0.
      apply list_elem_of_In. apply (list_elem_of_lookup_2 _ i).
      apply list_lookup_insert_eq. apply lookup_lt_Some in Hs0. exact Hs0. }
    destruct (report_has_section plan' _ Hin) as (a & b & Hab).
    eexists _, a, b. split; [reflexivity|]. split; [reflexivity|]. exact Hab.
  - intros cid0 st0 conv0 E0 Hl0. unfold download_report, get_conversation_state.
    rewrite E0. cbn [Conversation.plan]. unfold plain_text_response.
    rewrite latin1_attachment_header, Hl0, andb_false_r. reflexivity.
Qed.

End ReportFacts.

Lemma research_results_of_synthesized_witness :
  research_results (u "c1") example_store
  = (if truthy (_parse_llm_json full_reply_text)
     then Ok (ResultsPage (u "c1") full_plan [])
     else Raise AttributeError,
     example_store).
Proof.
  apply (research_results_of_synthesized Demo.float_of_str now_example full_reply_text
           acme_request [] None full_plan (u "c1") [] (JArr [revenue_conflict])
           example_store).
  - vm_compute. reflexivity.
  - exact example_store_lookup.
Defined.

Lemma download_report_after_edit_witness :
  let st' :=
    snd (update_account_plan_section (u "c1") (u "Risks") (u "New risks.") example_store) in
  fst (update_account_plan_section (u "c1") (u "Risks") (u "New risks.") example_store)
  = true
  /\ (exists resp a b,
        download_report (u "c1") st' = Ok resp
        /\ PlainTextResponse.status_code resp = 200%nat
        /\ PlainTextResponse.body resp = a ++ report_entry (u "Risks") (u "New risks.") ++ b)
  /\ (forall cid0 st0 conv0,
        st0 !! cid0 = Some conv0 ->
        latin1 (AccountPlan.company_name (Conversation.plan conv0)) = false ->
        download_report cid0 st0 = Raise UnicodeEncodeError).
Proof.
  apply (download_report_after_edit (u "c1") (u "Risks") (u "New risks.") example_store
           (Conversation.mk full_plan [] (JArr [revenue_conflict]))
           (CompanySection.mk (u "Risks") (u "Coyotes."))).
  - exact example_store_lookup.
  - exact full_plan_titles.
  - vm_compute. tauto.
  - reflexivity.
  - vm_compute. reflexivity.
  - vm_compute. reflexivity.
  - vm_compute. reflexivity.
Defined.
